(** * Error-handler registry and dispatch engine of expressjs-base

    A shallow embedding of

    - [core/helpers/error-handler-registry.helper.js]  (registry, safe wrapper,
      fallback response builder, dispatch entry point),
    - [core/helpers/response.helper.js]                (the [HttpResponse] class),
    - [core/middlewares/error-handler.middleware.js]   (terminal middleware),
    - [core/constants/http-status.constant.js], [core/utils/safe-get.util.js],

    followed by the properties the specification states about them.

    Scope of the embedding.  JavaScript values are first-order data: objects
    carry data properties only (no accessors, no Proxy), numbers are integers,
    and every function the core does not define itself (handlers, the
    transport's methods, [next], a request's [get]) is an opaque callable whose
    outcome is read from the environment ([call]).  Such callables do not
    mutate the error, the registry or the response they are given.  The clock
    and the random source are read once ([now_iso], [now_ms], [rand36]). *)

From Stdlib Require Import List String Ascii ZArith Bool Lia.
Import ListNotations.

Local Open Scope string_scope.
Local Open Scope list_scope.

Set Warnings "-register-all".

(* ------------------------------------------------------------------------- *)
(** ** Constructor functions and the prototype chain                          *)
(* ------------------------------------------------------------------------- *)

(** A function that owns a [prototype] object: an ES class or a [function]
    declaration.  [id] is the identity of the function object (two separate
    declarations differ in it); [super] is what the class [extends]. *)
Inductive jsclass : Type :=
| Root (id : nat) (name : string)
| Extends (id : nat) (name : string) (super : jsclass).

(** Callables.  [FLambda] is a function without a [prototype] property (arrow
    function, method, async function). *)
Inductive fn : Type :=
| FClass (c : jsclass)
| FLambda (id : nat) (name : string).

Inductive pstate : Type := PFulfilled | PRejected | PPending.

Inductive value : Type :=
| VUndef
| VNull
| VBool (b : bool)
| VNum (n : Z)
| VStr (s : string)
| VFun (f : fn)
| VObj (proto : option jsclass) (own : list (string * value))
| VPromise (st : pstate) (v : value).

Definition class_id (c : jsclass) : nat :=
  match c with Root i _ | Extends i _ _ => i end.

Definition class_name (c : jsclass) : string :=
  match c with Root _ n | Extends _ n _ => n end.

Fixpoint class_eqb (a b : jsclass) : bool :=
  match a, b with
  | Root i n, Root j m => Nat.eqb i j && String.eqb n m
  | Extends i n s, Extends j m t => Nat.eqb i j && String.eqb n m && class_eqb s t
  | _, _ => false
  end.

Definition fn_eqb (f g : fn) : bool :=
  match f, g with
  | FClass a, FClass b => class_eqb a b
  | FLambda i n, FLambda j m => Nat.eqb i j && String.eqb n m
  | _, _ => false
  end.

Definition fn_name (f : fn) : string :=
  match f with FClass c => class_name c | FLambda _ n => n end.

(** [inherits c k]: [k.prototype] is on the prototype chain that starts at
    [c.prototype] (so [c] is [k] or extends it, directly or not). *)
Fixpoint inherits (c k : jsclass) : bool :=
  class_eqb c k ||
  match c with
  | Root _ _ => false
  | Extends _ _ s => inherits s k
  end.

(** [k] is a proper ancestor of [c]. *)
Definition proper_ancestor (k c : jsclass) : bool :=
  match c with
  | Root _ _ => false
  | Extends _ _ s => inherits s k
  end.

Fixpoint class_depth (c : jsclass) : nat :=
  match c with
  | Root _ _ => 0
  | Extends _ _ s => S (class_depth s)
  end.

(** Built-in constructors and the two classes the repository defines. *)
Definition ObjectClass : jsclass := Root 0 "Object".
Definition FunctionClass : jsclass := Extends 1 "Function" ObjectClass.
Definition ErrorClass : jsclass := Extends 2 "Error" ObjectClass.
Definition TypeErrorClass : jsclass := Extends 3 "TypeError" ErrorClass.
Definition NumberClass : jsclass := Extends 4 "Number" ObjectClass.
Definition StringClass : jsclass := Extends 5 "String" ObjectClass.
Definition BooleanClass : jsclass := Extends 6 "Boolean" ObjectClass.
Definition PromiseClass : jsclass := Extends 7 "Promise" ObjectClass.
Definition ArrayClass : jsclass := Extends 8 "Array" ObjectClass.
Definition HttpResponseClass : jsclass := Extends 10 "HttpResponse" ObjectClass.
Definition BaseExceptionClass : jsclass := Extends 11 "BaseException" ErrorClass.

(* ------------------------------------------------------------------------- *)
(** ** Results, events, environment, state                                    *)
(* ------------------------------------------------------------------------- *)

Inductive result (A : Type) : Type :=
| Ok (a : A)
| Throw (e : value).
Arguments Ok {A} a.
Arguments Throw {A} e.

(** What the core does to the outside world, in order. *)
Inductive event : Type :=
| ELog (level : string) (args : list value)
| ECall (f : fn) (this : value) (args : list value).

(** A [Map] whose keys are functions, in insertion order. *)
Definition MapObj : Type := list (fn * fn).

(** References to [Map] objects: the one bound to the module constant
    [errorHandlerRegistry], and those allocated later by [new Map(...)]. *)
Inductive ref : Type :=
| RegistryRef
| FreshRef (n : nat).

Record state : Type := mkState {
  registry_cell : MapObj;
  fresh_maps : list MapObj;
  trace : list event
}.

Definition initial_state : state :=
  {| registry_cell := []; fresh_maps := []; trace := [] |}.

(** Everything the core reads but does not own. *)
Record Env : Type := mkEnv {
  now_iso : string;                       (* new Date().toISOString() *)
  now_ms : string;                        (* Date.now(), printed *)
  rand36 : string;                        (* Math.random().toString(36).substr(2, 8) *)
  NODE_ENV : value;                       (* process.env.NODE_ENV *)
  USE_STATUS_CODE_IN_RESPONSE : value;    (* HTTP_OPTIONS.* *)
  SET_DEFAULT_HTTP_STATUS_CODE : value;
  DEFAULT_HTTP_STATUS_CODE : value;
  STATUS_CODES : value;                   (* Node's http.STATUS_CODES *)
  call : fn -> value -> list value -> result value
}.

Definition M (A : Type) : Type := state -> result A * state.

Definition ret {A} (a : A) : M A := fun st => (Ok a, st).

Definition throw {A} (e : value) : M A := fun st => (Throw e, st).

Definition bind {A B} (m : M A) (k : A -> M B) : M B :=
  fun st =>
    match m st with
    | (Ok a, st') => k a st'
    | (Throw e, st') => (Throw e, st')
    end.

Definition try_catch {A} (m : M A) (h : value -> M A) : M A :=
  fun st =>
    match m st with
    | (Ok a, st') => (Ok a, st')
    | (Throw e, st') => h e st'
    end.

Definition lift {A} (r : result A) : M A := fun st => (r, st).

Definition add_event (e : event) (st : state) : state :=
  {| registry_cell := registry_cell st;
     fresh_maps := fresh_maps st;
     trace := trace st ++ [e] |}.

Definition emit (e : event) : M unit := fun st => (Ok tt, add_event e st).

Notation "x <- m ;; k" := (bind m (fun x => k))
  (at level 61, m at next level, right associativity).
Notation "m ;;; k" := (bind m (fun _ => k))
  (at level 61, right associativity).

(* ------------------------------------------------------------------------- *)
(** ** The fragment of JavaScript the core relies on                          *)
(* ------------------------------------------------------------------------- *)

Definition truthy (v : value) : bool :=
  match v with
  | VUndef | VNull => false
  | VBool b => b
  | VNum n => negb (Z.eqb n 0)
  | VStr s => negb (String.eqb s EmptyString)
  | VFun _ | VObj _ _ | VPromise _ _ => true
  end.

Definition nullish (v : value) : bool :=
  match v with VUndef | VNull => true | _ => false end.

Definition is_object (v : value) : bool :=
  match v with VFun _ | VObj _ _ | VPromise _ _ => true | _ => false end.

Definition typeof_ (v : value) : string :=
  match v with
  | VUndef => "undefined"
  | VNull => "object"
  | VBool _ => "boolean"
  | VNum _ => "number"
  | VStr _ => "string"
  | VFun _ => "function"
  | VObj _ _ | VPromise _ _ => "object"
  end.

(** [a || b], [a ?? b] on already evaluated operands. *)
Definition js_or (a b : value) : value := if truthy a then a else b.
Definition js_coalesce (a b : value) : value := if nullish a then b else a.

Fixpoint lookup (k : string) (ps : list (string * value)) : option value :=
  match ps with
  | [] => None
  | (k', v) :: rest => if String.eqb k k' then Some v else lookup k rest
  end.

(** [o[k] = v] on the property list of an object literal under construction:
    an existing key keeps its place. *)
Fixpoint set_prop (k : string) (v : value) (ps : list (string * value))
  : list (string * value) :=
  match ps with
  | [] => [(k, v)]
  | (k', v') :: rest =>
      if String.eqb k k' then (k, v) :: rest else (k', v') :: set_prop k v rest
  end.

(** [{...target, ...src}]. *)
Definition assign (target src : list (string * value)) : list (string * value) :=
  fold_left (fun acc kv => set_prop (fst kv) (snd kv) acc) src target.

Definition obj (ps : list (string * value)) : value := VObj (Some ObjectClass) ps.

(** An error object as [new cls(msg)] leaves it: own [message] and [stack];
    [name] comes from the prototype. *)
Definition mkError (cls : jsclass) (msg : string) : value :=
  VObj (Some cls)
       [("stack", VStr (class_name cls ++ ": " ++ msg ++ "
    at <anonymous>")%string);
        ("message", VStr msg)].

Definition type_error (msg : string) : value := mkError TypeErrorClass msg.

(** Decimal rendering of a number, as [String(n)] gives it. *)
Definition digit_of (n : nat) : ascii := ascii_of_nat (48 + n).

Fixpoint dec_digits (fuel n : nat) (acc : string) : string :=
  match fuel with
  | O => acc
  | S fuel' =>
      let acc' := String (digit_of (Nat.modulo n 10)) acc in
      match Nat.div n 10 with
      | O => acc'
      | q => dec_digits fuel' q acc'
      end
  end.

Definition string_of_nat (n : nat) : string := dec_digits (S n) n EmptyString.

Definition string_of_Z (z : Z) : string :=
  match z with
  | Z0 => "0"
  | Zpos _ => string_of_nat (Z.to_nat z)
  | Zneg _ => ("-" ++ string_of_nat (Z.to_nat (Z.opp z)))%string
  end.

(** Reading an unsigned decimal numeral; [None] stands for [NaN]. *)
Fixpoint parse_dec (s : string) (acc : Z) : option Z :=
  match s with
  | EmptyString => Some acc
  | String c rest =>
      let n := nat_of_ascii c in
      if andb (Nat.leb 48 n) (Nat.leb n 57)
      then parse_dec rest (10 * acc + Z.of_nat (n - 48))%Z
      else None
  end.

(** [ToNumber], exact on [undefined], [null], booleans and numbers.  An object
    or function operand would go through its [valueOf]/[toString] methods -
    and fail with a [TypeError] when it has none - and a string through the
    grammar of numeric literals; both are read here as [NaN] unless the string
    is an unsigned decimal numeral.  Statements that depend on a comparison of
    a status code keep to the exact part (see [plain_status]). *)
Definition to_number (v : value) : option Z :=
  match v with
  | VUndef => None
  | VNull => Some 0%Z
  | VBool b => Some (if b then 1 else 0)%Z
  | VNum n => Some n
  | VStr s => parse_dec s 0
  | VFun _ | VObj _ _ | VPromise _ _ => None
  end.

(** [String(v)] / template-literal interpolation, exact on [undefined],
    [null], booleans, strings and integers below 10^21 in magnitude.  For
    objects and functions the text depends on their [toString] - the
    conversion fails with a [TypeError] when there is none - and the default
    rendering of a plain object is used here.  Statements that depend on the
    text keep to the exact part (see [printable], [text_named]). *)
Definition to_string (v : value) : string :=
  match v with
  | VUndef => "undefined"
  | VNull => "null"
  | VBool true => "true"
  | VBool false => "false"
  | VNum n => string_of_Z n
  | VStr s => s
  | VFun f => ("function " ++ fn_name f)%string
  | VObj _ _ => "[object Object]"
  | VPromise _ _ => "[object Promise]"
  end.

Definition nth_char (s : string) (i : nat) : value :=
  match String.get i s with
  | Some c => VStr (String c EmptyString)
  | None => VUndef
  end.

(** Properties an object finds on its prototype chain.  Only data properties
    are values here; prototype methods are dealt with where they are called. *)
Definition inherited (proto : option jsclass) (k : string) : value :=
  match proto with
  | None => VUndef
  | Some c =>
      if String.eqb k "constructor" then VFun (FClass c)
      else if inherits c ErrorClass then
        if String.eqb k "name"
        then VStr (if inherits c TypeErrorClass then "TypeError" else "Error")
        else if String.eqb k "message" then VStr EmptyString
        else VUndef
      else VUndef
  end.

Definition promise_then : fn := FLambda 20 "then".
Definition promise_catch : fn := FLambda 21 "catch".

(** [v[k]] for a value that is not [null] or [undefined]. *)
Definition prop (v : value) (k : string) : value :=
  match v with
  | VUndef | VNull => VUndef
  | VBool _ => inherited (Some BooleanClass) k
  | VNum _ => inherited (Some NumberClass) k
  | VStr s =>
      if String.eqb k "length" then VNum (Z.of_nat (String.length s))
      else match parse_dec k 0 with
           | Some i => if String.eqb k EmptyString then VUndef else nth_char s (Z.to_nat i)
           | None => inherited (Some StringClass) k
           end
  | VFun f =>
      if String.eqb k "name" then VStr (fn_name f)
      else inherited (Some FunctionClass) k
  | VObj proto own =>
      match lookup k own with
      | Some x => x
      | None => inherited proto k
      end
  | VPromise _ _ =>
      if String.eqb k "then" then VFun promise_then
      else if String.eqb k "catch" then VFun promise_catch
      else inherited (Some PromiseClass) k
  end.

(** [v.k]: a [TypeError] when [v] is [null] or [undefined]. *)
Definition get_prop (v : value) (k : string) : result value :=
  if nullish v
  then Throw (type_error ("Cannot read properties of " ++ to_string v
                          ++ " (reading '" ++ k ++ "')")%string)
  else Ok (prop v k).

(** [v?.k]. *)
Definition opt_prop (v : value) (k : string) : value :=
  if nullish v then VUndef else prop v k.

(** The class whose [prototype] heads the prototype chain of [v]. *)
Definition proto_of (v : value) : option jsclass :=
  match v with
  | VObj proto _ => proto
  | VFun _ => Some FunctionClass
  | VPromise _ _ => Some PromiseClass
  | _ => None
  end.

(** [v instanceof k] for a class [k]; it cannot throw. *)
Definition instance_of_class (v : value) (k : jsclass) : bool :=
  match proto_of v with
  | Some c => inherits c k
  | None => false
  end.

(** [v instanceof k] for a callable [k] (OrdinaryHasInstance): a primitive on
    the left is never an instance; otherwise [k.prototype] must be an object,
    which a function without [prototype] does not offer. *)
Definition instanceOf (v : value) (k : fn) : result bool :=
  if is_object v then
    match k with
    | FClass c => Ok (instance_of_class v c)
    | FLambda _ _ =>
        Throw (type_error
                 "Function has non-object prototype 'undefined' in instanceof check")
    end
  else Ok false.

(** [err.constructor === k]. *)
Definition is_fn (v : value) (k : fn) : bool :=
  match v with
  | VFun f => fn_eqb f k
  | _ => false
  end.

(* ------------------------------------------------------------------------- *)
(** ** [Map] objects                                                          *)
(* ------------------------------------------------------------------------- *)

Fixpoint map_get (k : fn) (m : MapObj) : option fn :=
  match m with
  | [] => None
  | (k', h) :: rest => if fn_eqb k k' then Some h else map_get k rest
  end.

(** [Map.prototype.set]: a key already present keeps its position. *)
Fixpoint map_set (k h : fn) (m : MapObj) : MapObj :=
  match m with
  | [] => [(k, h)]
  | (k', h') :: rest =>
      if fn_eqb k k' then (k, h) :: rest else (k', h') :: map_set k h rest
  end.

Fixpoint map_delete (k : fn) (m : MapObj) : MapObj :=
  match m with
  | [] => []
  | (k', h') :: rest =>
      if fn_eqb k k' then rest else (k', h') :: map_delete k rest
  end.

Definition keys (m : MapObj) : list fn := map fst m.

Definition read_map (r : ref) (st : state) : MapObj :=
  match r with
  | RegistryRef => registry_cell st
  | FreshRef n => nth n (fresh_maps st) []
  end.

Fixpoint update_nth (n : nat) (m : MapObj) (l : list MapObj) : list MapObj :=
  match l, n with
  | [], _ => []
  | _ :: rest, O => m :: rest
  | x :: rest, S n' => x :: update_nth n' m rest
  end.

Definition write_map (r : ref) (m : MapObj) (st : state) : state :=
  match r with
  | RegistryRef =>
      {| registry_cell := m; fresh_maps := fresh_maps st; trace := trace st |}
  | FreshRef n =>
      {| registry_cell := registry_cell st;
         fresh_maps := update_nth n m (fresh_maps st);
         trace := trace st |}
  end.

(** [new Map(src)]: a fresh object holding a copy of the entries. *)
Definition new_map (src : MapObj) : M ref :=
  fun st =>
    (Ok (FreshRef (List.length (fresh_maps st))),
     {| registry_cell := registry_cell st;
        fresh_maps := fresh_maps st ++ [src];
        trace := trace st |}).

Definition Map_set (r : ref) (k h : fn) : M unit :=
  fun st => (Ok tt, write_map r (map_set k h (read_map r st)) st).

Definition Map_delete (r : ref) (k : fn) : M unit :=
  fun st => (Ok tt, write_map r (map_delete k (read_map r st)) st).

Definition Map_clear (r : ref) : M unit :=
  fun st => (Ok tt, write_map r [] st).

Definition Map_entries (r : ref) : M MapObj :=
  fun st => (Ok (read_map r st), st).

(* ------------------------------------------------------------------------- *)
(** ** error-handler-registry.helper.js: the registry                          *)
(* ------------------------------------------------------------------------- *)

Definition errorHandlerRegistry : ref := RegistryRef.

(** The two guards test [typeof x !== 'function'], which holds of every value
    but a [VFun]. *)
Definition registerErrorHandler (ExceptionClass handler : value) : M value :=
  match ExceptionClass with
  | VFun k =>
      match handler with
      | VFun h => Map_set errorHandlerRegistry k h ;;; ret VUndef
      | _ => throw (mkError ErrorClass "Handler must be a function")
      end
  | _ => throw (mkError ErrorClass "ExceptionClass must be a constructor function")
  end.

(** First loop of [findErrorHandler]. *)
Fixpoint exact_phase (err : value) (entries : MapObj) : result (option fn) :=
  match entries with
  | [] => Ok None
  | (ExceptionClass, handler) :: rest =>
      match get_prop err "constructor" with
      | Throw e => Throw e
      | Ok c => if is_fn c ExceptionClass then Ok (Some handler)
                else exact_phase err rest
      end
  end.

(** Second loop of [findErrorHandler]. *)
Fixpoint inheritance_phase (err : value) (entries : MapObj) : result (option fn) :=
  match entries with
  | [] => Ok None
  | (ExceptionClass, handler) :: rest =>
      match instanceOf err ExceptionClass with
      | Throw e => Throw e
      | Ok true => Ok (Some handler)
      | Ok false => inheritance_phase err rest
      end
  end.

Definition findErrorHandler (err : value) : M value :=
  entries <- Map_entries errorHandlerRegistry ;;
  exact <- lift (exact_phase err entries) ;;
  match exact with
  | Some handler => ret (VFun handler)
  | None =>
      inherited_match <- lift (inheritance_phase err entries) ;;
      match inherited_match with
      | Some handler => ret (VFun handler)
      | None => ret VNull
      end
  end.

Definition getRegisteredHandlers : M ref :=
  entries <- Map_entries errorHandlerRegistry ;;
  new_map entries.

Definition clearRegistry : M unit := Map_clear errorHandlerRegistry.

(* ------------------------------------------------------------------------- *)
(** ** http-status.constant.js, safe-get.util.js                              *)
(* ------------------------------------------------------------------------- *)

Module HTTP_STATUS.
Definition OK : Z := 200.
Definition CREATED : Z := 201.
Definition ACCEPTED : Z := 202.
Definition NO_CONTENT : Z := 204.
Definition BAD_REQUEST : Z := 400.
Definition UNAUTHORIZED : Z := 401.
Definition FORBIDDEN : Z := 403.
Definition NOT_FOUND : Z := 404.
Definition CONFLICT : Z := 409.
Definition INTERNAL_SERVER_ERROR : Z := 500.
Definition NOT_IMPLEMENTED : Z := 501.
Definition BAD_GATEWAY : Z := 502.
Definition SERVICE_UNAVAILABLE : Z := 503.
End HTTP_STATUS.

Fixpoint string_entries (i : nat) (s : string) : list (string * value) :=
  match s with
  | EmptyString => []
  | String c rest =>
      (string_of_nat i, VStr (String c EmptyString)) :: string_entries (S i) rest
  end.

(** Own enumerable properties, as [{...v}] and [Object.keys(v)] see them. *)
Definition spread (v : value) : list (string * value) :=
  match v with
  | VObj _ own => own
  | VStr s => string_entries 0 s
  | _ => []
  end.

(** [Object.hasOwn(v, k) ? v[k] : absent]. *)
Definition own_prop (v : value) (k : string) : option value :=
  match v with
  | VObj _ own => lookup k own
  | VStr s =>
      if String.eqb k "length" then Some (VNum (Z.of_nat (String.length s)))
      else lookup k (string_entries 0 s)
  | VFun f => if String.eqb k "name" then Some (VStr (fn_name f)) else None
  | _ => None
  end.

Definition safeGet (o key defaultValue : value) : value :=
  if nullish o then defaultValue
  else match own_prop o (to_string key) with
       | Some v => v
       | None => defaultValue
       end.

(** [a === n] against a number literal, [a === s] against a string literal. *)
Definition is_num (a : value) (n : Z) : bool :=
  match a with VNum m => Z.eqb m n | _ => false end.

Definition is_str (a : value) (s : string) : bool :=
  match a with VStr t => String.eqb t s | _ => false end.

Definition is_undef (a : value) : bool :=
  match a with VUndef => true | _ => false end.

Definition is_false (a : value) : bool :=
  match a with VBool false => true | _ => false end.

(** A parameter default: it applies to [undefined] only. *)
Definition default_arg (v d : value) : value :=
  match v with VUndef => d | _ => v end.

Definition js_ge (v : value) (n : Z) : bool :=
  match to_number v with Some x => Z.leb n x | None => false end.

Definition js_lt (v : value) (n : Z) : bool :=
  match to_number v with Some x => Z.ltb x n | None => false end.

Definition LF : string := String (ascii_of_nat 10) EmptyString.

(** [s.split('\n')[0]]. *)
Fixpoint first_line (s : string) : string :=
  match s with
  | EmptyString => EmptyString
  | String c rest =>
      if Nat.eqb (nat_of_ascii c) 10 then EmptyString else String c (first_line rest)
  end.

Section Core.

Variable W : Env.

Definition getStatusText (code : value) : value :=
  safeGet (STATUS_CODES W) (VStr (to_string code)) (VStr EmptyString).

Definition console (level : string) (args : list value) : M unit :=
  emit (ELog level args).

(** [callee.call(this, ...args)] for a callable the core does not define. *)
Definition invoke (callee this : value) (args : list value) : M value :=
  match callee with
  | VFun f => emit (ECall f this args) ;;; lift (call W f this args)
  | _ => throw (type_error (to_string callee ++ " is not a function")%string)
  end.

(** [o.name(...args)]. *)
Definition invoke_method (o : value) (name : string) (args : list value) : M value :=
  f <- lift (get_prop o name) ;;
  invoke f o args.

(* ------------------------------------------------------------------------- *)
(** ** response.helper.js: HttpResponse                                        *)
(* ------------------------------------------------------------------------- *)

(** [new HttpResponse(data, message, statusCode = 200, meta = {})]. *)
Definition HttpResponse_new (data message statusCode meta : value) : value :=
  let statusCode := default_arg statusCode (VNum HTTP_STATUS.OK) in
  let meta := default_arg meta (obj []) in
  VObj (Some HttpResponseClass)
       [("data", data);
        ("message", js_coalesce message (getStatusText statusCode));
        ("statusCode", statusCode);
        ("success", VBool (js_ge statusCode HTTP_STATUS.OK && js_lt statusCode 300));
        ("meta", obj (assign [("timestamp", VStr (now_iso W))] (spread meta)))].

(** [HttpResponse.error(message = 'Error', statusCode = 500,
                        errorDetails = null, meta = {})]. *)
Definition HttpResponse_error (message statusCode errorDetails meta : value) : value :=
  HttpResponse_new (default_arg errorDetails VNull)
                   (default_arg message (VStr "Error"))
                   (default_arg statusCode (VNum HTTP_STATUS.INTERNAL_SERVER_ERROR))
                   (default_arg meta (obj [])).

(** [HttpResponse.success(data = null, message = 'Success', statusCode = 200,
                          meta = {})]. *)
Definition HttpResponse_success (data message statusCode meta : value) : value :=
  HttpResponse_new (default_arg data VNull)
                   (default_arg message (VStr "Success"))
                   (default_arg statusCode (VNum HTTP_STATUS.OK))
                   (default_arg meta (obj [])).

(** The JSON body [send] builds. *)
Definition response_body (this : value) : list (string * value) :=
  let body0 := [("success", prop this "success"); ("message", prop this "message")] in
  let body1 :=
    if truthy (USE_STATUS_CODE_IN_RESPONSE W)
    then set_prop "statusCode" (prop this "statusCode") body0 else body0 in
  let data := prop this "data" in
  let body2 :=
    if truthy (prop this "success")
    then (if negb (nullish data) then set_prop "data" data body1 else body1)
    else (if negb (nullish data) then set_prop "error" data body1 else body1) in
  let meta := prop this "meta" in
  if truthy meta && Nat.ltb 0 (List.length (spread meta))
  then set_prop "meta" meta body2 else body2.

(** [HttpResponse.prototype.send(res)]. *)
Definition HttpResponse_send (this res : value) : M value :=
  if negb (truthy res)
     || negb (String.eqb (typeof_ (prop res "status")) "function")
     || negb (String.eqb (typeof_ (prop res "json")) "function")
  then throw (mkError ErrorClass "Invalid Express response object")
  else
    let finalStatusCode :=
      if truthy (SET_DEFAULT_HTTP_STATUS_CODE W)
      then DEFAULT_HTTP_STATUS_CODE W else prop this "statusCode" in
    r1 <- invoke_method res "status" [finalStatusCode] ;;
    r2 <- invoke_method r1 "type" [VStr "application/json"] ;;
    invoke_method r2 "send" [obj (response_body this)].

(** [x.send(res)] for an arbitrary value [x]: an own [send] shadows the
    method of [HttpResponse.prototype]. *)
Definition call_send (x res : value) : M value :=
  match x with
  | VObj _ own =>
      match lookup "send" own with
      | Some f => invoke f x [res]
      | None =>
          if instance_of_class x HttpResponseClass then HttpResponse_send x res
          else invoke VUndef x [res]
      end
  | _ => invoke_method x "send" [res]
  end.

(* ------------------------------------------------------------------------- *)
(** ** error-handler-registry.helper.js: fallback builder and safe wrapper     *)
(* ------------------------------------------------------------------------- *)

Definition nonRetryableStatusCodes : list Z :=
  [HTTP_STATUS.BAD_REQUEST; HTTP_STATUS.UNAUTHORIZED; HTTP_STATUS.FORBIDDEN;
   HTTP_STATUS.NOT_FOUND; HTTP_STATUS.CONFLICT].

(** [Array.prototype.includes] on an array of numbers. *)
Definition includes (l : list Z) (v : value) : bool :=
  existsb (is_num v) l.

Definition isRetryableError (error : value) : bool :=
  let statusCode := opt_prop error "statusCode" in
  if truthy statusCode && includes nonRetryableStatusCodes statusCode
  then false
  else true.

Definition generateSafeCorrelationId : string :=
  ("fallback_" ++ now_ms W ++ "_" ++ rand36 W)%string.

(** [handlerError?.stack?.split('\n')?.[0]]. *)
Definition first_stack_line (handlerError : value) : M value :=
  let stack := opt_prop handlerError "stack" in
  if nullish stack then ret VUndef
  else match stack with
       | VStr s => ret (VStr (first_line s))
       | _ =>
           lines <- invoke (prop stack "split") stack [VStr LF] ;;
           ret (opt_prop lines "0")
       end.

(** The [request] entry of the log record. *)
Definition request_context (req : value) : M value :=
  if truthy req then
    let method := prop req "method" in
    let path := prop req "path" in
    let ip := prop req "ip" in
    let get := prop req "get" in
    userAgent <- (if nullish get then ret VUndef
                  else invoke get req [VStr "user-agent"]) ;;
    ret (obj [("method", method); ("path", path); ("ip", ip);
              ("userAgent", userAgent)])
  else ret VNull.

Definition fallback_message (fallbackStatusCode : value) : string :=
  if is_num fallbackStatusCode HTTP_STATUS.NOT_FOUND then "Requested resource not found"
  else if is_num fallbackStatusCode HTTP_STATUS.BAD_REQUEST then "Invalid request data"
  else if is_num fallbackStatusCode HTTP_STATUS.FORBIDDEN then "Access denied"
  else if is_num fallbackStatusCode HTTP_STATUS.CONFLICT then "Resource conflict occurred"
  else "Service temporarily unavailable".

Definition createFallbackResponse (originalError handlerError req : value) : M value :=
  let req := default_arg req VNull in
  stackLine <- first_stack_line handlerError ;;
  request <- request_context req ;;
  let logContext :=
    obj [("originalError",
          obj [("name", js_or (opt_prop originalError "name") (VStr "UnknownError"));
               ("message", js_or (opt_prop originalError "message")
                                 (VStr "Unknown error occurred"));
               ("statusCode", opt_prop originalError "statusCode");
               ("errorCode", opt_prop originalError "errorCode");
               ("isOperational", opt_prop originalError "isOperational")]);
         ("handlerError",
          obj [("name", js_or (opt_prop handlerError "name") (VStr "HandlerError"));
               ("message", js_or (opt_prop handlerError "message")
                                 (VStr "Handler execution failed"));
               ("stack", stackLine)]);
         ("request", request);
         ("timestamp", VStr (now_iso W))] in
  (if is_false (opt_prop originalError "isOperational")
   then console "error" [VStr "[HANDLER_FAILURE_SYSTEM]"; logContext]
   else console "warn" [VStr "[HANDLER_FAILURE_BUSINESS]"; logContext]) ;;;
  let fallbackStatusCode :=
    js_or (opt_prop originalError "statusCode")
          (VNum HTTP_STATUS.INTERNAL_SERVER_ERROR) in
  let fallbackMessage := fallback_message fallbackStatusCode in
  let domain := opt_prop (opt_prop originalError "metadata") "domain" in
  let safeMeta :=
    assign
      [("errorCode", VStr "HANDLER_EXECUTION_FAILED");
       ("originalErrorCode", opt_prop originalError "errorCode");
       ("correlationId", js_or (opt_prop originalError "correlationId")
                               (VStr generateSafeCorrelationId));
       ("timestamp", VStr (now_iso W));
       ("retryable", VBool (isRetryableError originalError))]
      (spread (if truthy domain then obj [("domain", domain)] else domain)) in
  ret (HttpResponse_error (VStr fallbackMessage) fallbackStatusCode VNull (obj safeMeta)).

(** The arrow function [createSafeHandler] hands to [result.catch]. *)
Definition catch_callback : fn := FLambda 22 EmptyString.

Definition failure_record (err handlerError req : value) : value :=
  obj [("originalError", opt_prop err "message");
       ("handlerError", opt_prop handlerError "message");
       ("path", opt_prop req "path")].

(** [result.catch(handlerError => { ...; return createFallbackResponse(...) })]
    on a native promise, read at settlement: the state and value the promise
    returned by [catch] ends in, with the callback's effects.  In the code that
    promise is a new object and the callback runs in a later job; the
    statements on promises use neither the identity nor the timing. *)
Definition promise_catch_fallback (handlerName : string) (err req : value)
           (st : pstate) (v : value) : M value :=
  match st with
  | PRejected =>
      fun s =>
        match (console "error"
                 [VStr ("[ASYNC_HANDLER_FAILURE] " ++ handlerName ++ ":")%string;
                  failure_record err v req] ;;;
               createFallbackResponse err v req) s with
        | (Ok r, s') => (Ok (VPromise PFulfilled r), s')
        | (Throw e, s') => (Ok (VPromise PRejected e), s')
        end
  | PFulfilled | PPending => ret (VPromise st v)
  end.

(** [safeHandlerWrapper(err, req, res)], the function [createSafeHandler]
    returns. *)
Definition safeHandlerWrapper (handler : value) (handlerName : string)
           (err req res : value) : M value :=
  try_catch
    (result <- invoke handler VUndef [err; req; res] ;;
     if truthy result && String.eqb (typeof_ (prop result "then")) "function"
     then match result with
          | VPromise st v => promise_catch_fallback handlerName err req st v
          | _ => invoke_method result "catch" [VFun catch_callback]
          end
     else ret result)
    (fun handlerError =>
       console "error"
         [VStr ("[SYNC_HANDLER_FAILURE] " ++ handlerName ++ ":")%string;
          failure_record err handlerError req] ;;;
       createFallbackResponse err handlerError req).

(** [createSafeHandler(handler, options = {})(err, req, res)]. *)
Definition createSafeHandler (handler options : value) (err req res : value) : M value :=
  let options := default_arg options (obj []) in
  handlerName <- lift (get_prop options "handlerName") ;;
  let handlerName := default_arg handlerName (VStr "anonymous") in
  safeHandlerWrapper handler (to_string handlerName) err req res.

Definition handleWithRegistry (err req res options : value) : M value :=
  let options := default_arg options (obj []) in
  useSafeWrapper <- lift (get_prop options "useSafeWrapper") ;;
  let useSafeWrapper := default_arg useSafeWrapper (VBool true) in
  handler <- findErrorHandler err ;;
  if negb (truthy handler) then ret VNull
  else if truthy useSafeWrapper then
    ctor <- lift (get_prop err "constructor") ;;
    name <- lift (get_prop ctor "name") ;;
    createSafeHandler handler
      (obj [("handlerName", VStr (to_string name ++ "Handler")%string)])
      err req res
  else invoke handler VUndef [err; req; res].

(* ------------------------------------------------------------------------- *)
(** ** error-handler.middleware.js: the terminal middleware                    *)
(* ------------------------------------------------------------------------- *)

(** The [meta] object both default BaseException paths build (the middleware's
    third step and [defaultBaseExceptionHandler]). *)
Definition exception_meta (err : value) : list (string * value) :=
  let base :=
    spread (js_coalesce (js_coalesce (prop err "metadata") (prop err "meta")) (obj [])) in
  let m1 :=
    assign base (if negb (is_undef (prop err "errorCode"))
                 then [("errorCode", prop err "errorCode")] else []) in
  let m2 :=
    assign m1 (if negb (is_undef (prop err "isOperational"))
               then [("isOperational", prop err "isOperational")] else []) in
  assign m2 (if negb (is_undef (prop err "correlationId"))
             then [("correlationId", prop err "correlationId")] else []).

(** [isBaseException(err)]. *)
Definition isBaseException (err : value) : bool :=
  instance_of_class err BaseExceptionClass.

(** [defaultBaseExceptionHandler(err, _req, _res)] of the registry helper. *)
Definition defaultBaseExceptionHandler (err _req _res : value) : result value :=
  if nullish err
  then Throw (type_error ("Cannot read properties of " ++ to_string err
                          ++ " (reading 'metadata')")%string)
  else Ok (HttpResponse_error (prop err "message")
                              (js_coalesce (prop err "statusCode")
                                           (VNum HTTP_STATUS.BAD_REQUEST))
                              (prop err "data")
                              (obj (exception_meta err))).

Definition globalErrorHandler (err req res next : value) : M value :=
  headersSent <- lift (get_prop res "headersSent") ;;
  if truthy headersSent then invoke next VUndef [err]
  else if instance_of_class err HttpResponseClass then call_send err res
  else
    customResponse <- handleWithRegistry err req res VUndef ;;
    if truthy customResponse then call_send customResponse res
    else if instance_of_class err BaseExceptionClass then
      HttpResponse_send
        (HttpResponse_error (prop err "message")
                            (js_coalesce (prop err "statusCode")
                                         (VNum HTTP_STATUS.BAD_REQUEST))
                            (prop err "data")
                            (obj (exception_meta err)))
        res
    else
      console "error" [obj [("err", err)]] ;;;
      message <- (if is_str (NODE_ENV W) "production"
                  then ret (VStr "Internal Server Error")
                  else m <- lift (get_prop err "message") ;;
                       ret (js_or m (VStr "Internal Server Error"))) ;;
      HttpResponse_send
        (HttpResponse_error message (VNum HTTP_STATUS.INTERNAL_SERVER_ERROR)
                            VUndef VUndef)
        res.

(** [new C(message = 'Error', options = {})] for [C] the class BaseException
    or one extending it without adding fields of its own. *)
Definition BaseException_new (C : jsclass) (message options : value) : value :=
  let message := default_arg message (VStr "Error") in
  let options := js_or (default_arg options (obj [])) (obj []) in
  let cause := prop options "cause" in
  let opts := VObj (Some ObjectClass)
                   (filter (fun kv => negb (String.eqb (fst kv) "cause"))
                           (spread options)) in
  let own_opt k := match own_prop opts k with Some v => v | None => VUndef end in
  VObj (Some C)
       ([("stack", VStr (class_name C ++ ": " ++ to_string message ++ "
    at <anonymous>")%string);
         ("message", VStr (to_string message))]
        ++ (if truthy cause then [("cause", cause)] else [])
        ++ [("statusCode", js_coalesce (own_opt "statusCode")
                                       (VNum HTTP_STATUS.INTERNAL_SERVER_ERROR));
            ("errorCode", own_opt "errorCode");
            ("isOperational",
             if negb (is_undef (own_opt "isOperational"))
             then VBool (truthy (own_opt "isOperational")) else VBool true);
            ("correlationId", own_opt "correlationId");
            ("data", js_coalesce (own_opt "data") VNull);
            ("metadata",
             obj (assign [("timestamp", VStr (now_iso W))]
                         (spread (own_opt "metadata"))));
            ("meta",
             obj (assign [("timestamp", VStr (now_iso W))]
                         (spread (own_opt "metadata"))));
            ("name", VStr (class_name C))]).

End Core.


(* ------------------------------------------------------------------------- *)
(** ** Vocabulary of the statements                                           *)
(* ------------------------------------------------------------------------- *)

(** The constructor an object created by [new c(...)] reports, as long as no
    own property shadows it. *)
Definition created_by (c : jsclass) (err : value) : Prop :=
  exists own, err = VObj (Some c) own /\ lookup "constructor" own = None.

(** The client-error statuses the specification lists as never retryable. *)
Definition spec_denylist : list Z := [400; 401; 403; 404; 409]%Z.

Definition spec_never_retryable (status : value) : bool :=
  match status with
  | VNum n => existsb (Z.eqb n) spec_denylist
  | _ => false
  end.


(** A handler error whose [stack] is what the runtime gives an error object,
    a string, or is missing altogether. *)
Definition stack_is_text (handlerError : value) : Prop :=
  match opt_prop handlerError "stack" with
  | VUndef | VNull | VStr _ => True
  | _ => False
  end.

(** An original error whose [statusCode] is absent, [null], a boolean or a
    number: the values for which the comparisons [statusCode >= 200] and
    [statusCode < 300] of the [HttpResponse] constructor are plain arithmetic.
    A string or an object there would first be converted, by rules (and, for
    an object, by methods) that are not part of this development. *)
Definition plain_status (statusCode : value) : Prop :=
  match statusCode with
  | VUndef | VNull | VBool _ | VNum _ => True
  | _ => False
  end.

(** A request (or none) whose header reader [get], when present, is a function
    that returns. *)
Definition header_reader_answers (W : Env) (req : value) : Prop :=
  truthy (default_arg req VNull) = true ->
  match prop req "get" with
  | VUndef | VNull => True
  | VFun f => exists v, call W f req [VStr "user-agent"] = Ok v
  | _ => False
  end.

(** What [createFallbackResponse] returns when it returns: the part of its
    body that follows the logging. *)
Definition fallback_response (W : Env) (originalError : value) : value :=
  let fallbackStatusCode :=
    js_or (opt_prop originalError "statusCode")
          (VNum HTTP_STATUS.INTERNAL_SERVER_ERROR) in
  let domain := opt_prop (opt_prop originalError "metadata") "domain" in
  HttpResponse_error W
    (VStr (fallback_message fallbackStatusCode)) fallbackStatusCode VNull
    (obj (assign
            [("errorCode", VStr "HANDLER_EXECUTION_FAILED");
             ("originalErrorCode", opt_prop originalError "errorCode");
             ("correlationId", js_or (opt_prop originalError "correlationId")
                                     (VStr (generateSafeCorrelationId W)));
             ("timestamp", VStr (now_iso W));
             ("retryable", VBool (isRetryableError originalError))]
            (spread (if truthy domain then obj [("domain", domain)] else domain)))).

(** A transport response in the Express style: [status] and [type] return the
    response itself, so calls chain. *)
Definition chainable (W : Env) (res : value) (fs ft fsend : fn) : Prop :=
  truthy res = true /\
  prop res "status" = VFun fs /\
  prop res "type" = VFun ft /\
  prop res "send" = VFun fsend /\
  typeof_ (prop res "json") = "function" /\
  (forall args, call W fs res args = Ok res) /\
  (forall args, call W ft res args = Ok res).

(** Mutations a caller can apply to a [Map] it holds a reference to.  Keys and
    values range over functions, the only kind of entry the registry holds. *)
Inductive map_mutation : Type :=
| MutSet (k h : fn)
| MutDelete (k : fn)
| MutClear.

Definition apply_mutation (r : ref) (mu : map_mutation) : M unit :=
  match mu with
  | MutSet k h => Map_set r k h
  | MutDelete k => Map_delete r k
  | MutClear => Map_clear r
  end.

Fixpoint apply_mutations (r : ref) (mus : list map_mutation) : M unit :=
  match mus with
  | [] => ret tt
  | mu :: rest => apply_mutation r mu ;;; apply_mutations r rest
  end.

(** The same mutations on the entries themselves. *)
Definition mutate_entries (m : MapObj) (mu : map_mutation) : MapObj :=
  match mu with
  | MutSet k h => map_set k h m
  | MutDelete k => map_delete k m
  | MutClear => []
  end.

(** Fixtures of [error-handler-registry.helper.spec.js] and of the
    middleware's own tests. *)
Module Fixtures.

Definition TestException : jsclass :=
  Extends 100 "TestException" BaseExceptionClass.
Definition SpecificTestException : jsclass :=
  Extends 101 "SpecificTestException" TestException.

Definition testHandler : fn := FClass (Extends 110 "testHandler" ObjectClass).
Definition specificHandler : fn :=
  FClass (Extends 111 "specificHandler" ObjectClass).

(** A handler that fails by throwing an error whose [stack] is an array of
    frames instead of a string. *)
Definition arrayStackHandler : fn := FLambda 120 "arrayStackHandler".
(** [buggyHandler] of test0.js: it reads [err.metadata.identifier] and so
    throws a genuine [TypeError] when [metadata] is [null]. *)
Definition buggyHandler : fn := FClass (Extends 121 "buggyHandler" ObjectClass).
(** [asyncBuggyHandler] of test0.js: returns a promise that rejects. *)
Definition asyncBuggyHandler : fn := FLambda 122 "asyncBuggyHandler".

(** [createMockRes()] / [createMockNext()] of test-core.helper.js. *)
Definition res_status : fn := FLambda 130 "status".
Definition res_type : fn := FLambda 131 "type".
Definition res_json : fn := FLambda 132 "json".
Definition res_send : fn := FLambda 133 "send".
Definition mockNext : fn := FLambda 134 "next".

Definition mockRes (headersSent : bool) : value :=
  obj [("headersSent", VBool headersSent);
       ("status", VFun res_status); ("type", VFun res_type);
       ("json", VFun res_json); ("send", VFun res_send)].

Definition mockReq : value := obj [("path", VStr "/test")].

Definition arrayStackError : value :=
  VObj (Some ErrorClass)
       [("stack", VObj (Some ArrayClass)
                       [("0", VStr "Error: upstream failed");
                        ("1", VStr "    at remote (service.js:1:1)")]);
        ("message", VStr "upstream failed")].

Definition quiet_env (node_env : value) : Env :=
  {| now_iso := "2025-01-01T00:00:00.000Z";
     now_ms := "1735689600000";
     rand36 := "k3j9x0ab";
     NODE_ENV := node_env;
     USE_STATUS_CODE_IN_RESPONSE := VBool true;
     SET_DEFAULT_HTTP_STATUS_CODE := VBool false;
     DEFAULT_HTTP_STATUS_CODE := VNum 200;
     STATUS_CODES := obj [("200", VStr "OK"); ("400", VStr "Bad Request");
                          ("404", VStr "Not Found");
                          ("500", VStr "Internal Server Error")];
     call := fun _ _ _ => Ok VUndef |}.

(** What the fixtures' functions do when called. *)
Definition test_call (node_env : value) (f : fn) (this : value)
           (args : list value) : result value :=
  if fn_eqb f testHandler then
    Ok (HttpResponse_error (quiet_env node_env) (VStr "Test handler response")
                           (VNum HTTP_STATUS.BAD_REQUEST) VUndef VUndef)
  else if fn_eqb f specificHandler then
    Ok (HttpResponse_error (quiet_env node_env) (VStr "Specific handler response")
                           (VNum HTTP_STATUS.CONFLICT) VUndef VUndef)
  else if fn_eqb f arrayStackHandler then Throw arrayStackError
  else if fn_eqb f buggyHandler then
    Throw (type_error "Cannot read properties of null (reading 'identifier')")
  else if fn_eqb f asyncBuggyHandler then
    Ok (VPromise PRejected (mkError ErrorClass "Async handler crashed"))
  else if fn_eqb f res_status || fn_eqb f res_type
          || fn_eqb f res_json || fn_eqb f res_send then Ok this
  else Ok VUndef.

Definition test_env (node_env : value) : Env :=
  {| now_iso := now_iso (quiet_env node_env);
     now_ms := now_ms (quiet_env node_env);
     rand36 := rand36 (quiet_env node_env);
     NODE_ENV := node_env;
     USE_STATUS_CODE_IN_RESPONSE := VBool true;
     SET_DEFAULT_HTTP_STATUS_CODE := VBool false;
     DEFAULT_HTTP_STATUS_CODE := VNum 200;
     STATUS_CODES := STATUS_CODES (quiet_env node_env);
     call := test_call node_env |}.

(** [err.metadata = null], the mutation of test0.js. *)
Definition with_metadata_nulled (err : value) : value :=
  match err with
  | VObj proto own => VObj proto (set_prop "metadata" VNull own)
  | _ => err
  end.


Definition test0_req : value :=
  obj [("method", VStr "GET"); ("path", VStr "/api/users/123");
       ("ip", VStr "192.168.1.1")].

(** A [SpecificTestException] carrying status 404. *)
Definition childError : value :=
  BaseException_new (quiet_env VUndef) SpecificTestException
    (VStr "specific test")
    (obj [("statusCode", VNum HTTP_STATUS.NOT_FOUND)]).

Definition development : Env := test_env (VStr "development").
Definition production : Env := test_env (VStr "production").

(** The registry after [registerErrorHandler(TestException, testHandler)]
    and [registerErrorHandler(SpecificTestException, specificHandler)]. *)
Definition both_registered : state :=
  {| registry_cell := [(FClass TestException, testHandler);
                       (FClass SpecificTestException, specificHandler)];
     fresh_maps := []; trace := [] |}.

Definition parent_registered (h : fn) : state :=
  {| registry_cell := [(FClass TestException, h)];
     fresh_maps := []; trace := [] |}.

End Fixtures.

(** Registry contents that registrations alone can produce, starting from an
    empty registry or one just cleared. *)
Inductive registry_reachable : MapObj -> Prop :=
| reach_empty : registry_reachable []
| reach_register : forall k h m,
    registry_reachable m -> registry_reachable (map_set k h m).

(** Running the monad's combinators on a state. *)
Ltac run_monad :=
  repeat (progress (unfold bind, try_catch, lift, ret, throw, emit, console;
                    cbv beta iota)).


(* ------------------------------------------------------------------------- *)
(** ** error-handler-registry.helper.js: default handlers                      *)
(* ------------------------------------------------------------------------- *)

(** The function objects of [defaultBaseExceptionHandler] and of the wrapper
    [createSafeHandler] returns for it. *)
Definition defaultBaseExceptionHandler_fn : fn :=
  FClass (Extends 12 "defaultBaseExceptionHandler" ObjectClass).
Definition safeDefaultHandler_fn : fn :=
  FClass (Extends 13 "safeHandlerWrapper" ObjectClass).

(** [setupDefaultHandlers(options = {})]. *)
Definition setupDefaultHandlers (options : value) : M value :=
  let options := default_arg options (obj []) in
  useSafeWrapper <- lift (get_prop options "useSafeWrapper") ;;
  let useSafeWrapper := default_arg useSafeWrapper (VBool true) in
  if truthy useSafeWrapper
  then registerErrorHandler (VFun (FClass BaseExceptionClass))
                            (VFun safeDefaultHandler_fn)
  else registerErrorHandler (VFun (FClass BaseExceptionClass))
                            (VFun defaultBaseExceptionHandler_fn).

(* ------------------------------------------------------------------------- *)
(** ** Vocabulary of the further statements                                   *)
(* ------------------------------------------------------------------------- *)

(** Every key of the registry is a function with a [prototype]. *)
Definition class_keys (m : MapObj) : Prop :=
  forall k, In k (keys m) -> exists c, k = FClass c.

(** A handler result the safe wrapper has nothing to do with: a value that is
    no thenable, that is, falsy or without a callable [then]. *)
Definition passes_through (v : value) : Prop :=
  truthy v && String.eqb (typeof_ (prop v "then")) "function" = false.

(** An error whose constructor has a string for a name, as every class and
    function has: the text [handleWithRegistry] builds the handler name
    from. *)
Definition text_named (err : value) : Prop :=
  exists s, prop (prop err "constructor") "name" = VStr s.

(** A value a template literal prints by a fixed rule: [undefined], [null], a
    boolean, a string, or an integer small enough to be written out in full
    (below 10^21 in magnitude). *)
Definition printable (v : value) : Prop :=
  match v with
  | VUndef | VNull | VBool _ | VStr _ => True
  | VNum n => (Z.abs n < 10 ^ 21)%Z
  | _ => False
  end.

(** A message argument that is a string, or left out. *)
Definition text_or_absent (v : value) : Prop :=
  match v with
  | VUndef | VStr _ => True
  | _ => False
  end.

(** A request without a header reader (or no request at all). *)
Definition no_header_reader (req : value) : Prop :=
  truthy (default_arg req VNull) = false \/ nullish (prop req "get") = true.

Fixpoint has_line_feed (s : string) : bool :=
  match s with
  | EmptyString => false
  | String c rest => Nat.eqb (nat_of_ascii c) 10 || has_line_feed rest
  end.

(** A transport response that exists and has not been sent yet. *)
Definition not_yet_sent (res : value) : Prop :=
  nullish res = false /\ truthy (prop res "headersSent") = false.

(** What [globalErrorHandler] does once the registry has produced nothing:
    its steps 3 and 4. *)
Definition default_steps (W : Env) (err res : value) : M value :=
  if instance_of_class err BaseExceptionClass then
    HttpResponse_send W
      (HttpResponse_error W (prop err "message")
                          (js_coalesce (prop err "statusCode")
                                       (VNum HTTP_STATUS.BAD_REQUEST))
                          (prop err "data")
                          (obj (exception_meta err)))
      res
  else
    console "error" [obj [("err", err)]] ;;;
    message <- (if is_str (NODE_ENV W) "production"
                then ret (VStr "Internal Server Error")
                else m <- lift (get_prop err "message") ;;
                     ret (js_or m (VStr "Internal Server Error"))) ;;
    HttpResponse_send W
      (HttpResponse_error W message (VNum HTTP_STATUS.INTERNAL_SERVER_ERROR)
                          VUndef VUndef)
      res.

(* ------------------------------------------------------------------------- *)
(** ** response.helper.js: the remaining factories, [toObject]                 *)
(* ------------------------------------------------------------------------- *)

Section Responses.

Variable W : Env.

(** [HttpResponse.created(data = null, message = 'Created', meta = {})]. *)
Definition HttpResponse_created (data message meta : value) : value :=
  HttpResponse_success W (default_arg data VNull)
                       (default_arg message (VStr "Created"))
                       (VNum HTTP_STATUS.CREATED)
                       (default_arg meta (obj [])).

(** [HttpResponse.noContent(message = 'No Content', meta = {})]. *)
Definition HttpResponse_noContent (message meta : value) : value :=
  HttpResponse_new W VNull (default_arg message (VStr "No Content"))
                   (VNum HTTP_STATUS.NO_CONTENT) (default_arg meta (obj [])).

(** [HttpResponse.badRequest(message = 'Bad Request', errorDetails = null,
                             meta = {})] and its four siblings. *)
Definition HttpResponse_badRequest (message errorDetails meta : value) : value :=
  HttpResponse_error W (default_arg message (VStr "Bad Request"))
                     (VNum HTTP_STATUS.BAD_REQUEST)
                     (default_arg errorDetails VNull) (default_arg meta (obj [])).

Definition HttpResponse_unauthorized (message errorDetails meta : value) : value :=
  HttpResponse_error W (default_arg message (VStr "Unauthorized"))
                     (VNum HTTP_STATUS.UNAUTHORIZED)
                     (default_arg errorDetails VNull) (default_arg meta (obj [])).

Definition HttpResponse_forbidden (message errorDetails meta : value) : value :=
  HttpResponse_error W (default_arg message (VStr "Forbidden"))
                     (VNum HTTP_STATUS.FORBIDDEN)
                     (default_arg errorDetails VNull) (default_arg meta (obj [])).

Definition HttpResponse_notFound (message errorDetails meta : value) : value :=
  HttpResponse_error W (default_arg message (VStr "Not Found"))
                     (VNum HTTP_STATUS.NOT_FOUND)
                     (default_arg errorDetails VNull) (default_arg meta (obj [])).

Definition HttpResponse_conflict (message errorDetails meta : value) : value :=
  HttpResponse_error W (default_arg message (VStr "Conflict"))
                     (VNum HTTP_STATUS.CONFLICT)
                     (default_arg errorDetails VNull) (default_arg meta (obj [])).

(** [HttpResponse.businessError(message, errorCode, details = null, meta = {})]. *)
Definition HttpResponse_businessError (message errorCode details meta : value) : value :=
  let details := default_arg details VNull in
  let meta := default_arg meta (obj []) in
  let errorDetails :=
    obj [("type", VStr "business"); ("code", errorCode); ("details", details)] in
  HttpResponse_badRequest
    message errorDetails
    (obj (assign [("errorType", VStr "business"); ("errorCode", errorCode)]
                 (spread meta))).

(** [HttpResponse.prototype.toObject()], as the list of its properties. *)
Definition HttpResponse_toObject (this : value) : list (string * value) :=
  let obj0 := [("success", prop this "success"); ("message", prop this "message");
               ("statusCode", prop this "statusCode")] in
  let data := prop this "data" in
  let obj1 :=
    if truthy (prop this "success")
    then (if negb (nullish data) then set_prop "data" data obj0 else obj0)
    else (if negb (nullish data) then set_prop "error" data obj0 else obj0) in
  let meta := prop this "meta" in
  if truthy meta && Nat.ltb 0 (List.length (spread meta))
  then set_prop "meta" meta obj1 else obj1.

End Responses.

(** A property list without the entries of one key. *)
Fixpoint remove_key (k : string) (ps : list (string * value)) : list (string * value) :=
  match ps with
  | [] => []
  | (k', v) :: rest =>
      if String.eqb k k' then remove_key k rest else (k', v) :: remove_key k rest
  end.


(* ------------------------------------------------------------------------- *)
(** ** modules/user: exceptions, error handlers, module initialisation        *)
(* ------------------------------------------------------------------------- *)

(** An array literal: its elements under their indices. *)
Fixpoint array_entries (i : nat) (items : list value) : list (string * value) :=
  match items with
  | [] => []
  | v :: rest => (string_of_nat i, v) :: array_entries (S i) rest
  end.

Definition array (items : list value) : value :=
  VObj (Some ArrayClass) (array_entries 0 items).

(** [o.k = v] on an object. *)
Definition set_field (o : value) (k : string) (v : value) : value :=
  match o with
  | VObj proto own => VObj proto (set_prop k v own)
  | _ => o
  end.

(** The classes of user.exceptions.js. *)
Definition UserNotFoundException : jsclass :=
  Extends 30 "UserNotFoundException" BaseExceptionClass.
Definition UserValidationException : jsclass :=
  Extends 31 "UserValidationException" BaseExceptionClass.
Definition UserPermissionException : jsclass :=
  Extends 32 "UserPermissionException" BaseExceptionClass.
Definition UserStateException : jsclass :=
  Extends 33 "UserStateException" BaseExceptionClass.

(** The function objects of user.error-handlers.js. *)
Definition handleUserNotFound_fn : fn :=
  FClass (Extends 34 "handleUserNotFound" ObjectClass).
Definition handleUserValidation_fn : fn :=
  FClass (Extends 35 "handleUserValidation" ObjectClass).
Definition handleUserPermission_fn : fn :=
  FClass (Extends 36 "handleUserPermission" ObjectClass).
Definition handleUserState_fn : fn :=
  FClass (Extends 37 "handleUserState" ObjectClass).

(** [initializeUserModule()] of user.module.js.  The source registers three
    handlers; its line for [handleUserValidation] is commented out. *)
Definition initializeUserModule : M value :=
  registerErrorHandler (VFun (FClass UserNotFoundException))
                       (VFun handleUserNotFound_fn) ;;;
  registerErrorHandler (VFun (FClass UserPermissionException))
                       (VFun handleUserPermission_fn) ;;;
  registerErrorHandler (VFun (FClass UserStateException))
                       (VFun handleUserState_fn) ;;;
  console "log" [VStr "[USER_MODULE] Error handlers registered"] ;;;
  ret VUndef.

(** The handler a registry set up by [setupDefaultHandlers()] followed by
    [initializeUserModule()] - the order of bootstrap.js - is expected to
    choose for an instance of class [c]. *)
Definition bootstrap_choice (c : jsclass) : fn :=
  if class_eqb c UserNotFoundException then handleUserNotFound_fn
  else if class_eqb c UserPermissionException then handleUserPermission_fn
  else if class_eqb c UserStateException then handleUserState_fn
  else safeDefaultHandler_fn.

(** [getValidationSuggestions(field, rule)]. *)
Definition getValidationSuggestions (field rule : value) : value :=
  let suggestions :=
    obj [("email",
          obj [("format", array [VStr "Use valid email format: user@domain.com"]);
               ("unique", array [VStr "This email is already registered";
                                 VStr "Try a different email address"])]);
         ("username",
          obj [("length", array [VStr "Username must be 3-20 characters"]);
               ("format", array [VStr "Use only letters, numbers, and underscores"]);
               ("unique", array [VStr "This username is taken";
                                 VStr "Try adding numbers or underscores"])])] in
  js_or (safeGet (safeGet suggestions field (obj [])) rule (VStr EmptyString))
        (array [VStr "Please check the input and try again"]).

(** [getStateTransitionActions(currentState, requiredState)]. *)
Definition getStateTransitionActions (currentState requiredState : value) : value :=
  let transitions :=
    obj [("inactive",
          obj [("active", array [VStr "Verify email address";
                                 VStr "Complete profile setup"])]);
         ("suspended",
          obj [("active", array [VStr "Contact support for account review"])]);
         ("pending",
          obj [("active", array [VStr "Wait for account approval"])])] in
  js_or (safeGet (safeGet transitions currentState (obj [])) requiredState (array []))
        (array [VStr "Contact support for assistance"]).

(** [isRetryableStateTransition(currentState, _requiredState)]. *)
Definition isRetryableStateTransition (currentState _requiredState : value) : bool :=
  is_str currentState "pending" || is_str currentState "processing".

Section UserModule.

Variable W : Env.

(** [new UserNotFoundException(identifier, options = {})]. *)
Definition UserNotFoundException_new (identifier options : value) : result value :=
  let options := default_arg options (obj []) in
  let message := VStr ("User not found: " ++ to_string identifier) in
  match get_prop options "metadata" with
  | Throw e => Throw e
  | Ok metadata =>
      Ok (set_field
            (BaseException_new W UserNotFoundException message
               (obj (set_prop "metadata"
                       (obj (assign [("domain", VStr "user");
                                     ("identifier", identifier)]
                                    (spread metadata)))
                       (assign [("statusCode", VNum HTTP_STATUS.NOT_FOUND);
                                ("errorCode", VStr "USER_NOT_FOUND")]
                               (spread options)))))
            "name" (VStr "UserNotFoundException"))
  end.

(** [handleUserNotFound(err, req, _res)]. *)
Definition handleUserNotFound (err req _res : value) : M value :=
  metadata <- lift (get_prop err "metadata") ;;
  identifier <- lift (get_prop metadata "identifier") ;;
  path <- lift (get_prop req "path") ;;
  console "log" [VStr ("[USER_NOT_FOUND] " ++ to_string identifier
                       ++ " - Path: " ++ to_string path)] ;;;
  ret (HttpResponse_error W
         (VStr "User not found") (VNum HTTP_STATUS.NOT_FOUND)
         (obj [("type", VStr "user_not_found");
               ("details",
                obj [("suggestion",
                      VStr "Please check the user identifier and try again");
                     ("searchedFor", identifier)])])
         (obj [("errorCode", prop err "errorCode");
               ("domain", prop metadata "domain");
               ("correlationId", prop err "correlationId");
               ("timestamp", VStr (now_iso W))])).

(** [new UserStateException(userId, currentState, requiredState, operation,
                            options = {})]. *)
Definition UserStateException_new
           (userId currentState requiredState operation options : value)
  : result value :=
  let options := default_arg options (obj []) in
  let message :=
    VStr ("User " ++ to_string userId ++ " is " ++ to_string currentState
          ++ ", requires " ++ to_string requiredState
          ++ " for " ++ to_string operation) in
  match get_prop options "data" with
  | Throw e => Throw e
  | Ok data =>
      Ok (set_field
            (BaseException_new W UserStateException message
               (obj (set_prop "metadata"
                       (obj (assign [("domain", VStr "user");
                                     ("stateTransition", VBool true)]
                                    (spread (prop options "metadata"))))
                       (set_prop "data"
                          (obj (assign [("userId", userId);
                                        ("currentState", currentState);
                                        ("requiredState", requiredState);
                                        ("operation", operation)]
                                       (spread data)))
                          (assign [("statusCode", VNum HTTP_STATUS.CONFLICT);
                                   ("errorCode", VStr "USER_INVALID_STATE")]
                                  (spread options))))))
            "name" (VStr "UserStateException"))
  end.

(** [handleUserState(err, _req, _res)]. *)
Definition handleUserState (err _req _res : value) : M value :=
  data <- lift (get_prop err "data") ;;
  userId <- lift (get_prop data "userId") ;;
  let currentState := prop data "currentState" in
  let requiredState := prop data "requiredState" in
  console "log" [VStr ("[USER_STATE] User: " ++ to_string userId
                       ++ ", State: " ++ to_string currentState
                       ++ " -> " ++ to_string requiredState)] ;;;
  domain <- lift (get_prop (prop err "metadata") "domain") ;;
  ret (HttpResponse_error W
         (VStr "Invalid user state for operation") (VNum HTTP_STATUS.CONFLICT)
         (obj [("type", VStr "invalid_state");
               ("currentState", currentState);
               ("requiredState", requiredState);
               ("operation", prop data "operation");
               ("possibleActions",
                getStateTransitionActions currentState requiredState)])
         (obj [("errorCode", prop err "errorCode");
               ("domain", domain);
               ("retryable",
                VBool (isRetryableStateTransition currentState requiredState));
               ("timestamp", VStr (now_iso W))])).

End UserModule.
(* ========================================================================= *)
(** * Properties                                                              *)
(* ========================================================================= *)

(* ------------------------------------------------------------------------- *)
(** ** Identity of functions, prototype chains                                *)
(* ------------------------------------------------------------------------- *)

Lemma class_eqb_refl : forall c, class_eqb c c = true.
Proof.
  induction c as [i n | i n s IH]; simpl.
  - now rewrite Nat.eqb_refl, String.eqb_refl.
  - now rewrite Nat.eqb_refl, String.eqb_refl, IH.
Qed.

Lemma class_eqb_eq : forall a b, class_eqb a b = true -> a = b.
Proof.
  induction a as [i n | i n s IH]; destruct b as [j m | j m t]; simpl;
    try discriminate; intros H.
  - apply andb_true_iff in H as [Hi Hn].
    apply Nat.eqb_eq in Hi. apply String.eqb_eq in Hn. now subst.
  - apply andb_true_iff in H as [H Hs].
    apply andb_true_iff in H as [Hi Hn].
    apply Nat.eqb_eq in Hi. apply String.eqb_eq in Hn.
    apply IH in Hs. now subst.
Qed.

Lemma fn_eqb_refl : forall f, fn_eqb f f = true.
Proof.
  destruct f as [c | i n]; simpl.
  - apply class_eqb_refl.
  - now rewrite Nat.eqb_refl, String.eqb_refl.
Qed.

Lemma fn_eqb_eq : forall f g, fn_eqb f g = true -> f = g.
Proof.
  destruct f as [a | i n], g as [b | j m]; simpl; try discriminate; intros H.
  - f_equal. now apply class_eqb_eq.
  - apply andb_true_iff in H as [Hi Hn].
    apply Nat.eqb_eq in Hi. apply String.eqb_eq in Hn. now subst.
Qed.

Lemma fn_eqb_neq : forall f g, fn_eqb f g = false -> f <> g.
Proof.
  intros f g H E. subst. rewrite fn_eqb_refl in H. discriminate.
Qed.

Lemma fn_eqb_false_of_neq : forall f g, f <> g -> fn_eqb f g = false.
Proof.
  intros f g H. destruct (fn_eqb f g) eqn:E; [| reflexivity].
  now apply fn_eqb_eq in E.
Qed.

Lemma inherits_refl : forall c, inherits c c = true.
Proof.
  destruct c; simpl; now rewrite ?Nat.eqb_refl, ?String.eqb_refl, ?class_eqb_refl.
Qed.

Lemma inherits_depth :
  forall c k, inherits c k = true -> class_depth k <= class_depth c.
Proof.
  induction c as [i n | i n s IH]; intros k H; cbn [inherits] in H.
  - rewrite orb_false_r in H. apply class_eqb_eq in H. subst. simpl. lia.
  - apply orb_true_iff in H as [H | H].
    + apply class_eqb_eq in H. subst. simpl. lia.
    + apply IH in H. simpl. lia.
Qed.

(** A class is never one of its own proper ancestors. *)
Lemma proper_ancestor_distinct :
  forall k c, proper_ancestor k c = true -> class_eqb c k = false.
Proof.
  intros k c H. destruct c as [i n | i n s]; simpl in H; [discriminate |].
  apply inherits_depth in H.
  destruct (class_eqb (Extends i n s) k) eqn:E; [| reflexivity].
  apply class_eqb_eq in E. subst k. simpl in H. lia.
Qed.

Lemma proper_ancestor_inherits :
  forall k c, proper_ancestor k c = true -> inherits c k = true.
Proof.
  intros k c H. destruct c as [i n | i n s]; cbn [proper_ancestor inherits] in *;
    [discriminate |].
  rewrite H. apply orb_true_r.
Qed.

(* ------------------------------------------------------------------------- *)
(** ** [Map] operations                                                       *)
(* ------------------------------------------------------------------------- *)

Lemma map_get_set_same : forall k h m, map_get k (map_set k h m) = Some h.
Proof.
  intros k h m. induction m as [| [k' h'] rest IH]; simpl.
  - now rewrite fn_eqb_refl.
  - destruct (fn_eqb k k') eqn:E; simpl.
    + now rewrite fn_eqb_refl.
    + now rewrite E.
Qed.

Lemma map_get_set_other :
  forall k k' h m, fn_eqb k' k = false -> map_get k' (map_set k h m) = map_get k' m.
Proof.
  intros k k' h m Hne. induction m as [| [k0 h0] rest IH]; simpl.
  - now rewrite Hne.
  - destruct (fn_eqb k k0) eqn:E; simpl.
    + apply fn_eqb_eq in E. subst k0. now rewrite Hne.
    + now rewrite IH.
Qed.

Lemma keys_map_set_in :
  forall k h m x, In x (keys (map_set k h m)) -> x = k \/ In x (keys m).
Proof.
  intros k h m x. induction m as [| [k0 h0] rest IH]; simpl.
  - intros [H | []]. now left.
  - destruct (fn_eqb k k0) eqn:E; simpl.
    + intros [H | H]; [now left | now right; right].
    + intros [H | H]; [now right; left |].
      destruct (IH H) as [H1 | H1]; [now left | now right; right].
Qed.

(** Re-registration never adds a second entry for a key. *)
Lemma map_set_NoDup :
  forall k h m, NoDup (keys m) -> NoDup (keys (map_set k h m)).
Proof.
  intros k h m. induction m as [| [k0 h0] rest IH]; simpl; intros Hnd.
  - constructor; [intros [] | constructor].
  - inversion Hnd as [| ? ? Hnotin Hrest]; subst.
    destruct (fn_eqb k k0) eqn:E; simpl.
    + apply fn_eqb_eq in E. subst k0. now constructor.
    + constructor.
      * intros Hin. apply keys_map_set_in in Hin as [Hin | Hin].
        -- subst k0. rewrite fn_eqb_refl in E. discriminate.
        -- now apply Hnotin.
      * now apply IH.
Qed.

Lemma map_set_length_present :
  forall k h h0 m, map_get k m = Some h0 ->
                   List.length (map_set k h m) = List.length m.
Proof.
  intros k h h0 m. induction m as [| [k1 h1] rest IH]; simpl; [discriminate |].
  destruct (fn_eqb k k1); simpl; intros H; [reflexivity |].
  now rewrite IH.
Qed.

Lemma map_get_in_keys :
  forall k m h, map_get k m = Some h -> In k (keys m).
Proof.
  intros k m h. induction m as [| [k0 h0] rest IH]; simpl; [discriminate |].
  destruct (fn_eqb k k0) eqn:E.
  - apply fn_eqb_eq in E. now left.
  - intros H. right. now apply IH.
Qed.

(* ------------------------------------------------------------------------- *)
(** ** Lookup                                                                 *)
(* ------------------------------------------------------------------------- *)

Lemma created_by_constructor :
  forall c err, created_by c err -> get_prop err "constructor" = Ok (VFun (FClass c)).
Proof.
  intros c err (own & -> & Hown). unfold get_prop. simpl. now rewrite Hown.
Qed.

Lemma created_by_instance :
  forall c k err, created_by c err ->
                  instanceOf err (FClass k) = Ok (inherits c k).
Proof.
  intros c k err (own & -> & _). reflexivity.
Qed.

(** With the constructor known, the first loop is a [Map] lookup by it. *)
Lemma exact_phase_lookup :
  forall err f m,
    get_prop err "constructor" = Ok (VFun f) ->
    exact_phase err m = Ok (map_get f m).
Proof.
  intros err f m Hc. induction m as [| [k h] rest IH]; simpl; [reflexivity |].
  rewrite Hc. simpl. destruct (fn_eqb f k); [reflexivity | exact IH].
Qed.

Lemma exact_phase_none :
  forall err m,
    nullish err = false ->
    (forall k, In k (keys m) -> is_fn (prop err "constructor") k = false) ->
    exact_phase err m = Ok None.
Proof.
  intros err m Hn. induction m as [| [k h] rest IH]; simpl; intros Hall;
    [reflexivity |].
  unfold get_prop. rewrite Hn.
  rewrite (Hall k (or_introl eq_refl)). apply IH.
  intros k' Hin. apply Hall. now right.
Qed.

Lemma inheritance_phase_none :
  forall err m,
    (forall k, In k (keys m) -> instanceOf err k = Ok false) ->
    inheritance_phase err m = Ok None.
Proof.
  intros err m. induction m as [| [k h] rest IH]; simpl; intros Hall;
    [reflexivity |].
  rewrite (Hall k (or_introl eq_refl)). apply IH.
  intros k' Hin. apply Hall. now right.
Qed.

(** When a single registered key accepts the error, the second loop returns
    the handler stored under it. *)
Lemma inheritance_phase_only :
  forall err a ha m,
    instanceOf err a = Ok true ->
    map_get a m = Some ha ->
    (forall k, In k (keys m) -> k <> a -> instanceOf err k = Ok false) ->
    inheritance_phase err m = Ok (Some ha).
Proof.
  intros err a ha m Ha. induction m as [| [k h] rest IH]; simpl;
    [discriminate |].
  intros Hget Hall. destruct (fn_eqb a k) eqn:E.
  - apply fn_eqb_eq in E. subst k. rewrite Ha. congruence.
  - rewrite (Hall k (or_introl eq_refl)).
    + apply IH; [exact Hget |]. intros k' Hin. apply Hall. now right.
    + intros ->. rewrite fn_eqb_refl in E. discriminate.
Qed.

Lemma findErrorHandler_unfold :
  forall err st,
    findErrorHandler err st =
    match exact_phase err (registry_cell st) with
    | Throw e => (Throw e, st)
    | Ok (Some h) => (Ok (VFun h), st)
    | Ok None =>
        match inheritance_phase err (registry_cell st) with
        | Throw e => (Throw e, st)
        | Ok (Some h) => (Ok (VFun h), st)
        | Ok None => (Ok VNull, st)
        end
    end.
Proof.
  intros err st. unfold findErrorHandler, bind, Map_entries, lift, ret. simpl.
  destruct (exact_phase err (registry_cell st)) as [[h |] | e]; try reflexivity.
  destruct (inheritance_phase err (registry_cell st)) as [[h |] | e]; reflexivity.
Qed.

(** C2. Lookup is two-phase with exact-match precedence.
    (a) When a class and one of its proper ancestors are both registered,
        an instance of the class gets the class's handler and an instance of
        the ancestor gets the ancestor's handler.
    (b) When the ancestor is the only registered key that accepts an instance
        of the class, the instance gets the ancestor's handler.
    (c) When no registered key matches a (non-null) error value, neither by
        identity of its constructor nor by [instanceof], the lookup returns
        [null] and does not throw.
    The registry is left as it was in all three cases. *)
Theorem C2_two_phase_lookup :
  (forall st child anc hc ha errc erra,
      proper_ancestor anc child = true ->
      map_get (FClass child) (registry_cell st) = Some hc ->
      map_get (FClass anc) (registry_cell st) = Some ha ->
      created_by child errc ->
      created_by anc erra ->
      findErrorHandler errc st = (Ok (VFun hc), st) /\
      findErrorHandler erra st = (Ok (VFun ha), st))
  /\
  (forall st child anc ha errc,
      proper_ancestor anc child = true ->
      map_get (FClass anc) (registry_cell st) = Some ha ->
      (forall k, In k (keys (registry_cell st)) -> k <> FClass anc ->
                 instanceOf errc k = Ok false) ->
      created_by child errc ->
      findErrorHandler errc st = (Ok (VFun ha), st))
  /\
  (forall st err,
      nullish err = false ->
      (forall k, In k (keys (registry_cell st)) ->
                 is_fn (prop err "constructor") k = false /\
                 instanceOf err k = Ok false) ->
      findErrorHandler err st = (Ok VNull, st)).
Proof.
  split; [| split].
  - intros st child anc hc ha errc erra _ Hc Ha Hec Hea.
    rewrite !findErrorHandler_unfold.
    rewrite (exact_phase_lookup _ _ _ (created_by_constructor _ _ Hec)), Hc.
    rewrite (exact_phase_lookup _ _ _ (created_by_constructor _ _ Hea)), Ha.
    split; reflexivity.
  - intros st child anc ha errc Hanc Ha Hothers Hec.
    rewrite findErrorHandler_unfold.
    rewrite (exact_phase_lookup _ _ _ (created_by_constructor _ _ Hec)).
    assert (Hinst : instanceOf errc (FClass anc) = Ok true).
    { rewrite (created_by_instance _ anc _ Hec).
      now rewrite (proper_ancestor_inherits _ _ Hanc). }
    destruct (map_get (FClass child) (registry_cell st)) as [hc |] eqn:Hc.
    + exfalso. apply map_get_in_keys in Hc.
      assert (Hne : FClass child <> FClass anc).
      { intros E. injection E as E. subst anc.
        apply proper_ancestor_distinct in Hanc.
        rewrite class_eqb_refl in Hanc. discriminate. }
      specialize (Hothers _ Hc Hne).
      rewrite (created_by_instance _ child _ Hec), inherits_refl in Hothers.
      discriminate.
    + now rewrite (inheritance_phase_only _ _ _ _ Hinst Ha Hothers).
  - intros st err Hn Hall.
    rewrite findErrorHandler_unfold.
    rewrite exact_phase_none; [| exact Hn | intros k Hk; apply (Hall k Hk)].
    rewrite inheritance_phase_none; [reflexivity |].
    intros k Hk. apply (Hall k Hk).
Qed.

Lemma C2_witness :
  let child := Fixtures.SpecificTestException in
  let parent := Fixtures.TestException in
  let W := Fixtures.development in
  (findErrorHandler (BaseException_new W child (VStr "child") VUndef)
                    Fixtures.both_registered
   = (Ok (VFun Fixtures.specificHandler), Fixtures.both_registered) /\
   findErrorHandler (BaseException_new W parent (VStr "parent") VUndef)
                    Fixtures.both_registered
   = (Ok (VFun Fixtures.testHandler), Fixtures.both_registered)) /\
  findErrorHandler (BaseException_new W child (VStr "child") VUndef)
                   (Fixtures.parent_registered Fixtures.testHandler)
  = (Ok (VFun Fixtures.testHandler),
     Fixtures.parent_registered Fixtures.testHandler) /\
  findErrorHandler (mkError ErrorClass "unknown error") Fixtures.both_registered
  = (Ok VNull, Fixtures.both_registered).
Proof.
  destruct C2_two_phase_lookup as (Hboth & Honly & Hnone).
  intros child parent W. split; [| split].
  - apply (Hboth Fixtures.both_registered child parent);
      try reflexivity; eexists; split; reflexivity.
  - apply (Honly (Fixtures.parent_registered Fixtures.testHandler) child parent);
      try reflexivity.
    + intros k [Hk | []] Hne. subst k. exfalso. apply Hne. reflexivity.
    + eexists; split; reflexivity.
  - apply Hnone; [reflexivity |].
    intros k [Hk | [Hk | []]]; subst k; split; reflexivity.
Defined.

(* ------------------------------------------------------------------------- *)
(** ** Registration                                                           *)
(* ------------------------------------------------------------------------- *)

Lemma typeof_function_inv :
  forall v, typeof_ v = "function" -> exists f, v = VFun f.
Proof.
  intros v H. destruct v; simpl in H; try discriminate. now eexists.
Qed.

Lemma typeof_not_function :
  forall v, typeof_ v <> "function" -> forall f, v <> VFun f.
Proof.
  intros v H f E. subst v. now apply H.
Qed.

(** The registry never holds two entries for one key. *)
Lemma registry_reachable_NoDup :
  forall m, registry_reachable m -> NoDup (keys m).
Proof.
  induction 1 as [| k h m _ IH]; [constructor | now apply map_set_NoDup].
Qed.

(** Overwriting keeps the registration order; a new key goes to the end. *)
Lemma map_set_keys_present :
  forall k h h0 m, map_get k m = Some h0 -> keys (map_set k h m) = keys m.
Proof.
  intros k h h0 m. induction m as [| [k1 h1] rest IH]; simpl; [discriminate |].
  destruct (fn_eqb k k1) eqn:E; simpl.
  - intros _. apply fn_eqb_eq in E. now subst k1.
  - intros Hget. f_equal. now apply IH.
Qed.

Lemma map_set_in_place :
  forall k h h0 m,
    map_get k m = Some h0 ->
    exists before after,
      m = before ++ (k, h0) :: after /\
      map_set k h m = before ++ (k, h) :: after /\
      ~ In k (keys before).
Proof.
  intros k h h0 m. induction m as [| [k1 h1] rest IH]; simpl; [discriminate |].
  destruct (fn_eqb k k1) eqn:E.
  - intros Hget. injection Hget as ->. apply fn_eqb_eq in E. subst k1.
    exists [], rest. repeat split. intros [].
  - intros Hget. destruct (IH Hget) as (before & after & Hm & Hset & Hnotin).
    exists ((k1, h1) :: before), after. subst rest. rewrite Hset.
    repeat split. simpl. intros [Heq | Hin]; [| contradiction].
    subst k1. rewrite fn_eqb_refl in E. discriminate.
Qed.

Lemma map_set_appends :
  forall k h m, map_get k m = None -> map_set k h m = m ++ [(k, h)].
Proof.
  intros k h m. induction m as [| [k1 h1] rest IH]; simpl; [reflexivity |].
  destruct (fn_eqb k k1); [discriminate |].
  intros Hget. f_equal. now apply IH.
Qed.

(** C8 (as amended). [registerErrorHandler] fails with a plain [Error] - not a
    [TypeError] - exactly when [typeof] of its first argument is not
    ['function'] (message "ExceptionClass must be a constructor function") or,
    that check passed, [typeof] of its second argument is not ['function']
    (message "Handler must be a function"); the registry is then untouched.
    When both arguments are functions it returns [undefined] and stores the
    handler under the key: a later lookup of the key yields the new handler,
    other keys keep theirs, and keys stay pairwise distinct.  An already
    registered key is overwritten in place: the registry does not grow, the
    keys keep their registration order, and the entries before and after the
    key are the same as before.  A key not yet registered is appended at the
    end. *)
Theorem C8_registration_contract :
  forall ExceptionClass handler st,
    (typeof_ ExceptionClass <> "function" ->
     registerErrorHandler ExceptionClass handler st
     = (Throw (mkError ErrorClass "ExceptionClass must be a constructor function"),
        st))
    /\
    (typeof_ ExceptionClass = "function" -> typeof_ handler <> "function" ->
     registerErrorHandler ExceptionClass handler st
     = (Throw (mkError ErrorClass "Handler must be a function"), st))
    /\
    (typeof_ ExceptionClass = "function" -> typeof_ handler = "function" ->
     exists k h st',
       ExceptionClass = VFun k /\ handler = VFun h /\
       registerErrorHandler ExceptionClass handler st = (Ok VUndef, st') /\
       map_get k (registry_cell st') = Some h /\
       (forall k', fn_eqb k' k = false ->
                   map_get k' (registry_cell st') = map_get k' (registry_cell st)) /\
       (forall h0, map_get k (registry_cell st) = Some h0 ->
                   List.length (registry_cell st') = List.length (registry_cell st)) /\
       (NoDup (keys (registry_cell st)) -> NoDup (keys (registry_cell st'))) /\
       fresh_maps st' = fresh_maps st /\ trace st' = trace st /\
       (forall h0, map_get k (registry_cell st) = Some h0 ->
                   keys (registry_cell st') = keys (registry_cell st) /\
                   exists before after,
                     registry_cell st = before ++ (k, h0) :: after /\
                     registry_cell st' = before ++ (k, h) :: after /\
                     ~ In k (keys before)) /\
       (map_get k (registry_cell st) = None ->
        registry_cell st' = registry_cell st ++ [(k, h)]))
    /\
    (forall msg,
        instance_of_class (mkError ErrorClass msg) ErrorClass = true /\
        instance_of_class (mkError ErrorClass msg) TypeErrorClass = false).
Proof.
  intros ec handler st. split; [| split; [| split]].
  - intros Hty. destruct ec; try reflexivity. now elim Hty.
  - intros Hec Hh. apply typeof_function_inv in Hec as [k ->].
    destruct handler; try reflexivity. now elim Hh.
  - intros Hec Hh.
    apply typeof_function_inv in Hec as [k ->].
    apply typeof_function_inv in Hh as [h ->].
    exists k, h.
    exists (write_map RegistryRef (map_set k h (registry_cell st)) st).
    split; [reflexivity |]. split; [reflexivity |]. split; [reflexivity |].
    split; [simpl; apply map_get_set_same |].
    split; [intros k' Hne; simpl; now apply map_get_set_other |].
    split; [intros h0 Hget; simpl;
            now apply map_set_length_present with (h0 := h0) |].
    split; [intros Hnd; simpl; now apply map_set_NoDup |].
    split; [reflexivity |]. split; [reflexivity |].
    split.
    + intros h0 Hget. simpl. split.
      * now apply map_set_keys_present with (h0 := h0).
      * now apply map_set_in_place.
    + intros Hget. simpl. now apply map_set_appends.
  - intros msg. split; reflexivity.
Qed.

Lemma C8_witness :
  registerErrorHandler (VStr "NotAClass") (VFun Fixtures.testHandler)
                       Fixtures.both_registered
  = (Throw (mkError ErrorClass "ExceptionClass must be a constructor function"),
     Fixtures.both_registered)
  /\
  registerErrorHandler (VFun (FClass Fixtures.TestException)) (VStr "NotAFunction")
                       Fixtures.both_registered
  = (Throw (mkError ErrorClass "Handler must be a function"),
     Fixtures.both_registered)
  /\
  exists st',
    registerErrorHandler (VFun (FClass Fixtures.TestException))
                         (VFun Fixtures.specificHandler)
                         Fixtures.both_registered = (Ok VUndef, st') /\
    map_get (FClass Fixtures.TestException) (registry_cell st')
    = Some Fixtures.specificHandler /\
    List.length (registry_cell st') = 2 /\
    keys (registry_cell st')
    = [FClass Fixtures.TestException; FClass Fixtures.SpecificTestException].
Proof.
  split; [| split].
  - apply (C8_registration_contract (VStr "NotAClass") (VFun Fixtures.testHandler)
                                    Fixtures.both_registered).
    simpl. discriminate.
  - apply (C8_registration_contract (VFun (FClass Fixtures.TestException))
                                    (VStr "NotAFunction") Fixtures.both_registered).
    + reflexivity.
    + simpl. discriminate.
  - destruct (C8_registration_contract (VFun (FClass Fixtures.TestException))
                                       (VFun Fixtures.specificHandler)
                                       Fixtures.both_registered)
      as (_ & _ & Hok & _).
    destruct (Hok eq_refl eq_refl)
      as (k & h & st' & Hk & Hh & Hrun & Hget & _ & Hlen & _ & _ & _ & Hplace & _).
    injection Hk as <-. injection Hh as <-.
    exists st'. split; [exact Hrun | split; [exact Hget |]].
    split; [now rewrite (Hlen Fixtures.testHandler eq_refl) |].
    destruct (Hplace Fixtures.testHandler eq_refl) as [Hkeys _].
    rewrite Hkeys. reflexivity.
Defined.

(** The claim as first stated asks for a [TypeError]; a string passed as the
    exception class is rejected with an error that is no [TypeError]. *)
Lemma C8_counterexample :
  exists e,
    registerErrorHandler (VStr "NotAClass") (VFun Fixtures.testHandler)
                         initial_state = (Throw e, initial_state) /\
    instance_of_class e TypeErrorClass = false /\
    prop e "name" = VStr "Error".
Proof.
  eexists. split; [reflexivity | split; reflexivity].
Qed.

(* ------------------------------------------------------------------------- *)
(** ** The snapshot returned by [getRegisteredHandlers]                        *)
(* ------------------------------------------------------------------------- *)

Lemma nth_app_last :
  forall (l : list MapObj) x, nth (List.length l) (l ++ [x]) [] = x.
Proof.
  induction l as [| y l IH]; intros x; simpl; [reflexivity | apply IH].
Qed.

Lemma update_nth_app_last :
  forall (l : list MapObj) x y,
    update_nth (List.length l) y (l ++ [x]) = l ++ [y].
Proof.
  induction l as [| z l IH]; intros x y; simpl; [reflexivity |].
  now rewrite IH.
Qed.

(** Mutating a fresh map touches that map only. *)
Lemma apply_mutations_fresh :
  forall mus reg l c tr,
    apply_mutations (FreshRef (List.length l)) mus
                    {| registry_cell := reg; fresh_maps := l ++ [c]; trace := tr |}
    = (Ok tt,
       {| registry_cell := reg;
          fresh_maps := l ++ [fold_left mutate_entries mus c];
          trace := tr |}).
Proof.
  induction mus as [| mu rest IH]; intros reg l c tr; simpl; [reflexivity |].
  unfold bind.
  destruct mu as [k h | k |]; simpl;
    unfold Map_set, Map_delete, Map_clear, write_map, read_map; simpl;
    rewrite ?nth_app_last, update_nth_app_last; apply IH.
Qed.

(** C9. [getRegisteredHandlers] returns a reference to a new [Map] holding the
    registry's entries.  Any sequence of [set], [delete] and [clear] applied
    through that reference changes the snapshot and leaves the live registry
    untouched: [findErrorHandler] answers as before for every error, and a
    second [getRegisteredHandlers] yields the original entries again. *)
Theorem C9_snapshot_is_a_defensive_copy :
  forall st,
  exists snap st1,
    getRegisteredHandlers st = (Ok snap, st1) /\
    snap <> errorHandlerRegistry /\
    read_map snap st1 = registry_cell st /\
    forall mus,
    exists st2,
      apply_mutations snap mus st1 = (Ok tt, st2) /\
      read_map snap st2 = fold_left mutate_entries mus (registry_cell st) /\
      registry_cell st2 = registry_cell st /\
      (forall err, fst (findErrorHandler err st2) = fst (findErrorHandler err st)) /\
      (exists snap' st3,
          getRegisteredHandlers st2 = (Ok snap', st3) /\
          read_map snap' st3 = registry_cell st).
Proof.
  intros [reg l tr].
  exists (FreshRef (List.length l)).
  eexists. split; [reflexivity |]. split; [discriminate |]. split.
  - simpl. apply nth_app_last.
  - intros mus. eexists. split; [apply apply_mutations_fresh |].
    simpl. split; [apply nth_app_last |]. split; [reflexivity |]. split.
    + intros err. rewrite !findErrorHandler_unfold. simpl.
      destruct (exact_phase err reg) as [[h |] | e]; try reflexivity.
      destruct (inheritance_phase err reg) as [[h |] | e]; reflexivity.
    + eexists. eexists. split; [reflexivity |]. simpl.
      apply nth_app_last.
Qed.

(* ------------------------------------------------------------------------- *)
(** ** Lookup of [null] and [undefined]                                        *)
(* ------------------------------------------------------------------------- *)

Lemma exact_phase_nullish :
  forall err k h rest,
    nullish err = true ->
    exact_phase err ((k, h) :: rest)
    = Throw (type_error ("Cannot read properties of " ++ to_string err
                         ++ " (reading 'constructor')")%string).
Proof.
  intros err k h rest Hn. simpl. unfold get_prop. now rewrite Hn.
Qed.

Lemma handleWithRegistry_unfold :
  forall W err req res options st,
    options <> VNull ->
    handleWithRegistry W err req res options st =
    match findErrorHandler err st with
    | (Throw e, st') => (Throw e, st')
    | (Ok handler, st') =>
        if negb (truthy handler) then (Ok VNull, st')
        else if truthy (default_arg (prop (default_arg options (obj []))
                                          "useSafeWrapper") (VBool true))
             then (ctor <- lift (get_prop err "constructor") ;;
                   name <- lift (get_prop ctor "name") ;;
                   createSafeHandler W handler
                     (obj [("handlerName",
                            VStr (to_string name ++ "Handler")%string)])
                     err req res) st'
             else invoke W handler VUndef [err; req; res] st'
    end.
Proof.
  intros W err req res options st Hopt.
  unfold handleWithRegistry.
  assert (Hn : nullish (default_arg options (obj [])) = false)
    by (destruct options; try reflexivity; now elim Hopt).
  unfold get_prop at 1. rewrite Hn. unfold bind at 1, lift at 1.
  unfold bind at 1.
  destruct (findErrorHandler err st) as [[handler | e] st']; [| reflexivity].
  destruct (negb (truthy handler)); [reflexivity |].
  destruct (truthy _); reflexivity.
Qed.

(** C10 (as amended). For a [null] or [undefined] error value the lookup throws
    a [TypeError] exactly when the registry holds at least one entry (the first
    loop then reads [err.constructor]); on an empty registry both loops are
    skipped and [findErrorHandler], and with it [handleWithRegistry], return
    the no-handler signal [null]. *)
Theorem C10_nullish_error_lookup :
  forall W st err req res options,
    nullish err = true ->
    options <> VNull ->
    (registry_cell st = [] ->
     findErrorHandler err st = (Ok VNull, st) /\
     handleWithRegistry W err req res options st = (Ok VNull, st))
    /\
    (registry_cell st <> [] ->
     exists e,
       instance_of_class e TypeErrorClass = true /\
       findErrorHandler err st = (Throw e, st) /\
       handleWithRegistry W err req res options st = (Throw e, st)).
Proof.
  intros W st err req res options Hn Hopt. split.
  - intros Hempty.
    assert (Hfind : findErrorHandler err st = (Ok VNull, st))
      by (rewrite findErrorHandler_unfold, Hempty; reflexivity).
    split; [exact Hfind |].
    rewrite handleWithRegistry_unfold by exact Hopt. now rewrite Hfind.
  - intros Hne.
    destruct (registry_cell st) as [| [k h] rest] eqn:Hreg; [now elim Hne |].
    eexists.
    assert (Hfind : findErrorHandler err st
                    = (Throw (type_error ("Cannot read properties of "
                                          ++ to_string err
                                          ++ " (reading 'constructor')")%string),
                       st)).
    { rewrite findErrorHandler_unfold, Hreg, exact_phase_nullish by exact Hn.
      reflexivity. }
    split; [| split; [exact Hfind |]].
    + reflexivity.
    + rewrite handleWithRegistry_unfold by exact Hopt. now rewrite Hfind.
Qed.

Lemma C10_witness :
  (findErrorHandler VNull initial_state = (Ok VNull, initial_state) /\
   handleWithRegistry Fixtures.development VNull Fixtures.mockReq
                      (Fixtures.mockRes false) VUndef initial_state
   = (Ok VNull, initial_state))
  /\
  (exists e,
      instance_of_class e TypeErrorClass = true /\
      findErrorHandler VUndef Fixtures.both_registered
      = (Throw e, Fixtures.both_registered) /\
      handleWithRegistry Fixtures.development VUndef Fixtures.mockReq
                         (Fixtures.mockRes false) VUndef Fixtures.both_registered
      = (Throw e, Fixtures.both_registered)).
Proof.
  split.
  - apply (C10_nullish_error_lookup Fixtures.development initial_state VNull
             Fixtures.mockReq (Fixtures.mockRes false) VUndef);
      [reflexivity | discriminate | reflexivity].
  - apply (C10_nullish_error_lookup Fixtures.development Fixtures.both_registered
             VUndef Fixtures.mockReq (Fixtures.mockRes false) VUndef);
      [reflexivity | discriminate | discriminate].
Defined.

(** The claim as first stated has the lookup throw for every registry; on the
    empty registry it returns [null]. *)
Lemma C10_counterexample :
  findErrorHandler VNull initial_state = (Ok VNull, initial_state) /\
  findErrorHandler VUndef initial_state = (Ok VNull, initial_state) /\
  handleWithRegistry Fixtures.development VNull Fixtures.mockReq
                     (Fixtures.mockRes false) VUndef initial_state
  = (Ok VNull, initial_state).
Proof.
  repeat split.
Qed.

(* ------------------------------------------------------------------------- *)
(** ** The fallback response builder                                          *)
(* ------------------------------------------------------------------------- *)

Lemma truthy_not_undef : forall v, truthy v = true -> default_arg v v = v.
Proof. now destruct v. Qed.

Lemma js_or_status_defined :
  forall v d, default_arg (js_or v (VNum 500)) d = js_or v (VNum 500).
Proof.
  intros v d. unfold js_or. destruct (truthy v) eqn:E; [| reflexivity].
  destruct v; try reflexivity. discriminate.
Qed.

Lemma spread_falsy : forall v, truthy v = false -> spread v = [].
Proof.
  intros v H. destruct v; try reflexivity; simpl in H; try discriminate.
  destruct s; [reflexivity | discriminate].
Qed.

Lemma console_run :
  forall level args st, console level args st = (Ok tt, add_event (ELog level args) st).
Proof. reflexivity. Qed.

(** Whenever the builder returns, it returns [fallback_response]. *)
Lemma createFallbackResponse_inv :
  forall W oe he req st r st',
    createFallbackResponse W oe he req st = (Ok r, st') ->
    r = fallback_response W oe.
Proof.
  intros W oe he req st r st' H.
  unfold createFallbackResponse, bind in H.
  destruct (first_stack_line W he st) as [[line | e] s1]; [| discriminate].
  destruct (request_context W (default_arg req VNull) s1) as [[rc | e] s2];
    [| discriminate].
  destruct (is_false (opt_prop oe "isOperational"));
    rewrite console_run in H; unfold ret in H; injection H as <- _; reflexivity.
Qed.

Lemma first_stack_line_text :
  forall W he st,
    stack_is_text he -> exists line, first_stack_line W he st = (Ok line, st).
Proof.
  intros W he st H. unfold stack_is_text in H. unfold first_stack_line.
  destruct (opt_prop he "stack"); simpl; try contradiction; eexists; reflexivity.
Qed.

Lemma request_context_answers :
  forall W req st,
    header_reader_answers W req ->
    exists rc st', request_context W (default_arg req VNull) st = (Ok rc, st').
Proof.
  intros W req st H. unfold header_reader_answers in H. unfold request_context.
  destruct (truthy (default_arg req VNull)) eqn:Ht.
  - specialize (H eq_refl).
    assert (Hreq : default_arg req VNull = req) by (destruct req; try reflexivity; discriminate).
    rewrite Hreq.
    destruct (prop req "get") as [| | | | | f | |] eqn:Hg; simpl; try contradiction.
    + eexists. eexists. reflexivity.
    + eexists. eexists. reflexivity.
    + destruct H as [v Hv]. unfold bind, invoke, emit, lift. simpl.
      rewrite Hv. eexists. eexists. reflexivity.
  - eexists. eexists. reflexivity.
Qed.

(** For an original error with a plain status, a textual stack and a header
    reader that answers, the builder returns. *)
Lemma createFallbackResponse_returns :
  forall W oe he req st,
    plain_status (opt_prop oe "statusCode") ->
    stack_is_text he ->
    header_reader_answers W req ->
    exists st', createFallbackResponse W oe he req st = (Ok (fallback_response W oe), st').
Proof.
  intros W oe he req st _ Hs Hr.
  destruct (first_stack_line_text W he st Hs) as [line Hline].
  destruct (request_context_answers W req st Hr) as (rc & s2 & Hrc).
  unfold createFallbackResponse, bind. rewrite Hline, Hrc.
  destruct (is_false (opt_prop oe "isOperational"));
    rewrite console_run; eexists; reflexivity.
Qed.

Lemma fallback_response_is_HttpResponse :
  forall W oe, instance_of_class (fallback_response W oe) HttpResponseClass = true.
Proof. reflexivity. Qed.

Lemma fallback_response_statusCode :
  forall W oe,
    prop (fallback_response W oe) "statusCode"
    = js_or (opt_prop oe "statusCode") (VNum 500).
Proof.
  intros W oe. unfold fallback_response, HttpResponse_error, HttpResponse_new.
  cbv zeta. rewrite !js_or_status_defined. reflexivity.
Qed.

Lemma fallback_response_message :
  forall W oe,
    prop (fallback_response W oe) "message"
    = VStr (fallback_message (js_or (opt_prop oe "statusCode") (VNum 500))).
Proof. reflexivity. Qed.

Lemma fallback_response_data :
  forall W oe, prop (fallback_response W oe) "data" = VNull.
Proof. reflexivity. Qed.

Lemma fallback_response_meta :
  forall W oe,
    prop (prop (fallback_response W oe) "meta") "errorCode"
    = VStr "HANDLER_EXECUTION_FAILED" /\
    prop (prop (fallback_response W oe) "meta") "retryable"
    = VBool (isRetryableError oe) /\
    prop (prop (fallback_response W oe) "meta") "originalErrorCode"
    = opt_prop oe "errorCode".
Proof.
  intros W oe. unfold fallback_response, HttpResponse_error, HttpResponse_new.
  cbv zeta.
  destruct (truthy (opt_prop (opt_prop oe "metadata") "domain")) eqn:Hd.
  - repeat split; reflexivity.
  - rewrite (spread_falsy _ Hd). repeat split; reflexivity.
Qed.

(** The code's retry test against the specification's denylist. *)
Lemma isRetryableError_spec :
  forall oe,
    isRetryableError oe = negb (spec_never_retryable (opt_prop oe "statusCode")).
Proof.
  intros oe. unfold isRetryableError.
  destruct (opt_prop oe "statusCode") as [| | b | n | s | f | p o | st v];
    try reflexivity.
  - now destruct b.
  - unfold spec_never_retryable, spec_denylist, includes, nonRetryableStatusCodes.
    cbn [existsb is_num truthy].
    destruct (Z.eqb_spec n 0) as [-> | Hn]; [reflexivity |].
    cbn [negb andb].
    unfold HTTP_STATUS.BAD_REQUEST, HTTP_STATUS.UNAUTHORIZED,
      HTTP_STATUS.FORBIDDEN, HTTP_STATUS.NOT_FOUND, HTTP_STATUS.CONFLICT.
    now destruct (_ || _).
  - simpl. now destruct (negb _).
Qed.




(** C4. Retry classification is a closed denylist.  Whenever the fallback
    builder returns - and it does for every original error whose [statusCode]
    is absent, [null], a boolean or a number, given a textual handler stack
    and an answering header reader - [meta.retryable] is [false]
    if the original error's [statusCode] is one of the numbers 400, 401, 403,
    404, 409 and [true] for every other value of that field, an absent one
    included. *)
Theorem C4_retry_classification_is_a_denylist :
  forall W oe he req st,
    (plain_status (opt_prop oe "statusCode") ->
     stack_is_text he -> header_reader_answers W req ->
     exists r st', createFallbackResponse W oe he req st = (Ok r, st'))
    /\
    (forall r st',
        createFallbackResponse W oe he req st = (Ok r, st') ->
        ((exists n, opt_prop oe "statusCode" = VNum n /\ In n spec_denylist) ->
         prop (prop r "meta") "retryable" = VBool false) /\
        ((forall n, opt_prop oe "statusCode" = VNum n -> ~ In n spec_denylist) ->
         prop (prop r "meta") "retryable" = VBool true)).
Proof.
  intros W oe he req st. split.
  - intros Hp Hs Hr.
    destruct (createFallbackResponse_returns W oe he req st Hp Hs Hr) as [st' H].
    eexists. eexists. exact H.
  - intros r st' Hrun. apply createFallbackResponse_inv in Hrun. subst r.
    destruct (fallback_response_meta W oe) as (_ & -> & _).
    rewrite isRetryableError_spec. split.
    + intros (n & -> & Hin). unfold spec_never_retryable.
      replace (existsb (Z.eqb n) spec_denylist) with true; [reflexivity |].
      symmetry. apply existsb_exists. exists n. split; [exact Hin | apply Z.eqb_refl].
    + intros Hout.
      destruct (spec_never_retryable (opt_prop oe "statusCode")) eqn:E;
        [| reflexivity].
      exfalso. unfold spec_never_retryable in E.
      destruct (opt_prop oe "statusCode"); try discriminate.
      apply existsb_exists in E as (m & Hin & Hm).
      apply Z.eqb_eq in Hm. subst m. now apply (Hout n).
Qed.

Lemma C4_witness :
  (exists r st',
      createFallbackResponse Fixtures.development Fixtures.childError
        (mkError ErrorClass "Handler failed") VUndef initial_state = (Ok r, st') /\
      prop (prop r "meta") "retryable" = VBool false)
  /\
  (exists r st',
      createFallbackResponse Fixtures.development
        (obj [("statusCode", VNum 999)])
        (mkError ErrorClass "Handler failed") VUndef initial_state = (Ok r, st') /\
      prop (prop r "meta") "retryable" = VBool true)
  /\
  (exists r st',
      createFallbackResponse Fixtures.development (mkError ErrorClass "no status")
        (mkError ErrorClass "Handler failed") VUndef initial_state = (Ok r, st') /\
      prop (prop r "meta") "retryable" = VBool true).
Proof.
  split; [| split].
  - destruct (C4_retry_classification_is_a_denylist
                Fixtures.development Fixtures.childError
                (mkError ErrorClass "Handler failed") VUndef initial_state)
      as [Hret Hcls].
    destruct Hret as (r & st' & Hrun); [exact I | exact I | discriminate |].
    exists r, st'. split; [exact Hrun |].
    apply (Hcls r st' Hrun). exists 404%Z. split; [reflexivity |].
    simpl. tauto.
  - destruct (C4_retry_classification_is_a_denylist
                Fixtures.development (obj [("statusCode", VNum 999)])
                (mkError ErrorClass "Handler failed") VUndef initial_state)
      as [Hret Hcls].
    destruct Hret as (r & st' & Hrun); [exact I | exact I | discriminate |].
    exists r, st'. split; [exact Hrun |].
    apply (Hcls r st' Hrun). intros n Hn. injection Hn as <-.
    simpl. intros [H | [H | [H | [H | [H | []]]]]]; discriminate.
  - destruct (C4_retry_classification_is_a_denylist
                Fixtures.development (mkError ErrorClass "no status")
                (mkError ErrorClass "Handler failed") VUndef initial_state)
      as [Hret Hcls].
    destruct Hret as (r & st' & Hrun); [exact I | exact I | discriminate |].
    exists r, st'. split; [exact Hrun |].
    apply (Hcls r st' Hrun). intros n Hn. discriminate.
Defined.

Lemma fallback_message_buckets :
  forall v,
    (v = VNum 404 -> fallback_message v = "Requested resource not found") /\
    (v = VNum 400 -> fallback_message v = "Invalid request data") /\
    (v = VNum 403 -> fallback_message v = "Access denied") /\
    (v = VNum 409 -> fallback_message v = "Resource conflict occurred") /\
    (v <> VNum 404 -> v <> VNum 400 -> v <> VNum 403 -> v <> VNum 409 ->
     fallback_message v = "Service temporarily unavailable").
Proof.
  intros v. repeat split; try (intros ->; reflexivity).
  intros H404 H400 H403 H409. unfold fallback_message.
  destruct v as [| | b | n | s | f | p o | st x]; try reflexivity.
  unfold is_num, HTTP_STATUS.NOT_FOUND, HTTP_STATUS.BAD_REQUEST,
    HTTP_STATUS.FORBIDDEN, HTTP_STATUS.CONFLICT.
  destruct (Z.eqb_spec n 404) as [-> | _]; [now elim H404 |].
  destruct (Z.eqb_spec n 400) as [-> | _]; [now elim H400 |].
  destruct (Z.eqb_spec n 403) as [-> | _]; [now elim H403 |].
  destruct (Z.eqb_spec n 409) as [-> | _]; [now elim H409 |].
  reflexivity.
Qed.

(** C5. Whenever the fallback builder returns - which it does for every
    original error whose [statusCode] is absent, [null], a boolean or a
    number, given a textual handler stack and an answering header
    reader - the response's [data] is [null] and its message is fixed by the
    resolved status ([statusCode] of the original error, or 500 when that is
    falsy): 404, 400, 403 and 409 have their own texts, everything else reads
    "Service temporarily unavailable". *)
Theorem C5_fallback_message_by_status_bucket :
  forall W oe he req st,
    (plain_status (opt_prop oe "statusCode") ->
     stack_is_text he -> header_reader_answers W req ->
     exists r st', createFallbackResponse W oe he req st = (Ok r, st'))
    /\
    (forall r st',
        createFallbackResponse W oe he req st = (Ok r, st') ->
        let status := prop r "statusCode" in
        status = js_or (opt_prop oe "statusCode") (VNum 500) /\
        prop r "data" = VNull /\
        (status = VNum 404 -> prop r "message" = VStr "Requested resource not found") /\
        (status = VNum 400 -> prop r "message" = VStr "Invalid request data") /\
        (status = VNum 403 -> prop r "message" = VStr "Access denied") /\
        (status = VNum 409 -> prop r "message" = VStr "Resource conflict occurred") /\
        (status <> VNum 404 -> status <> VNum 400 ->
         status <> VNum 403 -> status <> VNum 409 ->
         prop r "message" = VStr "Service temporarily unavailable")).
Proof.
  intros W oe he req st. split.
  - intros Hp Hs Hr.
    destruct (createFallbackResponse_returns W oe he req st Hp Hs Hr) as [st' H].
    eexists. eexists. exact H.
  - intros r st' Hrun status. subst status.
    apply createFallbackResponse_inv in Hrun. subst r.
    rewrite fallback_response_statusCode, fallback_response_message,
      fallback_response_data.
    destruct (fallback_message_buckets (js_or (opt_prop oe "statusCode") (VNum 500)))
      as (H404 & H400 & H403 & H409 & Hother).
    repeat split.
    + intros H. now rewrite (H404 H).
    + intros H. now rewrite (H400 H).
    + intros H. now rewrite (H403 H).
    + intros H. now rewrite (H409 H).
    + intros A B C D. now rewrite (Hother A B C D).
Qed.

Lemma C5_witness :
  exists r st',
    createFallbackResponse Fixtures.development
      (obj [("statusCode", VNum 403); ("message", VStr "secret: token=abc")])
      (mkError ErrorClass "Handler failed") Fixtures.test0_req initial_state
    = (Ok r, st') /\
    prop r "data" = VNull /\
    prop r "message" = VStr "Access denied".
Proof.
  destruct (C5_fallback_message_by_status_bucket
              Fixtures.development
              (obj [("statusCode", VNum 403); ("message", VStr "secret: token=abc")])
              (mkError ErrorClass "Handler failed") Fixtures.test0_req initial_state)
    as [Hret Hshape].
  destruct Hret as (r & st' & Hrun); [exact I | exact I | intros _; exact I |].
  exists r, st'. split; [exact Hrun |].
  destruct (Hshape r st' Hrun) as (Hstatus & Hdata & _ & _ & H403 & _).
  split; [exact Hdata |]. apply H403. exact Hstatus.
Defined.

(* ------------------------------------------------------------------------- *)
(** ** The safe wrapper and the dispatch entry point                           *)
(* ------------------------------------------------------------------------- *)

Lemma findErrorHandler_found_not_nullish :
  forall err st h st',
    findErrorHandler err st = (Ok (VFun h), st') -> nullish err = false.
Proof.
  intros err st h st' H. destruct (nullish err) eqn:Hn; [| reflexivity].
  rewrite findErrorHandler_unfold in H.
  destruct (registry_cell st) as [| [k h0] rest].
  - simpl in H. discriminate.
  - rewrite exact_phase_nullish in H by exact Hn. discriminate.
Qed.

(** A handler that throws a value with a textual stack: the wrapper answers
    with the fallback response. *)
Lemma safeHandlerWrapper_sync_failure :
  forall W h name err req res st he,
    call W h VUndef [err; req; res] = Throw he ->
    plain_status (opt_prop err "statusCode") ->
    stack_is_text he ->
    header_reader_answers W req ->
    exists st',
      safeHandlerWrapper W (VFun h) name err req res st
      = (Ok (fallback_response W err), st').
Proof.
  intros W h name err req res st he Hcall Hp Hs Hr.
  unfold safeHandlerWrapper, invoke. run_monad. rewrite Hcall. run_monad.
  apply createFallbackResponse_returns; assumption.
Qed.

(** A handler that returns a promise rejecting with such a value: the wrapper
    returns a promise fulfilled with the fallback response. *)
Lemma safeHandlerWrapper_async_failure :
  forall W h name err req res st he,
    call W h VUndef [err; req; res] = Ok (VPromise PRejected he) ->
    plain_status (opt_prop err "statusCode") ->
    stack_is_text he ->
    header_reader_answers W req ->
    exists st',
      safeHandlerWrapper W (VFun h) name err req res st
      = (Ok (VPromise PFulfilled (fallback_response W err)), st').
Proof.
  intros W h name err req res st he Hcall Hp Hs Hr.
  unfold safeHandlerWrapper, invoke. run_monad. rewrite Hcall. run_monad.
  change (truthy (VPromise PRejected he)
          && String.eqb (typeof_ (prop (VPromise PRejected he) "then")) "function")
    with true.
  cbv iota. unfold promise_catch_fallback. run_monad.
  destruct (createFallbackResponse_returns
              W err he req
              (add_event
                 (ELog "error"
                       [VStr ("[ASYNC_HANDLER_FAILURE] " ++ name ++ ":")%string;
                        failure_record err he req])
                 (add_event (ECall h VUndef [err; req; res]) st)) Hp Hs Hr)
    as [st' Hrun].
  rewrite Hrun. eexists. reflexivity.
Qed.

(** With the wrapper on (the default), dispatch of an error whose handler was
    found runs the handler inside [safeHandlerWrapper]. *)
Lemma handleWithRegistry_wraps :
  forall W err req res st h,
    findErrorHandler err st = (Ok (VFun h), st) ->
    nullish (prop err "constructor") = false ->
    handleWithRegistry W err req res VUndef st
    = safeHandlerWrapper W (VFun h)
        (to_string (prop (prop err "constructor") "name") ++ "Handler")%string
        err req res st.
Proof.
  intros W err req res st h Hfind Hctor.
  pose proof (findErrorHandler_found_not_nullish _ _ _ _ Hfind) as Hn.
  rewrite handleWithRegistry_unfold by discriminate.
  rewrite Hfind. cbn [truthy negb default_arg prop obj lookup inherited String.eqb].
  unfold bind, lift, get_prop. rewrite Hn, Hctor. reflexivity.
Qed.

Lemma text_named_constructor :
  forall err, text_named err -> nullish (prop err "constructor") = false.
Proof.
  intros err [s Hs]. destruct (prop err "constructor"); try reflexivity;
    discriminate.
Qed.

(** Dispatch contains the failure of a handler as long as the value the handler
    throws, or rejects with, has a textual stack (or none), the request's
    header reader answers, and the error still reports a constructor with a
    string name and has a plain status. *)
Lemma safe_dispatch_contains_textual_failures :
  forall W err req res st h he,
    findErrorHandler err st = (Ok (VFun h), st) ->
    text_named err ->
    plain_status (opt_prop err "statusCode") ->
    stack_is_text he ->
    header_reader_answers W req ->
    (call W h VUndef [err; req; res] = Throw he ->
     exists r st',
       handleWithRegistry W err req res VUndef st = (Ok r, st') /\
       prop r "statusCode" = js_or (opt_prop err "statusCode") (VNum 500) /\
       prop (prop r "meta") "errorCode" = VStr "HANDLER_EXECUTION_FAILED")
    /\
    (call W h VUndef [err; req; res] = Ok (VPromise PRejected he) ->
     exists r st',
       handleWithRegistry W err req res VUndef st = (Ok (VPromise PFulfilled r), st') /\
       prop r "statusCode" = js_or (opt_prop err "statusCode") (VNum 500) /\
       prop (prop r "meta") "errorCode" = VStr "HANDLER_EXECUTION_FAILED").
Proof.
  intros W err req res st h he Hfind Hname Hp Hs Hr.
  rewrite (handleWithRegistry_wraps W err req res st h Hfind
             (text_named_constructor err Hname)).
  set (name := (to_string (prop (prop err "constructor") "name") ++ "Handler")%string).
  split; intros Hcall.
  - destruct (safeHandlerWrapper_sync_failure W h name err req res st he Hcall Hp Hs Hr)
      as [st' Hrun].
    exists (fallback_response W err), st'. split; [exact Hrun |].
    split; [apply fallback_response_statusCode | apply fallback_response_meta].
  - destruct (safeHandlerWrapper_async_failure W h name err req res st he Hcall Hp Hs Hr)
      as [st' Hrun].
    exists (fallback_response W err), st'. split; [exact Hrun |].
    split; [apply fallback_response_statusCode | apply fallback_response_meta].
Qed.

(** The scenarios of test0.js: a synchronous and an asynchronous handler
    failure, both contained. *)
Example test0_handler_failures_contained :
  fst (handleWithRegistry Fixtures.development Fixtures.childError
         Fixtures.test0_req VNull VUndef
         (Fixtures.parent_registered Fixtures.buggyHandler))
  = Ok (fallback_response Fixtures.development Fixtures.childError)
  /\
  fst (handleWithRegistry Fixtures.development Fixtures.childError
         Fixtures.test0_req VNull VUndef
         (Fixtures.parent_registered Fixtures.asyncBuggyHandler))
  = Ok (VPromise PFulfilled
          (fallback_response Fixtures.development Fixtures.childError)).
Proof.
  split; vm_compute; reflexivity.
Qed.

(** C1. The specification has dispatch with the safe wrapper never propagate a
    handler's failure: it is to return a fallback response carrying the
    original error's status and [meta.errorCode = "HANDLER_EXECUTION_FAILED"].
    The code falls short of it.  A handler registered for [TestException]
    throws, synchronously, an error whose [stack] is an array of frames.
    Dispatch of a [SpecificTestException] through [handleWithRegistry], safe
    wrapper on, finds that handler, calls it, and then fails itself: building
    the log record evaluates [handlerError.stack.split], which is not a
    function on an array, so a [TypeError] leaves [handleWithRegistry] and no
    response is returned. *)
Theorem C1_array_stack_defeats_the_safe_wrapper :
  let st := Fixtures.parent_registered Fixtures.arrayStackHandler in
  let err := Fixtures.childError in
  let req := Fixtures.mockReq in
  let res := Fixtures.mockRes false in
  let outcome := handleWithRegistry Fixtures.development err req res VUndef st in
  findErrorHandler err st = (Ok (VFun Fixtures.arrayStackHandler), st) /\
  call Fixtures.development Fixtures.arrayStackHandler VUndef [err; req; res]
  = Throw Fixtures.arrayStackError /\
  fst outcome = Throw (type_error "undefined is not a function") /\
  instance_of_class (type_error "undefined is not a function") TypeErrorClass = true /\
  trace (snd outcome) =
  [ECall Fixtures.arrayStackHandler VUndef [err; req; res];
   ELog "error"
        [VStr "[SYNC_HANDLER_FAILURE] SpecificTestExceptionHandler:";
         obj [("originalError", VStr "specific test");
              ("handlerError", VStr "upstream failed");
              ("path", VStr "/test")]]].
Proof.
  repeat split; vm_compute; reflexivity.
Qed.

(** The same defect on the asynchronous path: the promise [handleWithRegistry]
    returns rejects, with the [TypeError] raised inside the catch callback. *)
Example async_array_stack_rejection_escapes :
  let W :=
    {| now_iso := now_iso Fixtures.development;
       now_ms := now_ms Fixtures.development;
       rand36 := rand36 Fixtures.development;
       NODE_ENV := VStr "development";
       USE_STATUS_CODE_IN_RESPONSE := VBool true;
       SET_DEFAULT_HTTP_STATUS_CODE := VBool false;
       DEFAULT_HTTP_STATUS_CODE := VNum 200;
       STATUS_CODES := STATUS_CODES Fixtures.development;
       call := fun _ _ _ => Ok (VPromise PRejected Fixtures.arrayStackError) |} in
  fst (handleWithRegistry W Fixtures.childError Fixtures.mockReq
         (Fixtures.mockRes false) VUndef
         (Fixtures.parent_registered Fixtures.asyncBuggyHandler))
  = Ok (VPromise PRejected (type_error "undefined is not a function")).
Proof.
  vm_compute. reflexivity.
Qed.

(** Scenario D of the specification: the handler registered for the parent
    class throws (a genuine [TypeError]) on a child instance whose [metadata]
    was set to [null]; dispatch answers with the fallback response, which has
    the child's status 404, is not retryable, and carries a fixed message. *)
Example scenario_D :
  let err := Fixtures.with_metadata_nulled Fixtures.childError in
  let outcome :=
    handleWithRegistry Fixtures.development err Fixtures.test0_req VNull VUndef
                       (Fixtures.parent_registered Fixtures.buggyHandler) in
  fst outcome = Ok (fallback_response Fixtures.development err) /\
  prop (fallback_response Fixtures.development err) "statusCode" = VNum 404 /\
  prop (fallback_response Fixtures.development err) "message"
  = VStr "Requested resource not found" /\
  prop (prop (fallback_response Fixtures.development err) "meta") "retryable"
  = VBool false.
Proof.
  repeat split; vm_compute; reflexivity.
Qed.

(** Registration accepts any function as a key.  One without a [prototype]
    (an arrow function) later makes the [instanceof] scan throw for every
    object that no key matches exactly. *)
Example arrow_function_key_breaks_lookup :
  let arrow := FLambda 140 EmptyString in
  fst ((registerErrorHandler (VFun arrow) (VFun Fixtures.testHandler) ;;;
        findErrorHandler (mkError ErrorClass "unknown error")) initial_state)
  = Throw (type_error
             "Function has non-object prototype 'undefined' in instanceof check").
Proof.
  vm_compute. reflexivity.
Qed.

(* ------------------------------------------------------------------------- *)
(** ** The terminal middleware                                                *)
(* ------------------------------------------------------------------------- *)

Lemma truthy_prop_not_nullish :
  forall v k, truthy (prop v k) = true -> nullish v = false.
Proof.
  intros v k H. destruct v; try reflexivity; discriminate.
Qed.

(** C6. When [res.headersSent] is truthy the middleware does one thing: it
    calls [next] with the error it was given, and returns what [next] returns.
    The call of [next] is the only event it adds, so nothing is called on the
    response - no [status], no [send], no [json]. *)
Theorem C6_already_responded_forwards_to_next :
  forall W err req res next st,
    truthy (prop res "headersSent") = true ->
    globalErrorHandler W err req res (VFun next) st
    = (call W next VUndef [err], add_event (ECall next VUndef [err]) st).
Proof.
  intros W err req res next st H.
  unfold globalErrorHandler, bind, lift, get_prop.
  rewrite (truthy_prop_not_nullish _ _ H), H.
  reflexivity.
Qed.

Lemma C6_witness :
  globalErrorHandler Fixtures.development (mkError ErrorClass "after send")
    Fixtures.mockReq (Fixtures.mockRes true) (VFun Fixtures.mockNext)
    Fixtures.both_registered
  = (Ok VUndef,
     add_event (ECall Fixtures.mockNext VUndef [mkError ErrorClass "after send"])
               Fixtures.both_registered).
Proof.
  apply (C6_already_responded_forwards_to_next
           Fixtures.development (mkError ErrorClass "after send")
           Fixtures.mockReq (Fixtures.mockRes true) Fixtures.mockNext
           Fixtures.both_registered).
  reflexivity.
Defined.

(** What [send] does on a chainable transport: three calls, in order. *)
Lemma HttpResponse_send_chainable :
  forall W this res fs ft fsend st,
    chainable W res fs ft fsend ->
    HttpResponse_send W this res st
    = (call W fsend res [obj (response_body W this)],
       add_event (ECall fsend res [obj (response_body W this)])
         (add_event (ECall ft res [VStr "application/json"])
            (add_event
               (ECall fs res
                  [if truthy (SET_DEFAULT_HTTP_STATUS_CODE W)
                   then DEFAULT_HTTP_STATUS_CODE W else prop this "statusCode"])
               st))).
Proof.
  intros W this res fs ft fsend st (Ht & Hs & Hty & Hsend & Hj & Hcs & Hct).
  assert (Hn : nullish res = false) by (destruct res; try reflexivity; discriminate).
  unfold HttpResponse_send. rewrite Ht, Hs, Hj. cbn [negb orb typeof_ String.eqb].
  change (String.eqb "function" "function") with true. cbn [negb orb].
  unfold invoke_method, bind, lift, get_prop. rewrite Hn, Hs.
  unfold invoke, bind, emit, lift. rewrite Hcs, Hn, Hty, Hct, Hn, Hsend.
  reflexivity.
Qed.

Lemma response_body_message :
  forall W this,
    prop (obj (response_body W this)) "message" = prop this "message".
Proof.
  intros W this. unfold response_body, obj, prop at 1.
  destruct (truthy (USE_STATUS_CODE_IN_RESPONSE W)),
           (truthy (prop this "success")),
           (negb (nullish (prop this "data"))),
           (truthy (prop this "meta") && Nat.ltb 0 (List.length (spread (prop this "meta"))));
    reflexivity.
Qed.

(** C7 (as amended). For a non-null error that is neither an [HttpResponse]
    nor a [BaseException] and for which the registry has no handler, the
    middleware logs the raw error and sends [HttpResponse.error(message, 500)]:
    a response with status 500 whose message is "Internal Server Error" when
    [NODE_ENV] is ['production'], and otherwise the error's own [message] if
    that is non-empty (truthy) and "Internal Server Error" if it is empty or
    absent.  On a chainable transport, and unless the configuration forces a
    default status, this shows as [res.status(500)], [type], then [send] of a
    body carrying that message. *)
Theorem C7_unknown_failure_answer :
  forall W err req res next st,
    nullish res = false ->
    truthy (prop res "headersSent") = false ->
    nullish err = false ->
    instance_of_class err HttpResponseClass = false ->
    instance_of_class err BaseExceptionClass = false ->
    findErrorHandler err st = (Ok VNull, st) ->
    exists response,
      globalErrorHandler W err req res next st
      = HttpResponse_send W response res
          (add_event (ELog "error" [obj [("err", err)]]) st) /\
      instance_of_class response HttpResponseClass = true /\
      prop response "statusCode" = VNum 500 /\
      prop response "success" = VBool false /\
      prop response "message"
      = (if is_str (NODE_ENV W) "production" then VStr "Internal Server Error"
         else if truthy (prop err "message") then prop err "message"
              else VStr "Internal Server Error") /\
      (forall fs ft fsend,
          chainable W res fs ft fsend ->
          truthy (SET_DEFAULT_HTTP_STATUS_CODE W) = false ->
          exists body,
            globalErrorHandler W err req res next st
            = (call W fsend res [body],
               add_event (ECall fsend res [body])
                 (add_event (ECall ft res [VStr "application/json"])
                    (add_event (ECall fs res [VNum 500])
                       (add_event (ELog "error" [obj [("err", err)]]) st)))) /\
            prop body "message" = prop response "message").
Proof.
  intros W err req res next st Hres Hsent Herr Hresp Hbase Hfind.
  set (message := if is_str (NODE_ENV W) "production"
                  then VStr "Internal Server Error"
                  else js_or (prop err "message") (VStr "Internal Server Error")).
  set (response := HttpResponse_error W message
                     (VNum HTTP_STATUS.INTERNAL_SERVER_ERROR) VUndef VUndef).
  exists response.
  assert (Hmsg : default_arg message (VStr "Error") = message /\ nullish message = false).
  { subst message. destruct (is_str (NODE_ENV W) "production"); [split; reflexivity |].
    unfold js_or. destruct (truthy (prop err "message")) eqn:E; [| split; reflexivity].
    destruct (prop err "message"); try discriminate; split; reflexivity. }
  destruct Hmsg as [Hdef Hnn].
  assert (Hrun : globalErrorHandler W err req res next st
                 = HttpResponse_send W response res
                     (add_event (ELog "error" [obj [("err", err)]]) st)).
  { unfold globalErrorHandler, bind at 1, lift at 1, get_prop at 1.
    rewrite Hres, Hsent, Hresp.
    unfold bind at 1. rewrite handleWithRegistry_unfold by discriminate.
    rewrite Hfind. cbn [truthy negb]. rewrite Hbase.
    unfold bind at 1. rewrite console_run.
    subst response message. unfold bind at 1.
    destruct (is_str (NODE_ENV W) "production"); [reflexivity |].
    unfold bind, lift, get_prop, ret. rewrite Herr. reflexivity. }
  split; [exact Hrun |].
  split; [reflexivity |]. split; [reflexivity |]. split; [reflexivity |].
  split.
  - subst response. unfold HttpResponse_error, HttpResponse_new.
    cbn [default_arg prop lookup String.eqb].
    change (lookup "message"
              [("data", VNull);
               ("message",
                js_coalesce (default_arg message (VStr "Error"))
                            (getStatusText W (VNum HTTP_STATUS.INTERNAL_SERVER_ERROR)));
               ("statusCode", VNum HTTP_STATUS.INTERNAL_SERVER_ERROR);
               ("success",
                VBool (js_ge (VNum HTTP_STATUS.INTERNAL_SERVER_ERROR) HTTP_STATUS.OK
                       && js_lt (VNum HTTP_STATUS.INTERNAL_SERVER_ERROR) 300));
               ("meta", obj (assign [("timestamp", VStr (now_iso W))] (spread (obj []))))])
      with (Some (js_coalesce (default_arg message (VStr "Error"))
                              (getStatusText W (VNum HTTP_STATUS.INTERNAL_SERVER_ERROR)))).
    cbv iota. rewrite Hdef. unfold js_coalesce. rewrite Hnn.
    subst message. unfold js_or. reflexivity.
  - intros fs ft fsend Hchain Hflag.
    exists (obj (response_body W response)).
    split; [| apply response_body_message].
    rewrite Hrun, (HttpResponse_send_chainable W response res fs ft fsend _ Hchain).
    rewrite Hflag. reflexivity.
Qed.

Lemma C7_witness :
  (exists response,
      globalErrorHandler Fixtures.development (mkError ErrorClass "boom")
        Fixtures.mockReq (Fixtures.mockRes false) (VFun Fixtures.mockNext)
        initial_state
      = HttpResponse_send Fixtures.development response (Fixtures.mockRes false)
          (add_event (ELog "error" [obj [("err", mkError ErrorClass "boom")]])
                     initial_state) /\
      prop response "statusCode" = VNum 500 /\
      prop response "message" = VStr "boom")
  /\
  (exists response,
      globalErrorHandler Fixtures.production (mkError ErrorClass "boom")
        Fixtures.mockReq (Fixtures.mockRes false) (VFun Fixtures.mockNext)
        Fixtures.both_registered
      = HttpResponse_send Fixtures.production response (Fixtures.mockRes false)
          (add_event (ELog "error" [obj [("err", mkError ErrorClass "boom")]])
                     Fixtures.both_registered) /\
      prop response "statusCode" = VNum 500 /\
      prop response "message" = VStr "Internal Server Error").
Proof.
  split.
  - destruct (C7_unknown_failure_answer
                Fixtures.development (mkError ErrorClass "boom") Fixtures.mockReq
                (Fixtures.mockRes false) (VFun Fixtures.mockNext) initial_state)
      as (response & Hrun & _ & Hstatus & _ & Hmsg & _); try reflexivity.
    exists response. split; [exact Hrun | split; [exact Hstatus | exact Hmsg]].
  - destruct (C7_unknown_failure_answer
                Fixtures.production (mkError ErrorClass "boom") Fixtures.mockReq
                (Fixtures.mockRes false) (VFun Fixtures.mockNext)
                Fixtures.both_registered)
      as (response & Hrun & _ & Hstatus & _ & Hmsg & _); try reflexivity.
    exists response. split; [exact Hrun | split; [exact Hstatus | exact Hmsg]].
Defined.

(** The claim as first stated has the response carry the error's own message
    whenever the environment is not production.  [new Error('')] in a
    development environment is answered with "Internal Server Error". *)
Lemma C7_counterexample :
  let err := mkError ErrorClass EmptyString in
  let res := Fixtures.mockRes false in
  let outcome :=
    globalErrorHandler Fixtures.development err Fixtures.mockReq res
                       (VFun Fixtures.mockNext) initial_state in
  let body :=
    obj [("success", VBool false); ("message", VStr "Internal Server Error");
         ("statusCode", VNum 500);
         ("meta", obj [("timestamp", VStr "2025-01-01T00:00:00.000Z")])] in
  is_str (NODE_ENV Fixtures.development) "production" = false /\
  instance_of_class err HttpResponseClass = false /\
  instance_of_class err BaseExceptionClass = false /\
  findErrorHandler err initial_state = (Ok VNull, initial_state) /\
  prop err "message" = VStr EmptyString /\
  trace (snd outcome) =
  [ELog "error" [obj [("err", err)]];
   ECall Fixtures.res_status res [VNum 500];
   ECall Fixtures.res_type res [VStr "application/json"];
   ECall Fixtures.res_send res [body]] /\
  prop body "message" <> prop err "message".
Proof.
  repeat split; try (vm_compute; reflexivity).
  vm_compute. discriminate.
Qed.

(** The middleware's own tests (error-handler.middleware.spec.js), replayed on
    the mock transport. *)
Example middleware_spec_replayed :
  let res := Fixtures.mockRes false in
  let run W err :=
    trace (snd (globalErrorHandler W err Fixtures.mockReq res
                                   (VFun Fixtures.mockNext) initial_state)) in
  (* 'handles unexpected error as 500' / 'returns original error message' *)
  run Fixtures.development (mkError ErrorClass "boom")
  = [ELog "error" [obj [("err", mkError ErrorClass "boom")]];
     ECall Fixtures.res_status res [VNum 500];
     ECall Fixtures.res_type res [VStr "application/json"];
     ECall Fixtures.res_send res
       [obj [("success", VBool false); ("message", VStr "boom");
             ("statusCode", VNum 500);
             ("meta", obj [("timestamp", VStr "2025-01-01T00:00:00.000Z")])]]]
  /\
  (* 'BaseException without status uses INTERNAL_SERVER_ERROR default' *)
  nth 0 (run Fixtures.development
             (BaseException_new Fixtures.development BaseExceptionClass
                                (VStr "oops") VUndef))
        (ELog EmptyString [])
  = ECall Fixtures.res_status res [VNum 500]
  /\
  (* 'converts BaseException to HttpResponse.error' *)
  nth 0 (run Fixtures.development
             (BaseException_new Fixtures.development BaseExceptionClass
                                (VStr "unauth")
                                (obj [("statusCode", VNum HTTP_STATUS.UNAUTHORIZED)])))
        (ELog EmptyString [])
  = ECall Fixtures.res_status res [VNum 401]
  /\
  (* 'handles HttpResponse instance directly' *)
  nth 0 (run Fixtures.development
             (HttpResponse_error Fixtures.development (VStr "bad")
                                 (VNum HTTP_STATUS.BAD_REQUEST) VUndef VUndef))
        (ELog EmptyString [])
  = ECall Fixtures.res_status res [VNum 400].
Proof.
  repeat split; vm_compute; reflexivity.
Qed.

(** The registry's own tests (error-handler-registry.helper.spec.js). *)
Example registry_spec_replayed :
  let W := Fixtures.development in
  let register k h := registerErrorHandler (VFun (FClass k)) (VFun h) in
  (* 'should return copy of registry' *)
  fst ((register Fixtures.TestException Fixtures.testHandler ;;;
        snap <- getRegisteredHandlers ;;
        Map_clear snap ;;;
        snap' <- getRegisteredHandlers ;;
        after <- Map_entries snap' ;;
        ret (List.length after)) initial_state)
  = Ok 1
  /\
  (* 'should clear all registered handlers' *)
  fst ((register Fixtures.TestException Fixtures.testHandler ;;;
        register Fixtures.SpecificTestException Fixtures.specificHandler ;;;
        clearRegistry ;;;
        snap <- getRegisteredHandlers ;;
        after <- Map_entries snap ;;
        ret (List.length after)) initial_state)
  = Ok 0
  /\
  (* 'should handle error with registered handler' *)
  fst ((register Fixtures.TestException Fixtures.testHandler ;;;
        response <- handleWithRegistry W
                      (BaseException_new W Fixtures.TestException
                                         (VStr "test error") VUndef)
                      Fixtures.mockReq (obj []) VUndef ;;
        ret (prop response "message", prop response "statusCode")) initial_state)
  = Ok (VStr "Test handler response", VNum 400).
Proof.
  repeat split; vm_compute; reflexivity.
Qed.

(* ========================================================================= *)
(** * Further properties of the registry and of dispatch                      *)
(* ========================================================================= *)

Lemma registerErrorHandler_run :
  forall k h st,
    registerErrorHandler (VFun k) (VFun h) st
    = (Ok VUndef, write_map RegistryRef (map_set k h (registry_cell st)) st).
Proof. reflexivity. Qed.

(** X1. Registration and lookup round-trip: whatever the registry held, once
    a handler is registered for a class, an instance of that class finds that
    handler. *)
Theorem X1_register_then_find :
  forall st c h err,
    created_by c err ->
    exists st',
      registerErrorHandler (VFun (FClass c)) (VFun h) st = (Ok VUndef, st') /\
      findErrorHandler err st' = (Ok (VFun h), st').
Proof.
  intros st c h err Hc. eexists. split; [apply registerErrorHandler_run |].
  rewrite findErrorHandler_unfold.
  rewrite (exact_phase_lookup _ _ _ (created_by_constructor _ _ Hc)).
  simpl. now rewrite map_get_set_same.
Qed.

Lemma X1_witness :
  exists st',
    registerErrorHandler (VFun (FClass Fixtures.TestException))
                         (VFun Fixtures.specificHandler)
                         Fixtures.both_registered = (Ok VUndef, st') /\
    findErrorHandler (BaseException_new Fixtures.development Fixtures.TestException
                                        (VStr "test") VUndef) st'
    = (Ok (VFun Fixtures.specificHandler), st').
Proof.
  apply (X1_register_then_find Fixtures.both_registered Fixtures.TestException
                               Fixtures.specificHandler).
  eexists. split; reflexivity.
Defined.


(** A lookup never changes the state. *)
Lemma findErrorHandler_state :
  forall err st r st', findErrorHandler err st = (r, st') -> st' = st.
Proof.
  intros err st r st' H. rewrite findErrorHandler_unfold in H.
  destruct (exact_phase err (registry_cell st)) as [[h |] | e];
    try (injection H as _ <-; reflexivity).
  destruct (inheritance_phase err (registry_cell st)) as [[h |] | e];
    injection H as _ <-; reflexivity.
Qed.

Lemma exact_phase_sound :
  forall err m h,
    exact_phase err m = Ok (Some h) ->
    exists k, In (k, h) m /\ is_fn (prop err "constructor") k = true.
Proof.
  intros err m h. induction m as [| [k h0] rest IH]; simpl; [discriminate |].
  unfold get_prop. destruct (nullish err); [discriminate |].
  destruct (is_fn (prop err "constructor") k) eqn:E.
  - intros H. injection H as <-. exists k. split; [now left | exact E].
  - intros H. destruct (IH H) as (k' & Hin & Hk). exists k'. split; [now right | exact Hk].
Qed.

Lemma inheritance_phase_sound :
  forall err m h,
    inheritance_phase err m = Ok (Some h) ->
    exists k, In (k, h) m /\ instanceOf err k = Ok true.
Proof.
  intros err m h. induction m as [| [k h0] rest IH]; simpl; [discriminate |].
  destruct (instanceOf err k) as [[|] | e] eqn:E; try discriminate.
  - intros H. injection H as <-. exists k. split; [now left | exact E].
  - intros H. destruct (IH H) as (k' & Hin & Hk). exists k'. split; [now right | exact Hk].
Qed.

(** X3. Lookup is sound: it returns [null] or a handler that is stored in the
    registry under a key the error really matches - by identity of its
    constructor or by [instanceof] - and it never changes the registry. *)
Theorem X3_lookup_is_sound :
  forall err st v st',
    findErrorHandler err st = (Ok v, st') ->
    st' = st /\
    (v = VNull \/
     exists k h,
       v = VFun h /\ In (k, h) (registry_cell st) /\
       (is_fn (prop err "constructor") k = true \/ instanceOf err k = Ok true)).
Proof.
  intros err st v st' H. split; [now apply findErrorHandler_state in H |].
  rewrite findErrorHandler_unfold in H.
  destruct (exact_phase err (registry_cell st)) as [[h |] | e] eqn:He.
  - injection H as <- _. right. apply exact_phase_sound in He as (k & Hin & Hk).
    exists k, h. auto.
  - destruct (inheritance_phase err (registry_cell st)) as [[h |] | e] eqn:Hi.
    + injection H as <- _. right.
      apply inheritance_phase_sound in Hi as (k & Hin & Hk).
      exists k, h. auto.
    + injection H as <- _. now left.
    + discriminate.
  - discriminate.
Qed.

Lemma X3_witness :
  Fixtures.both_registered = Fixtures.both_registered /\
  (VFun Fixtures.testHandler = VNull \/
   exists k h,
     VFun Fixtures.testHandler = VFun h /\
     In (k, h) (registry_cell Fixtures.both_registered) /\
     (is_fn (prop (BaseException_new Fixtures.development Fixtures.TestException
                                     (VStr "test") VUndef) "constructor") k = true \/
      instanceOf (BaseException_new Fixtures.development Fixtures.TestException
                                    (VStr "test") VUndef) k = Ok true)).
Proof.
  apply (X3_lookup_is_sound
           (BaseException_new Fixtures.development Fixtures.TestException
                              (VStr "test") VUndef)
           Fixtures.both_registered (VFun Fixtures.testHandler)
           Fixtures.both_registered).
  reflexivity.
Defined.

Lemma inheritance_phase_first :
  forall err pre k h post,
    (forall k', In k' (keys pre) -> instanceOf err k' = Ok false) ->
    instanceOf err k = Ok true ->
    inheritance_phase err (pre ++ (k, h) :: post) = Ok (Some h).
Proof.
  intros err pre k h post. induction pre as [| [k0 h0] pre IH]; simpl;
    intros Hpre Hk.
  - now rewrite Hk.
  - rewrite (Hpre k0 (or_introl eq_refl)). apply IH; [| exact Hk].
    intros k' Hin. apply Hpre. now right.
Qed.

(** X4. Among several registered classes an error is an instance of, the one
    registered first wins - not the nearest ancestor.  Precisely: when no key
    is the error's own constructor, the handler returned is that of the first
    entry, in registration order, whose key accepts the error. *)
Theorem X4_first_registered_ancestor_wins :
  forall st err pre k h post,
    registry_cell st = pre ++ (k, h) :: post ->
    nullish err = false ->
    (forall k', In k' (keys (registry_cell st)) ->
                is_fn (prop err "constructor") k' = false) ->
    (forall k', In k' (keys pre) -> instanceOf err k' = Ok false) ->
    instanceOf err k = Ok true ->
    findErrorHandler err st = (Ok (VFun h), st).
Proof.
  intros st err pre k h post Hreg Hn Hexact Hpre Hk.
  rewrite findErrorHandler_unfold.
  rewrite (exact_phase_none _ _ Hn Hexact), Hreg.
  now rewrite (inheritance_phase_first _ _ _ _ _ Hpre Hk).
Qed.

Lemma X4_witness :
  let st := {| registry_cell := [(FClass BaseExceptionClass, safeDefaultHandler_fn);
                                 (FClass Fixtures.TestException, Fixtures.testHandler)];
               fresh_maps := []; trace := [] |} in
  proper_ancestor Fixtures.TestException Fixtures.SpecificTestException = true /\
  findErrorHandler Fixtures.childError st = (Ok (VFun safeDefaultHandler_fn), st).
Proof.
  intros st. split; [reflexivity |].
  apply (X4_first_registered_ancestor_wins
           st Fixtures.childError []
           (FClass BaseExceptionClass) safeDefaultHandler_fn
           [(FClass Fixtures.TestException, Fixtures.testHandler)]).
  - reflexivity.
  - reflexivity.
  - intros k' [H | [H | []]]; subst k'; reflexivity.
  - intros k' [].
  - reflexivity.
Defined.

Lemma default_arg_not_nullish :
  forall v d, nullish v = false -> default_arg v d = v.
Proof. intros v d H. destruct v; try reflexivity; discriminate. Qed.

(** X5. Direct mode.  With [useSafeWrapper] switched off, dispatch is the bare
    call of the handler that was found: its outcome - the value it returns or
    the error it throws - is the outcome of [handleWithRegistry], and the call
    is the only thing that happens. *)
Theorem X5_direct_mode_is_the_bare_call :
  forall W err req res options st h,
    findErrorHandler err st = (Ok (VFun h), st) ->
    nullish options = false ->
    truthy (default_arg (prop options "useSafeWrapper") (VBool true)) = false ->
    handleWithRegistry W err req res options st
    = (call W h VUndef [err; req; res],
       add_event (ECall h VUndef [err; req; res]) st).
Proof.
  intros W err req res options st h Hfind Hopt Hoff.
  rewrite handleWithRegistry_unfold by (intros ->; discriminate).
  rewrite Hfind, (default_arg_not_nullish _ _ Hopt), Hoff.
  reflexivity.
Qed.

Lemma X5_witness :
  handleWithRegistry Fixtures.development Fixtures.childError Fixtures.mockReq
    (Fixtures.mockRes false) (obj [("useSafeWrapper", VBool false)])
    (Fixtures.parent_registered Fixtures.buggyHandler)
  = (Throw (type_error "Cannot read properties of null (reading 'identifier')"),
     add_event (ECall Fixtures.buggyHandler VUndef
                      [Fixtures.childError; Fixtures.mockReq; Fixtures.mockRes false])
               (Fixtures.parent_registered Fixtures.buggyHandler)).
Proof.
  apply (X5_direct_mode_is_the_bare_call
           Fixtures.development Fixtures.childError Fixtures.mockReq
           (Fixtures.mockRes false) (obj [("useSafeWrapper", VBool false)])
           (Fixtures.parent_registered Fixtures.buggyHandler) Fixtures.buggyHandler);
    reflexivity.
Defined.

(** X6. The safe wrapper is transparent for synchronous results.  When the
    handler found for an error (whose constructor has a string name) returns a
    value that is no thenable - a falsy value, or one without a callable
    [then] - dispatch with the wrapper on returns that very value, and the
    call of the handler is the only event: nothing is logged. *)
Theorem X6_wrapper_is_transparent_on_success :
  forall W err req res st h v,
    findErrorHandler err st = (Ok (VFun h), st) ->
    text_named err ->
    call W h VUndef [err; req; res] = Ok v ->
    passes_through v ->
    handleWithRegistry W err req res VUndef st
    = (Ok v, add_event (ECall h VUndef [err; req; res]) st).
Proof.
  intros W err req res st h v Hfind Hname Hcall Hv.
  rewrite (handleWithRegistry_wraps W err req res st h Hfind
             (text_named_constructor err Hname)).
  unfold safeHandlerWrapper, invoke. run_monad. rewrite Hcall. run_monad.
  unfold passes_through in Hv. rewrite Hv. reflexivity.
Qed.

Lemma X6_witness :
  handleWithRegistry Fixtures.development
    (BaseException_new Fixtures.development Fixtures.TestException
                       (VStr "test error") VUndef)
    Fixtures.mockReq (obj []) VUndef
    (Fixtures.parent_registered Fixtures.testHandler)
  = (Ok (HttpResponse_error (Fixtures.quiet_env (VStr "development"))
                            (VStr "Test handler response")
                            (VNum HTTP_STATUS.BAD_REQUEST) VUndef VUndef),
     add_event (ECall Fixtures.testHandler VUndef
                      [BaseException_new Fixtures.development Fixtures.TestException
                                         (VStr "test error") VUndef;
                       Fixtures.mockReq; obj []])
               (Fixtures.parent_registered Fixtures.testHandler)).
Proof.
  apply (X6_wrapper_is_transparent_on_success
           Fixtures.development
           (BaseException_new Fixtures.development Fixtures.TestException
                              (VStr "test error") VUndef)
           Fixtures.mockReq (obj []) (Fixtures.parent_registered Fixtures.testHandler)
           Fixtures.testHandler).
  - reflexivity.
  - exists "TestException". reflexivity.
  - reflexivity.
  - reflexivity.
Defined.




Lemma fallback_response_context :
  forall W oe,
    let meta := prop (fallback_response W oe) "meta" in
    let domain := opt_prop (opt_prop oe "metadata") "domain" in
    prop meta "correlationId"
    = (if truthy (opt_prop oe "correlationId") then opt_prop oe "correlationId"
       else VStr ("fallback_" ++ now_ms W ++ "_" ++ rand36 W)%string) /\
    prop meta "originalErrorCode" = opt_prop oe "errorCode" /\
    prop meta "timestamp" = VStr (now_iso W) /\
    own_prop meta "domain" = (if truthy domain then Some domain else None).
Proof.
  intros W oe. unfold fallback_response, HttpResponse_error, HttpResponse_new.
  cbv zeta.
  destruct (truthy (opt_prop (opt_prop oe "metadata") "domain")) eqn:Hd.
  - repeat split; reflexivity.
  - rewrite (spread_falsy _ Hd). repeat split; reflexivity.
Qed.

(** X8. The fallback response keeps the request's context.  Its [meta] carries
    the original error's [correlationId] when there is one and a generated
    ["fallback_<ms>_<random>"] token otherwise, the original [errorCode] under
    [originalErrorCode], the builder's own timestamp, and a [domain] entry
    exactly when [originalError.metadata.domain] is truthy. *)
Theorem X8_fallback_keeps_context :
  forall W oe he req st r st',
    createFallbackResponse W oe he req st = (Ok r, st') ->
    let meta := prop r "meta" in
    let domain := opt_prop (opt_prop oe "metadata") "domain" in
    prop meta "correlationId"
    = (if truthy (opt_prop oe "correlationId") then opt_prop oe "correlationId"
       else VStr ("fallback_" ++ now_ms W ++ "_" ++ rand36 W)%string) /\
    prop meta "originalErrorCode" = opt_prop oe "errorCode" /\
    prop meta "timestamp" = VStr (now_iso W) /\
    own_prop meta "domain" = (if truthy domain then Some domain else None).
Proof.
  intros W oe he req st r st' Hrun.
  apply createFallbackResponse_inv in Hrun. subst r.
  apply fallback_response_context.
Qed.

Lemma X8_witness :
  let W := Fixtures.development in
  let oe :=
    BaseException_new W BaseExceptionClass (VStr "Permission denied")
      (obj [("statusCode", VNum HTTP_STATUS.FORBIDDEN);
            ("errorCode", VStr "PERMISSION_DENIED");
            ("correlationId", VStr "req_456_xyz");
            ("metadata", obj [("domain", VStr "auth"); ("userId", VNum 123)])]) in
  let he := type_error "Cannot access property of undefined" in
  let r := fallback_response W oe in
  prop (prop r "meta") "correlationId" = VStr "req_456_xyz" /\
  prop (prop r "meta") "originalErrorCode" = VStr "PERMISSION_DENIED" /\
  own_prop (prop r "meta") "domain" = Some (VStr "auth").
Proof.
  intros W oe he r.
  destruct (X8_fallback_keeps_context
              W oe he VUndef initial_state r
              (snd (createFallbackResponse W oe he VUndef initial_state)))
    as (Hcid & Hcode & _ & Hdom).
  - vm_compute. reflexivity.
  - split; [exact Hcid |]. split; [exact Hcode | exact Hdom].
Defined.

Lemma first_line_has_no_line_feed :
  forall s, has_line_feed (first_line s) = false.
Proof.
  induction s as [| c rest IH]; simpl; [reflexivity |].
  destruct (Nat.eqb (nat_of_ascii c) 10) eqn:E; [reflexivity |].
  simpl. now rewrite E.
Qed.

Lemma request_context_without_reader :
  forall W req st,
    no_header_reader req ->
    exists rc, request_context W (default_arg req VNull) st = (Ok rc, st).
Proof.
  intros W req st [H | H]; unfold request_context.
  - rewrite H. eexists. reflexivity.
  - destruct (truthy (default_arg req VNull)) eqn:Ht; [| eexists; reflexivity].
    assert (Hreq : default_arg req VNull = req)
      by (destruct req; try reflexivity; discriminate).
    rewrite Hreq, H. eexists. reflexivity.
Qed.

(** X9. What the fallback builder logs.  Given an original error whose
    [statusCode] is absent, [null], a boolean or a number, a handler error
    with a textual stack (or none) and a request without header reader, the
    builder adds
    exactly one log entry: at level [error] with the tag
    [HANDLER_FAILURE_SYSTEM] when [originalError.isOperational] is exactly
    [false], at level [warn] with [HANDLER_FAILURE_BUSINESS] otherwise.  The
    entry carries the first line of the handler's stack and nothing beyond
    it. *)
Theorem X9_fallback_log_entry :
  forall W oe he req st,
    plain_status (opt_prop oe "statusCode") ->
    stack_is_text he ->
    no_header_reader req ->
    exists ctx,
      createFallbackResponse W oe he req st
      = (Ok (fallback_response W oe),
         add_event
           (if is_false (opt_prop oe "isOperational")
            then ELog "error" [VStr "[HANDLER_FAILURE_SYSTEM]"; ctx]
            else ELog "warn" [VStr "[HANDLER_FAILURE_BUSINESS]"; ctx])
           st) /\
      prop (prop ctx "handlerError") "stack"
      = match opt_prop he "stack" with
        | VStr s => VStr (first_line s)
        | _ => VUndef
        end /\
      (forall s, prop (prop ctx "handlerError") "stack" = VStr s ->
                 has_line_feed s = false).
Proof.
  intros W oe he req st _ Hs Hr.
  destruct (request_context_without_reader W req st Hr) as [rc Hrc].
  assert (Hline : first_stack_line W he st
                  = (Ok (match opt_prop he "stack" with
                         | VStr s => VStr (first_line s)
                         | _ => VUndef
                         end), st)).
  { unfold stack_is_text in Hs. unfold first_stack_line.
    destruct (opt_prop he "stack"); simpl; try contradiction; reflexivity. }
  eexists. split; [| split].
  - unfold createFallbackResponse, bind. rewrite Hline, Hrc.
    destruct (is_false (opt_prop oe "isOperational")); rewrite console_run; reflexivity.
  - reflexivity.
  - intros s. cbn [prop obj lookup String.eqb].
    change (prop _ "stack") with
      (match opt_prop he "stack" with
       | VStr s0 => VStr (first_line s0)
       | _ => VUndef
       end).
    destruct (opt_prop he "stack"); try discriminate.
    intros H. injection H as <-. apply first_line_has_no_line_feed.
Qed.

Lemma X9_witness :
  exists ctx,
    createFallbackResponse Fixtures.development
      (obj [("isOperational", VBool false); ("statusCode", VNum 503)])
      (mkError ErrorClass "Handler failed") VUndef initial_state
    = (Ok (fallback_response Fixtures.development
             (obj [("isOperational", VBool false); ("statusCode", VNum 503)])),
       add_event (ELog "error" [VStr "[HANDLER_FAILURE_SYSTEM]"; ctx]) initial_state) /\
    prop (prop ctx "handlerError") "stack" = VStr "Error: Handler failed".
Proof.
  destruct (X9_fallback_log_entry
              Fixtures.development
              (obj [("isOperational", VBool false); ("statusCode", VNum 503)])
              (mkError ErrorClass "Handler failed") VUndef initial_state)
    as (ctx & Hrun & Hstack & _).
  - exact I.
  - exact I.
  - left. reflexivity.
  - exists ctx. split; [exact Hrun | exact Hstack].
Defined.

Lemma inheritance_phase_finds :
  forall err m k,
    class_keys m ->
    In k (keys m) ->
    instanceOf err k = Ok true ->
    exists h, inheritance_phase err m = Ok (Some h).
Proof.
  intros err m k. induction m as [| [k0 h0] rest IH]; simpl; intros Hcls Hin Hk;
    [contradiction |].
  destruct (Hcls k0 (or_introl eq_refl)) as [c0 ->].
  destruct (instanceOf err (FClass c0)) as [[|] | e] eqn:E.
  - now exists h0.
  - destruct Hin as [Hin | Hin]; [subst k; congruence |].
    apply IH; [| exact Hin | exact Hk].
    intros k' Hk'. apply Hcls. now right.
  - unfold instanceOf in E. destruct (is_object err); discriminate.
Qed.

Lemma class_keys_map_set :
  forall c h m, class_keys m -> class_keys (map_set (FClass c) h m).
Proof.
  intros c h m Hcls k Hin. apply keys_map_set_in in Hin as [-> | Hin].
  - now exists c.
  - now apply Hcls.
Qed.

(** X10. After [setupDefaultHandlers], no [BaseException] goes without a
    handler.  On a registry whose keys are classes it stores the default
    handler under [BaseException] (wrapped unless [useSafeWrapper] is switched
    off), and from then on the lookup of any instance of [BaseException] or of
    a class extending it returns a handler, never [null]. *)
Theorem X10_default_handlers_cover_BaseException :
  forall st options,
    options <> VNull ->
    class_keys (registry_cell st) ->
    exists st',
      setupDefaultHandlers options st = (Ok VUndef, st') /\
      map_get (FClass BaseExceptionClass) (registry_cell st')
      = Some (if truthy (default_arg (prop (default_arg options (obj []))
                                           "useSafeWrapper") (VBool true))
              then safeDefaultHandler_fn else defaultBaseExceptionHandler_fn) /\
      class_keys (registry_cell st') /\
      (forall c err,
          inherits c BaseExceptionClass = true ->
          created_by c err ->
          exists h, findErrorHandler err st' = (Ok (VFun h), st')).
Proof.
  intros st options Hopt Hcls.
  assert (Hn : nullish (default_arg options (obj [])) = false)
    by (destruct options; try reflexivity; now elim Hopt).
  set (h0 := if truthy (default_arg (prop (default_arg options (obj []))
                                          "useSafeWrapper") (VBool true))
             then safeDefaultHandler_fn else defaultBaseExceptionHandler_fn).
  exists (write_map RegistryRef
            (map_set (FClass BaseExceptionClass) h0 (registry_cell st)) st).
  split.
  { unfold setupDefaultHandlers, bind, lift, get_prop. rewrite Hn. subst h0.
    destruct (truthy _); apply registerErrorHandler_run. }
  split; [simpl; apply map_get_set_same |].
  split; [simpl; now apply class_keys_map_set |].
  intros c err Hc Hcreated.
  rewrite findErrorHandler_unfold. simpl.
  rewrite (exact_phase_lookup _ _ _ (created_by_constructor _ _ Hcreated)).
  destruct (map_get (FClass c) _) as [h |]; [now exists h |].
  destruct (inheritance_phase_finds
              err (map_set (FClass BaseExceptionClass) h0 (registry_cell st))
              (FClass BaseExceptionClass)) as [h Hh].
  - now apply class_keys_map_set.
  - apply map_get_in_keys with (h := h0). apply map_get_set_same.
  - rewrite (created_by_instance _ BaseExceptionClass _ Hcreated). now rewrite Hc.
  - rewrite Hh. now exists h.
Qed.

Lemma X10_witness :
  exists st',
    setupDefaultHandlers VUndef Fixtures.both_registered = (Ok VUndef, st') /\
    map_get (FClass BaseExceptionClass) (registry_cell st') = Some safeDefaultHandler_fn /\
    findErrorHandler
      (BaseException_new Fixtures.development BaseExceptionClass (VStr "oops") VUndef)
      st'
    = (Ok (VFun safeDefaultHandler_fn), st').
Proof.
  destruct (X10_default_handlers_cover_BaseException Fixtures.both_registered VUndef)
    as (st' & Hrun & Hget & _ & Hfind).
  - discriminate.
  - intros k [H | [H | []]]; subst k; eexists; reflexivity.
  - exists st'. split; [exact Hrun |]. split; [exact Hget |].
    injection Hrun as <-. reflexivity.
Defined.

(* ========================================================================= *)
(** * Further properties of [HttpResponse]                                    *)
(* ========================================================================= *)

Lemma lookup_set_prop :
  forall k k0 v ps,
    lookup k (set_prop k0 v ps)
    = if String.eqb k k0 then Some v else lookup k ps.
Proof.
  intros k k0 v ps. induction ps as [| [k1 v1] rest IH]; simpl.
  - reflexivity.
  - destruct (String.eqb k0 k1) eqn:E01; simpl.
    + apply String.eqb_eq in E01. subst k1.
      destruct (String.eqb k k0); reflexivity.
    + rewrite IH. destruct (String.eqb k k1) eqn:E1; [| reflexivity].
      apply String.eqb_eq in E1. subst k1.
      destruct (String.eqb k k0) eqn:E0; [| reflexivity].
      apply String.eqb_eq in E0. subst k0.
      rewrite String.eqb_refl in E01. discriminate.
Qed.

Lemma lookup_not_in :
  forall k (ps : list (string * value)),
    ~ In k (map fst ps) -> lookup k ps = None.
Proof.
  intros k ps. induction ps as [| [k1 v1] rest IH]; simpl; [reflexivity |].
  intros H. destruct (String.eqb k k1) eqn:E.
  - apply String.eqb_eq in E. subst k1. elim H. now left.
  - apply IH. intros Hin. apply H. now right.
Qed.

(** [{...target, ...src}] read back: the entry of [src] when it has one, that
    of [target] otherwise. *)
Lemma lookup_assign :
  forall src target k,
    NoDup (map fst src) ->
    lookup k (assign target src)
    = match lookup k src with
      | Some v => Some v
      | None => lookup k target
      end.
Proof.
  unfold assign. induction src as [| [k0 v0] rest IH]; intros target k Hnd; simpl.
  - reflexivity.
  - inversion Hnd as [| ? ? Hnotin Hrest]; subst.
    rewrite (IH _ k Hrest), lookup_set_prop.
    destruct (String.eqb k k0) eqn:E.
    + apply String.eqb_eq in E. subst k0.
      now rewrite (lookup_not_in _ _ Hnotin).
    + reflexivity.
Qed.

(** The body [send] puts on the wire, key by key. *)
Lemma response_body_shape :
  forall W this,
    let body := response_body W this in
    let data := prop this "data" in
    lookup "success" body = Some (prop this "success") /\
    lookup "message" body = Some (prop this "message") /\
    lookup "statusCode" body
    = (if truthy (USE_STATUS_CODE_IN_RESPONSE W)
       then Some (prop this "statusCode") else None) /\
    lookup "data" body
    = (if truthy (prop this "success") && negb (nullish data)
       then Some data else None) /\
    lookup "error" body
    = (if negb (truthy (prop this "success")) && negb (nullish data)
       then Some data else None) /\
    lookup "meta" body
    = (if truthy (prop this "meta")
          && Nat.ltb 0 (List.length (spread (prop this "meta")))
       then Some (prop this "meta") else None).
Proof.
  intros W this. unfold response_body.
  destruct (truthy (USE_STATUS_CODE_IN_RESPONSE W)),
           (truthy (prop this "success")),
           (nullish (prop this "data")),
           (truthy (prop this "meta")
            && Nat.ltb 0 (List.length (spread (prop this "meta"))));
    repeat split.
Qed.

Lemma HttpResponse_new_success_flag :
  forall W data message n meta,
    prop (HttpResponse_new W data message (VNum n) meta) "success"
    = VBool (Z.leb 200 n && Z.ltb n 300).
Proof. reflexivity. Qed.

(** X11. On the wire the payload's key follows the status code, not the
    factory that built the response.  A response built by [HttpResponse.error]
    or [HttpResponse.success] with a numeric status is a success exactly when
    200 <= status < 300; [send] then puts a non-null payload under [data] for
    a success and under [error] otherwise, never under both - so
    [HttpResponse.error(msg, 204, details)] ships its details as [data] and
    [HttpResponse.success(payload, msg, 404)] ships its payload as [error]. *)
Theorem X11_payload_key_follows_status :
  forall W message n payload meta r,
    r = HttpResponse_error W message (VNum n) payload meta \/
    r = HttpResponse_success W payload message (VNum n) meta ->
    nullish payload = false ->
    let body := response_body W r in
    prop r "success" = VBool (Z.leb 200 n && Z.ltb n 300) /\
    (Z.leb 200 n && Z.ltb n 300 = true ->
     lookup "data" body = Some payload /\ lookup "error" body = None) /\
    (Z.leb 200 n && Z.ltb n 300 = false ->
     lookup "error" body = Some payload /\ lookup "data" body = None).
Proof.
  intros W message n payload meta r Hr Hp body.
  assert (Hdata : prop r "data" = payload)
    by (destruct Hr as [-> | ->]; destruct payload; try reflexivity; discriminate).
  assert (Hflag : prop r "success" = VBool (Z.leb 200 n && Z.ltb n 300))
    by (destruct Hr as [-> | ->]; reflexivity).
  destruct (response_body_shape W r) as (_ & _ & _ & Hd & He & _).
  fold body in Hd, He. rewrite Hdata, Hflag, Hp in Hd, He. cbn [truthy negb] in Hd, He.
  split; [exact Hflag |]. split; intros Hn; rewrite Hn in Hd, He; split; assumption.
Qed.

Lemma X11_witness :
  let W := Fixtures.development in
  let details := obj [("field", VStr "email")] in
  (lookup "error" (response_body W (HttpResponse_error W (VStr "Validation failed")
                                      (VNum 400) details VUndef)) = Some details /\
   lookup "data" (response_body W (HttpResponse_error W (VStr "Validation failed")
                                     (VNum 400) details VUndef)) = None) /\
  (lookup "data" (response_body W (HttpResponse_error W (VStr "odd") (VNum 204)
                                     details VUndef)) = Some details /\
   lookup "error" (response_body W (HttpResponse_error W (VStr "odd") (VNum 204)
                                      details VUndef)) = None) /\
  (lookup "error" (response_body W (HttpResponse_success W details (VStr "odd")
                                      (VNum 404) VUndef)) = Some details /\
   lookup "data" (response_body W (HttpResponse_success W details (VStr "odd")
                                     (VNum 404) VUndef)) = None).
Proof.
  intros W details. split; [| split].
  - apply (X11_payload_key_follows_status W (VStr "Validation failed") 400 details
             VUndef _ (or_introl eq_refl) eq_refl); reflexivity.
  - apply (X11_payload_key_follows_status W (VStr "odd") 204 details
             VUndef _ (or_introl eq_refl) eq_refl); reflexivity.
  - apply (X11_payload_key_follows_status W (VStr "odd") 404 details
             VUndef _ (or_intror eq_refl) eq_refl); reflexivity.
Defined.

(** X12. [send] and [toObject] agree.  With [USE_STATUS_CODE_IN_RESPONSE] on,
    the body [send] hands to the transport is exactly what [toObject] returns;
    with the option off it is [toObject]'s result without the [statusCode]
    entry. *)
Theorem X12_send_body_is_toObject :
  forall W this,
    response_body W this
    = (if truthy (USE_STATUS_CODE_IN_RESPONSE W)
       then HttpResponse_toObject this
       else remove_key "statusCode" (HttpResponse_toObject this)).
Proof.
  intros W this. unfold response_body, HttpResponse_toObject.
  destruct (truthy (USE_STATUS_CODE_IN_RESPONSE W)),
           (truthy (prop this "success")),
           (negb (nullish (prop this "data"))),
           (truthy (prop this "meta")
            && Nat.ltb 0 (List.length (spread (prop this "meta"))));
    reflexivity.
Qed.

(** X13. A forced default status changes the transport status only.  On a
    chainable transport [send] makes three calls - [status], [type], [send] -
    and when [SET_DEFAULT_HTTP_STATUS_CODE] is on, [status] receives
    [DEFAULT_HTTP_STATUS_CODE] whatever the response's own status is, while the
    body (with [USE_STATUS_CODE_IN_RESPONSE] on) still reports the response's
    own [statusCode] and its [success] flag. *)
Theorem X13_forced_status_leaves_body_alone :
  forall W this res fs ft fsend st,
    chainable W res fs ft fsend ->
    truthy (SET_DEFAULT_HTTP_STATUS_CODE W) = true ->
    exists body,
      HttpResponse_send W this res st
      = (call W fsend res [obj body],
         add_event (ECall fsend res [obj body])
           (add_event (ECall ft res [VStr "application/json"])
              (add_event (ECall fs res [DEFAULT_HTTP_STATUS_CODE W]) st))) /\
      lookup "success" body = Some (prop this "success") /\
      lookup "statusCode" body
      = (if truthy (USE_STATUS_CODE_IN_RESPONSE W)
         then Some (prop this "statusCode") else None).
Proof.
  intros W this res fs ft fsend st Hchain Hforce.
  exists (response_body W this).
  rewrite (HttpResponse_send_chainable W this res fs ft fsend st Hchain), Hforce.
  destruct (response_body_shape W this) as (Hs & _ & Hc & _).
  split; [reflexivity | split; assumption].
Qed.

Lemma X13_witness :
  let W :=
    {| now_iso := now_iso Fixtures.development;
       now_ms := now_ms Fixtures.development;
       rand36 := rand36 Fixtures.development;
       NODE_ENV := VStr "test";
       USE_STATUS_CODE_IN_RESPONSE := VBool true;
       SET_DEFAULT_HTTP_STATUS_CODE := VBool true;
       DEFAULT_HTTP_STATUS_CODE := VNum 418;
       STATUS_CODES := STATUS_CODES Fixtures.development;
       call := Fixtures.test_call (VStr "test") |} in
  let res := Fixtures.mockRes false in
  let this := HttpResponse_error W (VStr "Internal error") (VNum 500) VNull VUndef in
  exists body,
    HttpResponse_send W this res initial_state
    = (Ok res,
       add_event (ECall Fixtures.res_send res [obj body])
         (add_event (ECall Fixtures.res_type res [VStr "application/json"])
            (add_event (ECall Fixtures.res_status res [VNum 418]) initial_state))) /\
    lookup "success" body = Some (VBool false) /\
    lookup "statusCode" body = Some (VNum 500).
Proof.
  intros W res this.
  destruct (X13_forced_status_leaves_body_alone
              W this res Fixtures.res_status Fixtures.res_type Fixtures.res_send
              initial_state)
    as (body & Hrun & Hs & Hc).
  - repeat split.
  - reflexivity.
  - exists body. split; [exact Hrun | split; [exact Hs | exact Hc]].
Defined.

(** X14. The constructor's [meta] is the caller's, plus a timestamp.  For a
    [meta] argument with distinct keys, the response's [meta] holds every
    caller entry unchanged, a [timestamp] equal to the construction time unless
    the caller supplied one, and nothing else. *)
Theorem X14_meta_is_callers_plus_timestamp :
  forall W data message statusCode entries k,
    NoDup (map fst entries) ->
    own_prop (prop (HttpResponse_new W data message statusCode (obj entries)) "meta") k
    = match lookup k entries with
      | Some v => Some v
      | None => if String.eqb k "timestamp" then Some (VStr (now_iso W)) else None
      end.
Proof.
  intros W data message statusCode entries k Hnd.
  assert (Hmeta :
    prop (HttpResponse_new W data message statusCode (obj entries)) "meta"
    = obj (assign [("timestamp", VStr (now_iso W))] entries)) by reflexivity.
  rewrite Hmeta. unfold obj, own_prop.
  rewrite (lookup_assign entries _ k Hnd).
  destruct (lookup k entries); [reflexivity |].
  cbn [lookup]. rewrite String.eqb_sym.
  destruct (String.eqb k "timestamp"); reflexivity.
Qed.

Lemma X14_witness :
  let r := HttpResponse_success Fixtures.development (obj []) (VStr "ok") VUndef
             (obj [("correlationId", VStr "req_1"); ("source", VStr "user-service")]) in
  own_prop (prop r "meta") "correlationId" = Some (VStr "req_1") /\
  own_prop (prop r "meta") "timestamp" = Some (VStr "2025-01-01T00:00:00.000Z") /\
  own_prop (prop r "meta") "other" = None.
Proof.
  intros r. split; [| split].
  - apply (X14_meta_is_callers_plus_timestamp
             Fixtures.development (obj []) (VStr "ok") (VNum 200)
             [("correlationId", VStr "req_1"); ("source", VStr "user-service")]
             "correlationId").
    repeat constructor; simpl; intuition discriminate.
  - apply (X14_meta_is_callers_plus_timestamp
             Fixtures.development (obj []) (VStr "ok") (VNum 200)
             [("correlationId", VStr "req_1"); ("source", VStr "user-service")]
             "timestamp").
    repeat constructor; simpl; intuition discriminate.
  - apply (X14_meta_is_callers_plus_timestamp
             Fixtures.development (obj []) (VStr "ok") (VNum 200)
             [("correlationId", VStr "req_1"); ("source", VStr "user-service")]
             "other").
    repeat constructor; simpl; intuition discriminate.
Defined.

(* ========================================================================= *)
(** * Further properties of the terminal middleware                           *)
(* ========================================================================= *)

Lemma globalErrorHandler_dispatch :
  forall W err req res next st,
    not_yet_sent res ->
    instance_of_class err HttpResponseClass = false ->
    globalErrorHandler W err req res next st
    = match handleWithRegistry W err req res VUndef st with
      | (Throw e, st') => (Throw e, st')
      | (Ok customResponse, st') =>
          if truthy customResponse then call_send W customResponse res st'
          else default_steps W err res st'
      end.
Proof.
  intros W err req res next st [Hn Hsent] Hnot.
  unfold globalErrorHandler, get_prop. rewrite Hn. run_monad.
  rewrite Hsent, Hnot.
  destruct (handleWithRegistry W err req res VUndef st) as [[v | e] st'];
    [| reflexivity].
  destruct (truthy v); [reflexivity |].
  unfold default_steps. destruct (instance_of_class err BaseExceptionClass);
    reflexivity.
Qed.

Lemma safe_dispatch_passes :
  forall W err req res st h v,
    findErrorHandler err st = (Ok (VFun h), st) ->
    nullish (prop err "constructor") = false ->
    call W h VUndef [err; req; res] = Ok v ->
    passes_through v ->
    handleWithRegistry W err req res VUndef st
    = (Ok v, add_event (ECall h VUndef [err; req; res]) st).
Proof.
  intros W err req res st h v Hfind Hctor Hcall Hv.
  rewrite (handleWithRegistry_wraps W err req res st h Hfind Hctor).
  unfold safeHandlerWrapper, invoke. run_monad. rewrite Hcall. run_monad.
  unfold passes_through in Hv. rewrite Hv. reflexivity.
Qed.

Lemma chainable_not_nullish :
  forall W res fs ft fsend, chainable W res fs ft fsend -> nullish res = false.
Proof.
  intros W res fs ft fsend (Ht & _). destruct res; try reflexivity; discriminate.
Qed.

(** X15. A thrown [HttpResponse] is sent as it is.  When the error is itself
    an [HttpResponse] (without a [send] of its own) and the transport has not
    been sent yet, the middleware's whole effect is the three transport calls
    of [send] with the error's own body: the registry is not consulted - a
    handler registered for [HttpResponse] is never called - and nothing is
    logged. *)
Theorem X15_thrown_response_is_sent_as_is :
  forall W err req res next fs ft fsend st,
    instance_of_class err HttpResponseClass = true ->
    own_prop err "send" = None ->
    chainable W res fs ft fsend ->
    truthy (prop res "headersSent") = false ->
    globalErrorHandler W err req res next st
    = (call W fsend res [obj (response_body W err)],
       add_event (ECall fsend res [obj (response_body W err)])
         (add_event (ECall ft res [VStr "application/json"])
            (add_event
               (ECall fs res
                  [if truthy (SET_DEFAULT_HTTP_STATUS_CODE W)
                   then DEFAULT_HTTP_STATUS_CODE W else prop err "statusCode"])
               st))).
Proof.
  intros W err req res next fs ft fsend st Hinst Hown Hchain Hsent.
  rewrite <- (HttpResponse_send_chainable W err res fs ft fsend st Hchain).
  unfold globalErrorHandler, get_prop.
  rewrite (chainable_not_nullish W res fs ft fsend Hchain). run_monad.
  rewrite Hsent, Hinst.
  destruct err as [| | b | n | s | f | p own | ps x]; try discriminate.
  unfold call_send. simpl in Hown. rewrite Hown, Hinst. reflexivity.
Qed.

Lemma X15_witness :
  let W := Fixtures.development in
  let res := Fixtures.mockRes false in
  let err := HttpResponse_error W (VStr "Gone") (VNum 410) VUndef VUndef in
  globalErrorHandler W err Fixtures.mockReq res (VFun Fixtures.mockNext)
    {| registry_cell := [(FClass HttpResponseClass, Fixtures.buggyHandler)];
       fresh_maps := []; trace := [] |}
  = (Ok res,
     {| registry_cell := [(FClass HttpResponseClass, Fixtures.buggyHandler)];
        fresh_maps := [];
        trace := trace
          (add_event (ECall Fixtures.res_send res [obj (response_body W err)])
             (add_event (ECall Fixtures.res_type res [VStr "application/json"])
                (add_event (ECall Fixtures.res_status res [VNum 410])
                   initial_state))) |}).
Proof.
  intros W res err.
  rewrite (X15_thrown_response_is_sent_as_is
             W err Fixtures.mockReq res (VFun Fixtures.mockNext)
             Fixtures.res_status Fixtures.res_type Fixtures.res_send).
  - reflexivity.
  - reflexivity.
  - reflexivity.
  - repeat split.
  - reflexivity.
Defined.







(** X18. A handler may decline.  Take an error whose constructor has a string
    name and whose [statusCode] is absent, [null], a boolean or a number below
    10^21.  When the handler found for it returns a falsy value ([undefined],
    [null], [false], [0], the empty string), the middleware goes on with its
    default steps exactly as if no handler had been registered; the call of
    the handler is the only trace it leaves. *)
Theorem X18_handler_may_decline :
  forall W err req res next st h v,
    not_yet_sent res ->
    instance_of_class err HttpResponseClass = false ->
    findErrorHandler err st = (Ok (VFun h), st) ->
    text_named err ->
    plain_status (prop err "statusCode") ->
    printable (prop err "statusCode") ->
    call W h VUndef [err; req; res] = Ok v ->
    truthy v = false ->
    globalErrorHandler W err req res next st
    = default_steps W err res (add_event (ECall h VUndef [err; req; res]) st).
Proof.
  intros W err req res next st h v Hres Hnot Hfind Hname _ _ Hcall Hv.
  rewrite (globalErrorHandler_dispatch W err req res next st Hres Hnot).
  rewrite (safe_dispatch_passes W err req res st h v Hfind
             (text_named_constructor err Hname) Hcall).
  - rewrite Hv. reflexivity.
  - unfold passes_through. rewrite Hv. reflexivity.
Qed.

Lemma X18_witness :
  let W := Fixtures.development in
  let err := Fixtures.childError in
  let res := Fixtures.mockRes false in
  let silent := FLambda 140 "silentHandler" in
  globalErrorHandler W err Fixtures.mockReq res (VFun Fixtures.mockNext)
    (Fixtures.parent_registered silent)
  = default_steps W err res
      (add_event (ECall silent VUndef [err; Fixtures.mockReq; res])
                 (Fixtures.parent_registered silent)).
Proof.
  intros W err res silent.
  apply (X18_handler_may_decline
           W err Fixtures.mockReq res (VFun Fixtures.mockNext)
           (Fixtures.parent_registered silent) silent VUndef).
  - split; reflexivity.
  - reflexivity.
  - reflexivity.
  - exists "SpecificTestException". reflexivity.
  - exact I.
  - vm_compute. reflexivity.
  - reflexivity.
  - reflexivity.
Defined.

Lemma set_prop_keys :
  forall k v ps x,
    In x (map fst (set_prop k v ps)) <-> x = k \/ In x (map fst ps).
Proof.
  intros k v ps x. induction ps as [| [k1 v1] rest IH]; simpl.
  - intuition.
  - destruct (String.eqb k k1) eqn:E; simpl.
    + apply String.eqb_eq in E. subst k1. intuition.
    + rewrite IH. intuition.
Qed.

Lemma set_prop_NoDup :
  forall k v ps, NoDup (map fst ps) -> NoDup (map fst (set_prop k v ps)).
Proof.
  intros k v ps. induction ps as [| [k1 v1] rest IH]; simpl; intros Hnd.
  - constructor; [intros [] | constructor].
  - inversion Hnd as [| ? ? Hnotin Hrest]; subst.
    destruct (String.eqb k k1) eqn:E; simpl.
    + apply String.eqb_eq in E. subst k1. now constructor.
    + constructor; [| now apply IH].
      rewrite set_prop_keys. intros [-> | Hin]; [| contradiction].
      rewrite String.eqb_refl in E. discriminate.
Qed.

Lemma assign_NoDup :
  forall src target,
    NoDup (map fst target) -> NoDup (map fst (assign target src)).
Proof.
  unfold assign. induction src as [| [k v] rest IH]; intros target Hnd; simpl.
  - exact Hnd.
  - apply IH. now apply set_prop_NoDup.
Qed.

Lemma lookup_filter_other :
  forall k k0 (ps : list (string * value)),
    String.eqb k k0 = false ->
    lookup k (filter (fun kv => negb (String.eqb (fst kv) k0)) ps) = lookup k ps.
Proof.
  intros k k0 ps Hk. induction ps as [| [k1 v1] rest IH]; simpl; [reflexivity |].
  destruct (String.eqb k1 k0) eqn:E1; simpl.
  - apply String.eqb_eq in E1. subst k1. now rewrite Hk.
  - rewrite IH. reflexivity.
Qed.

Lemma globalErrorHandler_no_handler :
  forall W err req res next st,
    not_yet_sent res ->
    instance_of_class err HttpResponseClass = false ->
    findErrorHandler err st = (Ok VNull, st) ->
    globalErrorHandler W err req res next st = default_steps W err res st.
Proof.
  intros W err req res next st Hres Hnot Hfind.
  rewrite (globalErrorHandler_dispatch W err req res next st Hres Hnot).
  rewrite handleWithRegistry_unfold by discriminate.
  rewrite Hfind. reflexivity.
Qed.

Lemma HttpResponse_error_fields :
  forall W m s d mt,
    prop (HttpResponse_error W m s d mt) "statusCode" = default_arg s (VNum 500) /\
    prop (HttpResponse_error W m s d mt) "message"
    = js_coalesce (default_arg m (VStr "Error"))
                  (getStatusText W (default_arg s (VNum 500))) /\
    prop (HttpResponse_error W m s d mt) "data" = default_arg d VNull /\
    prop (HttpResponse_error W m s d mt) "meta"
    = obj (assign [("timestamp", VStr (now_iso W))]
                  (spread (default_arg mt (obj [])))).
Proof.
  intros W m s d mt. repeat split.
  - destruct s; reflexivity.
  - destruct s; reflexivity.
  - destruct mt; reflexivity.
Qed.

(** X19. The default answer for a domain exception.  Take an exception built
    by the [BaseException] constructor (for [BaseException] or a class
    extending it) from a message that is a string or left out and from options
    whose [statusCode] is absent, [null], a boolean or a number.  When no
    handler takes it, the middleware answers with a response whose
    status is [options.statusCode ?? 500] - the constructor has already
    resolved it, so the middleware's own [?? 400] never applies -, whose
    message is the exception's message (["Error"] when left out), whose data
    is [options.data ?? null], and whose [meta] always carries [isOperational]
    as a boolean, [true] unless the options say otherwise. *)
Theorem X19_default_answer_for_exceptions :
  forall W C message entries req res next st,
    inherits C BaseExceptionClass = true ->
    inherits C HttpResponseClass = false ->
    text_or_absent message ->
    plain_status (prop (obj entries) "statusCode") ->
    not_yet_sent res ->
    findErrorHandler (BaseException_new W C message (obj entries)) st
    = (Ok VNull, st) ->
    exists r,
      globalErrorHandler W (BaseException_new W C message (obj entries))
                         req res next st
      = HttpResponse_send W r res st /\
      prop r "statusCode"
      = js_coalesce (prop (obj entries) "statusCode") (VNum 500) /\
      prop r "message" = default_arg message (VStr "Error") /\
      prop r "data" = js_coalesce (prop (obj entries) "data") VNull /\
      own_prop (prop r "meta") "isOperational"
      = Some (VBool (if is_undef (prop (obj entries) "isOperational") then true
                     else truthy (prop (obj entries) "isOperational"))).
Proof.
  intros W C message entries req res next st HC Hnot Hmsg _ Hres Hfind.
  set (err := BaseException_new W C message (obj entries)) in *.
  rewrite (globalErrorHandler_no_handler W err req res next st Hres Hnot Hfind).
  unfold default_steps.
  assert (Hinst : instance_of_class err BaseExceptionClass = true) by exact HC.
  rewrite Hinst.
  eexists. split; [reflexivity |].
  assert (Hopt : forall k,
             String.eqb k "cause" = false ->
             String.eqb k "constructor" = false ->
             match lookup k (filter (fun kv => negb (String.eqb (fst kv) "cause"))
                                    entries) with
             | Some v => v
             | None => VUndef
             end = prop (obj entries) k).
  { intros k Hk Hk'. rewrite (lookup_filter_other k "cause" entries Hk).
    unfold obj, prop. destruct (lookup k entries); [reflexivity |].
    unfold inherited. rewrite Hk'. reflexivity. }
  pose proof (Hopt "statusCode" eq_refl eq_refl) as Hsc.
  pose proof (Hopt "data" eq_refl eq_refl) as Hdata.
  pose proof (Hopt "isOperational" eq_refl eq_refl) as Hop.
  assert (Es : prop err "statusCode"
               = js_coalesce (prop (obj entries) "statusCode") (VNum 500)).
  { rewrite <- Hsc. subst err. unfold BaseException_new.
    destruct (truthy (prop (js_or (default_arg (obj entries) (obj [])) (obj []))
                           "cause")); reflexivity. }
  assert (Em : prop err "message" = default_arg message (VStr "Error")).
  { subst err. unfold BaseException_new.
    destruct message; try contradiction;
      destruct (truthy (prop (js_or (default_arg (obj entries) (obj [])) (obj []))
                             "cause")); reflexivity. }
  assert (Ed : prop err "data" = js_coalesce (prop (obj entries) "data") VNull).
  { rewrite <- Hdata. subst err. unfold BaseException_new.
    destruct (truthy (prop (js_or (default_arg (obj entries) (obj [])) (obj []))
                           "cause")); reflexivity. }
  assert (Eo : prop err "isOperational"
               = VBool (if is_undef (prop (obj entries) "isOperational") then true
                        else truthy (prop (obj entries) "isOperational"))).
  { rewrite <- Hop. subst err. unfold BaseException_new.
    cbv zeta. cbn [js_or default_arg obj truthy spread own_prop].
    destruct (truthy (prop (obj entries) "cause"));
      destruct (lookup "isOperational"
                  (filter (fun kv : string * value =>
                             negb (String.eqb (fst kv) "cause")) entries))
        as [[] |]; reflexivity. }
  assert (Emeta : exists base,
             js_coalesce (js_coalesce (prop err "metadata") (prop err "meta")) (obj [])
             = obj (assign [("timestamp", VStr (now_iso W))] base)).
  { subst err. unfold BaseException_new.
    destruct (truthy (prop (js_or (default_arg (obj entries) (obj [])) (obj []))
                           "cause")); eexists; reflexivity. }
  destruct (HttpResponse_error_fields
              W (prop err "message")
              (js_coalesce (prop err "statusCode") (VNum HTTP_STATUS.BAD_REQUEST))
              (prop err "data") (obj (exception_meta err)))
    as (Fs & Fm & Fd & Fmeta).
  rewrite Fs, Fm, Fd, Fmeta, Es, Em, Ed.
  split; [destruct (prop (obj entries) "statusCode"); reflexivity |].
  split; [destruct message; try contradiction; reflexivity |].
  split; [destruct (prop (obj entries) "data"); reflexivity |].
  destruct Emeta as [base Hbase].
  unfold obj at 1. unfold own_prop. cbn [default_arg obj spread].
  assert (Hsingle : forall (k : string) (v : value), NoDup (map fst [(k, v)]))
    by (intros k v; simpl; apply NoDup_cons; [intros [] | apply NoDup_nil]).
  rewrite lookup_assign.
  - unfold exception_meta. rewrite Hbase, Eo. cbn [is_undef negb spread obj].
    destruct (negb (is_undef (prop err "correlationId")));
      destruct (negb (is_undef (prop err "errorCode")));
      rewrite !lookup_assign by (apply Hsingle || apply NoDup_nil); reflexivity.
  - unfold exception_meta. rewrite Hbase. cbn [spread obj].
    repeat apply assign_NoDup. apply Hsingle.
Qed.

Lemma X19_witness :
  let W := Fixtures.development in
  let res := Fixtures.mockRes false in
  let err := BaseException_new W Fixtures.SpecificTestException (VStr "specific test")
               (obj [("statusCode", VNum HTTP_STATUS.NOT_FOUND)]) in
  exists r,
    globalErrorHandler W err Fixtures.mockReq res (VFun Fixtures.mockNext) initial_state
    = HttpResponse_send W r res initial_state /\
    prop r "statusCode" = VNum 404 /\
    prop r "message" = VStr "specific test" /\
    prop r "data" = VNull /\
    own_prop (prop r "meta") "isOperational" = Some (VBool true).
Proof.
  intros W res err.
  apply (X19_default_answer_for_exceptions
           W Fixtures.SpecificTestException (VStr "specific test")
           [("statusCode", VNum HTTP_STATUS.NOT_FOUND)]
           Fixtures.mockReq res (VFun Fixtures.mockNext) initial_state).
  - reflexivity.
  - reflexivity.
  - exact I.
  - exact I.
  - split; reflexivity.
  - reflexivity.
Defined.

(** X27. The two default paths for a [BaseException] agree.  For an instance
    of [BaseException] whose [statusCode] is absent, [null], a boolean or a
    number below 10^21 and that no handler takes, the middleware sends exactly
    the response [defaultBaseExceptionHandler] returns for it: registering
    that handler, as [setupDefaultHandlers] does, is no change of the
    answer. *)
Theorem X27_default_handler_matches_middleware :
  forall W err req res next st,
    not_yet_sent res ->
    instance_of_class err HttpResponseClass = false ->
    instance_of_class err BaseExceptionClass = true ->
    plain_status (prop err "statusCode") ->
    printable (prop err "statusCode") ->
    findErrorHandler err st = (Ok VNull, st) ->
    exists r,
      defaultBaseExceptionHandler W err req res = Ok r /\
      globalErrorHandler W err req res next st = HttpResponse_send W r res st.
Proof.
  intros W err req res next st Hres Hnot Hbase _ _ Hfind.
  rewrite (globalErrorHandler_no_handler W err req res next st Hres Hnot Hfind).
  unfold default_steps, defaultBaseExceptionHandler. rewrite Hbase.
  assert (Hn : nullish err = false)
    by (destruct err; try reflexivity; discriminate).
  rewrite Hn. eexists. split; reflexivity.
Qed.

Lemma X27_witness :
  let W := Fixtures.development in
  let res := Fixtures.mockRes false in
  exists r,
    defaultBaseExceptionHandler W Fixtures.childError Fixtures.mockReq res = Ok r /\
    globalErrorHandler W Fixtures.childError Fixtures.mockReq res
                       (VFun Fixtures.mockNext) initial_state
    = HttpResponse_send W r res initial_state.
Proof.
  intros W res.
  apply (X27_default_handler_matches_middleware
           W Fixtures.childError Fixtures.mockReq res (VFun Fixtures.mockNext)
           initial_state).
  - split; reflexivity.
  - reflexivity.
  - reflexivity.
  - exact I.
  - vm_compute. reflexivity.
  - reflexivity.
Defined.

(* ========================================================================= *)
(** * Further properties of [send] and of the named factories                 *)
(* ========================================================================= *)

(** X20. [send] checks for [json] but calls [send].  A transport whose
    [status], [type] and [json] are in order but which has no callable [send]
    passes the guard of [HttpResponse.send]; the status and the content type
    are set on it, and only then does the call fail, with a [TypeError]
    rather than the guard's "Invalid Express response object". *)
Theorem X20_guard_checks_json_but_send_is_called :
  forall W this res fs ft st,
    truthy res = true ->
    prop res "status" = VFun fs ->
    prop res "type" = VFun ft ->
    typeof_ (prop res "json") = "function" ->
    (forall args, call W fs res args = Ok res) ->
    (forall args, call W ft res args = Ok res) ->
    typeof_ (prop res "send") <> "function" ->
    exists e,
      HttpResponse_send W this res st
      = (Throw e,
         add_event (ECall ft res [VStr "application/json"])
           (add_event
              (ECall fs res
                 [if truthy (SET_DEFAULT_HTTP_STATUS_CODE W)
                  then DEFAULT_HTTP_STATUS_CODE W else prop this "statusCode"])
              st)) /\
      instance_of_class e TypeErrorClass = true.
Proof.
  intros W this res fs ft st Ht Hs Hty Hj Hcs Hct Hsend.
  assert (Hn : nullish res = false) by (destruct res; try reflexivity; discriminate).
  unfold HttpResponse_send. rewrite Ht, Hs, Hj. cbn [negb orb typeof_ String.eqb].
  change (String.eqb "function" "function") with true. cbn [negb orb].
  unfold invoke_method, get_prop. rewrite Hn. run_monad. rewrite Hs.
  unfold invoke. run_monad. rewrite Hcs, Hn. run_monad. rewrite Hty.
  run_monad. rewrite Hct, Hn. run_monad.
  destruct (prop res "send") as [| | b | n | s | f | p o | ps x];
    try (eexists; split; reflexivity).
  now elim Hsend.
Qed.

Lemma X20_witness :
  let W := Fixtures.development in
  let res := obj [("headersSent", VBool false);
                  ("status", VFun Fixtures.res_status);
                  ("type", VFun Fixtures.res_type);
                  ("json", VFun Fixtures.res_json)] in
  let this := HttpResponse_success W VNull VUndef VUndef VUndef in
  exists e,
    HttpResponse_send W this res initial_state
    = (Throw e,
       add_event (ECall Fixtures.res_type res [VStr "application/json"])
         (add_event (ECall Fixtures.res_status res [VNum 200]) initial_state)) /\
    instance_of_class e TypeErrorClass = true.
Proof.
  intros W res this.
  apply (X20_guard_checks_json_but_send_is_called
           W this res Fixtures.res_status Fixtures.res_type initial_state).
  - reflexivity.
  - reflexivity.
  - reflexivity.
  - reflexivity.
  - reflexivity.
  - reflexivity.
  - discriminate.
Defined.

(** X21. The named factories cannot be made to disagree with their name.
    Whatever the arguments, [created] and [noContent] give a success with
    status 201 and 204, and [badRequest], [unauthorized], [forbidden],
    [notFound] and [conflict] give a failure with status 400, 401, 403, 404
    and 409; on the wire a failure never has a [data] entry, [created] never
    an [error] entry, and [noContent] neither. *)
Theorem X21_named_factories_fix_status_and_flag :
  forall W a b c,
    let shape r status ok :=
      prop r "statusCode" = VNum status /\
      prop r "success" = VBool ok /\
      lookup (if ok then "error" else "data") (response_body W r) = None in
    shape (HttpResponse_created W a b c) 201%Z true /\
    (shape (HttpResponse_noContent W a b) 204%Z true /\
     lookup "data" (response_body W (HttpResponse_noContent W a b)) = None) /\
    shape (HttpResponse_badRequest W a b c) 400%Z false /\
    shape (HttpResponse_unauthorized W a b c) 401%Z false /\
    shape (HttpResponse_forbidden W a b c) 403%Z false /\
    shape (HttpResponse_notFound W a b c) 404%Z false /\
    shape (HttpResponse_conflict W a b c) 409%Z false.
Proof.
  intros W a b c shape. subst shape. cbv beta.
  assert (Hshape : forall r status ok,
            prop r "statusCode" = VNum status ->
            prop r "success" = VBool ok ->
            prop r "statusCode" = VNum status /\
            prop r "success" = VBool ok /\
            lookup (if ok then "error" else "data") (response_body W r) = None).
  { intros r status ok Hs Hok. split; [exact Hs | split; [exact Hok |]].
    destruct (response_body_shape W r) as (_ & _ & _ & Hd & He & _).
    destruct ok; [rewrite He | rewrite Hd]; rewrite Hok; reflexivity. }
  split; [apply Hshape; reflexivity |].
  split.
  { split; [apply Hshape; reflexivity |].
    destruct (response_body_shape W (HttpResponse_noContent W a b))
      as (_ & _ & _ & Hd & _).
    rewrite Hd. reflexivity. }
  split; [apply Hshape; reflexivity |].
  split; [apply Hshape; reflexivity |].
  split; [apply Hshape; reflexivity |].
  split; apply Hshape; reflexivity.
Qed.

(** X22. [businessError]: the payload keeps the code, the [meta] may not.  The
    response is a 400 failure whose payload is
    [{ type: 'business', code: errorCode, details }]; its [meta] carries
    [errorType] and [errorCode] too, but there the caller's [meta] wins: an
    [errorCode] or [errorType] entry of the [meta] argument replaces the one
    derived from the arguments. *)
Theorem X22_businessError_meta_can_be_overridden :
  forall W message errorCode details entries,
    NoDup (map fst entries) ->
    let r := HttpResponse_businessError W message errorCode details (obj entries) in
    prop r "statusCode" = VNum 400 /\
    prop r "success" = VBool false /\
    prop r "data" = obj [("type", VStr "business"); ("code", errorCode);
                         ("details", default_arg details VNull)] /\
    own_prop (prop r "meta") "errorCode"
    = Some (match lookup "errorCode" entries with
            | Some v => v
            | None => errorCode
            end) /\
    own_prop (prop r "meta") "errorType"
    = Some (match lookup "errorType" entries with
            | Some v => v
            | None => VStr "business"
            end).
Proof.
  intros W message errorCode details entries Hnd r.
  assert (Hmeta : prop r "meta"
                  = obj (assign [("timestamp", VStr (now_iso W))]
                           (assign [("errorType", VStr "business");
                                    ("errorCode", errorCode)] entries)))
    by reflexivity.
  assert (Hnd2 : NoDup (map fst (assign [("errorType", VStr "business");
                                         ("errorCode", errorCode)] entries))).
  { apply assign_NoDup. simpl.
    repeat (apply NoDup_cons || apply NoDup_nil); simpl; intuition discriminate. }
  split; [reflexivity |]. split; [reflexivity |]. split; [reflexivity |].
  rewrite Hmeta. unfold obj, own_prop.
  rewrite !(lookup_assign _ _ _ Hnd2), !(lookup_assign _ _ _ Hnd).
  split.
  - destruct (lookup "errorCode" entries); reflexivity.
  - destruct (lookup "errorType" entries); reflexivity.
Qed.

Lemma X22_witness :
  let r := HttpResponse_businessError Fixtures.development
             (VStr "Insufficient balance") (VStr "INSUFFICIENT_BALANCE") VUndef
             (obj [("errorCode", VStr "E42")]) in
  prop r "statusCode" = VNum 400 /\
  prop r "success" = VBool false /\
  prop r "data" = obj [("type", VStr "business");
                       ("code", VStr "INSUFFICIENT_BALANCE"); ("details", VNull)] /\
  own_prop (prop r "meta") "errorCode" = Some (VStr "E42") /\
  own_prop (prop r "meta") "errorType" = Some (VStr "business").
Proof.
  apply (X22_businessError_meta_can_be_overridden
           Fixtures.development (VStr "Insufficient balance")
           (VStr "INSUFFICIENT_BALANCE") VUndef [("errorCode", VStr "E42")]).
  simpl. apply NoDup_cons; [intros [] | apply NoDup_nil].
Defined.

(* ========================================================================= *)
(** * The user module                                                         *)
(* ========================================================================= *)

(** X23. Who handles what after start-up.  Running [setupDefaultHandlers()]
    and then [initializeUserModule()] on an empty registry - the order of
    bootstrap.js - leaves four entries, [BaseException] first.  From then on
    an exception gets a user handler only when its class is exactly
    [UserNotFoundException], [UserPermissionException] or
    [UserStateException]; every other [BaseException] - a
    [UserValidationException], and also an instance of a class that extends
    one of the three - gets the default handler, because [BaseException] is
    the first registered ancestor; [handleUserValidation] is never chosen. *)
Theorem X23_registry_after_bootstrap :
  forall st,
    registry_cell st = [] ->
    exists st',
      (setupDefaultHandlers VUndef ;;; initializeUserModule) st = (Ok VUndef, st') /\
      registry_cell st'
      = [(FClass BaseExceptionClass, safeDefaultHandler_fn);
         (FClass UserNotFoundException, handleUserNotFound_fn);
         (FClass UserPermissionException, handleUserPermission_fn);
         (FClass UserStateException, handleUserState_fn)] /\
      (forall c err,
          inherits c BaseExceptionClass = true ->
          created_by c err ->
          findErrorHandler err st' = (Ok (VFun (bootstrap_choice c)), st') /\
          bootstrap_choice c <> handleUserValidation_fn).
Proof.
  intros [reg fresh tr] Hreg. simpl in Hreg. subst reg.
  exists {| registry_cell :=
              [(FClass BaseExceptionClass, safeDefaultHandler_fn);
               (FClass UserNotFoundException, handleUserNotFound_fn);
               (FClass UserPermissionException, handleUserPermission_fn);
               (FClass UserStateException, handleUserState_fn)];
            fresh_maps := fresh;
            trace := tr ++ [ELog "log"
                              [VStr "[USER_MODULE] Error handlers registered"]] |}.
  split; [reflexivity |]. split; [reflexivity |].
  intros c err Hc Hcreated.
  split;
    [| unfold bootstrap_choice;
       destruct (class_eqb c UserNotFoundException);
       [| destruct (class_eqb c UserPermissionException);
          [| destruct (class_eqb c UserStateException)]];
       discriminate].
  rewrite findErrorHandler_unfold. cbn [registry_cell].
  rewrite (exact_phase_lookup _ _ _ (created_by_constructor _ _ Hcreated)).
  cbn [map_get fn_eqb]. unfold bootstrap_choice.
  destruct (class_eqb c BaseExceptionClass) eqn:E0.
  { apply class_eqb_eq in E0. subst c. reflexivity. }
  destruct (class_eqb c UserNotFoundException); [reflexivity |].
  destruct (class_eqb c UserPermissionException); [reflexivity |].
  destruct (class_eqb c UserStateException); [reflexivity |].
  cbn [inheritance_phase].
  rewrite (created_by_instance _ BaseExceptionClass _ Hcreated), Hc.
  reflexivity.
Qed.

Lemma X23_witness :
  exists st',
    (setupDefaultHandlers VUndef ;;; initializeUserModule) initial_state
    = (Ok VUndef, st') /\
    findErrorHandler
      (BaseException_new Fixtures.development UserValidationException
                         (VStr "User validation failed: email unique") VUndef)
      st'
    = (Ok (VFun safeDefaultHandler_fn), st') /\
    findErrorHandler
      (BaseException_new Fixtures.development
                         (Extends 40 "AdminNotFoundException" UserNotFoundException)
                         (VStr "User not found: 7") VUndef)
      st'
    = (Ok (VFun safeDefaultHandler_fn), st').
Proof.
  destruct (X23_registry_after_bootstrap initial_state eq_refl)
    as (st' & Hrun & _ & Hfind).
  exists st'. split; [exact Hrun |]. split.
  - apply (Hfind UserValidationException); [reflexivity |].
    eexists. split; reflexivity.
  - apply (Hfind (Extends 40 "AdminNotFoundException" UserNotFoundException));
      [reflexivity |].
    eexists. split; reflexivity.
Defined.

(** X24. An unknown state transition gets no advice at all.  For state names
    given as strings, [getStateTransitionActions] returns the listed actions
    for the three known transitions to [active] and the empty list for every
    other pair: its closing "Contact support for assistance" is never
    returned, because the empty list it falls back from is truthy.  Its
    sibling [getValidationSuggestions], which falls back from the empty
    string, does return its generic advice for every pair it does not list. *)
Theorem X24_unknown_transition_gets_no_advice :
  forall a b : string,
    getStateTransitionActions (VStr a) (VStr b)
    = (if String.eqb b "active"
       then if String.eqb a "inactive"
            then array [VStr "Verify email address"; VStr "Complete profile setup"]
            else if String.eqb a "suspended"
                 then array [VStr "Contact support for account review"]
                 else if String.eqb a "pending"
                      then array [VStr "Wait for account approval"]
                      else array []
       else array []) /\
    getStateTransitionActions (VStr a) (VStr b)
    <> array [VStr "Contact support for assistance"] /\
    getValidationSuggestions (VStr a) (VStr b)
    = (if String.eqb a "email"
       then if String.eqb b "format"
            then array [VStr "Use valid email format: user@domain.com"]
            else if String.eqb b "unique"
                 then array [VStr "This email is already registered";
                             VStr "Try a different email address"]
                 else array [VStr "Please check the input and try again"]
       else if String.eqb a "username"
            then if String.eqb b "length"
                 then array [VStr "Username must be 3-20 characters"]
                 else if String.eqb b "format"
                      then array [VStr "Use only letters, numbers, and underscores"]
                      else if String.eqb b "unique"
                           then array [VStr "This username is taken";
                                       VStr "Try adding numbers or underscores"]
                           else array [VStr "Please check the input and try again"]
            else array [VStr "Please check the input and try again"]).
Proof.
  intros a b.
  assert (Hactions :
    getStateTransitionActions (VStr a) (VStr b)
    = (if String.eqb b "active"
       then if String.eqb a "inactive"
            then array [VStr "Verify email address"; VStr "Complete profile setup"]
            else if String.eqb a "suspended"
                 then array [VStr "Contact support for account review"]
                 else if String.eqb a "pending"
                      then array [VStr "Wait for account approval"]
                      else array []
       else array [])).
  { unfold getStateTransitionActions, safeGet.
    cbn [nullish obj own_prop to_string lookup].
    destruct (String.eqb a "inactive");
      [| destruct (String.eqb a "suspended");
         [| destruct (String.eqb a "pending")]];
      cbn [nullish obj own_prop to_string lookup];
      destruct (String.eqb b "active"); reflexivity. }
  split; [exact Hactions |]. split.
  - rewrite Hactions.
    destruct (String.eqb b "active");
      [destruct (String.eqb a "inactive");
       [| destruct (String.eqb a "suspended");
          [| destruct (String.eqb a "pending")]] |];
      discriminate.
  - unfold getValidationSuggestions, safeGet.
    cbn [nullish obj own_prop to_string lookup].
    destruct (String.eqb a "email");
      [| destruct (String.eqb a "username")];
      cbn [nullish obj own_prop to_string lookup];
      repeat match goal with
             | |- context [String.eqb b ?k] => destruct (String.eqb b k)
             end; reflexivity.
Qed.

(** X25. The answer to a missing user.  For an exception built by
    [new UserNotFoundException(identifier, options)] from an identifier that
    is a string, a boolean, [null], [undefined] or an integer below 10^21,
    with an options object that brings no [metadata] of its own, and a request
    whose [path] is such a value too, [handleUserNotFound]
    does not fail: it logs one line and returns a failure with status 404 and
    message "User not found" - also when [options.statusCode] gave the
    exception another status -, whose details name the identifier searched for
    and whose [meta] has the domain [user]. *)
Theorem X25_user_not_found_answer :
  forall W identifier entries req res st,
    printable identifier ->
    lookup "metadata" entries = None ->
    nullish req = false ->
    printable (prop req "path") ->
    exists err r line,
      UserNotFoundException_new W identifier (obj entries) = Ok err /\
      instance_of_class err UserNotFoundException = true /\
      handleUserNotFound W err req res st
      = (Ok r, add_event (ELog "log" [VStr line]) st) /\
      prop r "statusCode" = VNum 404 /\
      prop r "success" = VBool false /\
      prop r "message" = VStr "User not found" /\
      prop (prop (prop r "data") "details") "searchedFor" = identifier /\
      own_prop (prop r "meta") "domain" = Some (VStr "user").
Proof.
  intros W identifier entries req res st _ Hmeta Hreq _.
  set (M := obj [("domain", VStr "user"); ("identifier", identifier)]).
  set (opts := set_prop "metadata" M
                 (assign [("statusCode", VNum HTTP_STATUS.NOT_FOUND);
                          ("errorCode", VStr "USER_NOT_FOUND")] entries)).
  assert (Hmd : lookup "metadata"
                  (filter (fun kv : string * value =>
                             negb (String.eqb (fst kv) "cause")) opts)
                = Some M).
  { rewrite lookup_filter_other by reflexivity. unfold opts.
    rewrite lookup_set_prop. reflexivity. }
  assert (Hctor : UserNotFoundException_new W identifier (obj entries)
                  = Ok (set_field
                          (BaseException_new W UserNotFoundException
                             (VStr ("User not found: " ++ to_string identifier))
                             (obj opts))
                          "name" (VStr "UserNotFoundException"))).
  { unfold UserNotFoundException_new, get_prop, opts, M.
    cbn [default_arg obj nullish prop]. rewrite Hmeta. reflexivity. }
  set (err := set_field
                (BaseException_new W UserNotFoundException
                   (VStr ("User not found: " ++ to_string identifier)) (obj opts))
                "name" (VStr "UserNotFoundException")) in *.
  assert (Emd : prop err "metadata"
                = obj [("timestamp", VStr (now_iso W)); ("domain", VStr "user");
                       ("identifier", identifier)]).
  { subst err. unfold BaseException_new, set_field.
    cbv zeta. cbn [js_or default_arg obj truthy spread own_prop].
    rewrite Hmd.
    destruct (truthy (prop (obj opts) "cause")); reflexivity. }
  assert (Hn : nullish err = false) by reflexivity.
  exists err.
  eexists. eexists.
  split; [exact Hctor |].
  split; [reflexivity |].
  split.
  { unfold handleUserNotFound, get_prop. rewrite Hn, Emd, Hreq.
    cbn [nullish obj]. run_monad. reflexivity. }
  repeat split.
Qed.

Lemma X25_witness :
  let W := Fixtures.development in
  exists err r line,
    UserNotFoundException_new W (VNum 42) (obj [("statusCode", VNum 410)]) = Ok err /\
    instance_of_class err UserNotFoundException = true /\
    handleUserNotFound W err Fixtures.test0_req VNull initial_state
    = (Ok r, add_event (ELog "log" [VStr line]) initial_state) /\
    prop r "statusCode" = VNum 404 /\
    prop r "success" = VBool false /\
    prop r "message" = VStr "User not found" /\
    prop (prop (prop r "data") "details") "searchedFor" = VNum 42 /\
    own_prop (prop r "meta") "domain" = Some (VStr "user").
Proof.
  intros W.
  apply (X25_user_not_found_answer
           W (VNum 42) [("statusCode", VNum 410)] Fixtures.test0_req VNull
           initial_state).
  - vm_compute. reflexivity.
  - reflexivity.
  - reflexivity.
  - exact I.
Defined.

(** X26. The answer to an invalid user state.  For an exception built by
    [new UserStateException(userId, currentState, requiredState, operation,
    options)] with state names given as strings, a user id and an operation
    that are each a string, a boolean, [null], [undefined] or an integer below
    10^21, and an options object that
    brings no [data] and no [metadata] of its own, [handleUserState] does not
    fail: it logs one line and returns a failure with status 409 whose details
    carry both states and, as [possibleActions], what
    [getStateTransitionActions] gives for them, and whose [meta] is marked
    [retryable] exactly when the current state is [pending] or [processing]. *)
Theorem X26_user_state_answer :
  forall W userId a b operation entries req res st,
    printable userId ->
    printable operation ->
    lookup "data" entries = None ->
    lookup "metadata" entries = None ->
    exists err r line,
      UserStateException_new W userId (VStr a) (VStr b) operation (obj entries)
      = Ok err /\
      instance_of_class err UserStateException = true /\
      handleUserState W err req res st
      = (Ok r, add_event (ELog "log" [VStr line]) st) /\
      prop r "statusCode" = VNum 409 /\
      prop r "success" = VBool false /\
      prop (prop r "data") "currentState" = VStr a /\
      prop (prop r "data") "requiredState" = VStr b /\
      prop (prop r "data") "possibleActions"
      = getStateTransitionActions (VStr a) (VStr b) /\
      own_prop (prop r "meta") "retryable"
      = Some (VBool (String.eqb a "pending" || String.eqb a "processing")).
Proof.
  intros W userId a b operation entries req res st _ _ Hdata Hmeta.
  set (D := obj [("userId", userId); ("currentState", VStr a);
                 ("requiredState", VStr b); ("operation", operation)]).
  set (Mo := obj [("domain", VStr "user"); ("stateTransition", VBool true)]).
  set (opts := set_prop "metadata" Mo
                 (set_prop "data" D
                    (assign [("statusCode", VNum HTTP_STATUS.CONFLICT);
                             ("errorCode", VStr "USER_INVALID_STATE")] entries))).
  set (message := VStr ("User " ++ to_string userId ++ " is " ++ to_string (VStr a)
                        ++ ", requires " ++ to_string (VStr b)
                        ++ " for " ++ to_string operation)).
  assert (Hmd : lookup "metadata"
                  (filter (fun kv : string * value =>
                             negb (String.eqb (fst kv) "cause")) opts)
                = Some Mo).
  { rewrite lookup_filter_other by reflexivity. unfold opts.
    rewrite lookup_set_prop. reflexivity. }
  assert (Hd : lookup "data"
                 (filter (fun kv : string * value =>
                            negb (String.eqb (fst kv) "cause")) opts)
               = Some D).
  { rewrite lookup_filter_other by reflexivity. unfold opts.
    rewrite !lookup_set_prop. reflexivity. }
  assert (Hctor : UserStateException_new W userId (VStr a) (VStr b) operation
                                         (obj entries)
                  = Ok (set_field
                          (BaseException_new W UserStateException message (obj opts))
                          "name" (VStr "UserStateException"))).
  { unfold UserStateException_new, get_prop, opts, D, Mo, message.
    cbn [default_arg obj nullish prop]. rewrite Hdata, Hmeta. reflexivity. }
  set (err := set_field
                (BaseException_new W UserStateException message (obj opts))
                "name" (VStr "UserStateException")) in *.
  assert (Emd : prop err "metadata"
                = obj [("timestamp", VStr (now_iso W)); ("domain", VStr "user");
                       ("stateTransition", VBool true)]).
  { subst err. unfold BaseException_new, set_field.
    cbv zeta. cbn [js_or default_arg obj truthy spread own_prop].
    rewrite Hmd, Hd.
    destruct (truthy (prop (obj opts) "cause")); reflexivity. }
  assert (Ed : prop err "data" = D).
  { subst err. unfold BaseException_new, set_field.
    cbv zeta. cbn [js_or default_arg obj truthy spread own_prop].
    rewrite Hmd, Hd.
    destruct (truthy (prop (obj opts) "cause")); reflexivity. }
  assert (Hn : nullish err = false) by reflexivity.
  exists err.
  eexists. eexists.
  split; [exact Hctor |].
  split; [reflexivity |].
  split.
  { unfold handleUserState, get_prop. rewrite Hn, Ed, Emd.
    cbn [nullish obj D]. run_monad. reflexivity. }
  repeat split.
Qed.

Lemma X26_witness :
  let W := Fixtures.development in
  exists err r line,
    UserStateException_new W (VNum 7) (VStr "pending") (VStr "deleted")
                           (VStr "login") (obj [])
    = Ok err /\
    instance_of_class err UserStateException = true /\
    handleUserState W err Fixtures.test0_req VNull initial_state
    = (Ok r, add_event (ELog "log" [VStr line]) initial_state) /\
    prop r "statusCode" = VNum 409 /\
    prop r "success" = VBool false /\
    prop (prop r "data") "currentState" = VStr "pending" /\
    prop (prop r "data") "requiredState" = VStr "deleted" /\
    prop (prop r "data") "possibleActions"
    = getStateTransitionActions (VStr "pending") (VStr "deleted") /\
    own_prop (prop r "meta") "retryable" = Some (VBool true).
Proof.
  intros W.
  apply (X26_user_state_answer
           W (VNum 7) "pending" "deleted" (VStr "login") [] Fixtures.test0_req VNull
           initial_state).
  - vm_compute. reflexivity.
  - exact I.
  - reflexivity.
  - reflexivity.
Defined.
